(** * Index naming, write routing and read plans of the Elasticsearch stores

    A shallow embedding of
    - [internal/storage/elasticsearch/config/utils.go]
      ([IndexWithDate], [GetDataStreamLegacyWildcard]),
    - the sampling store ([samplingstore/storage.go], with and without the
      data-stream switch), and
    - the dependency store ([depstore/storage.go]),
    together with the properties of the index lifecycle specification that
    these functions decide.

    Conventions.  An instant is an unbounded integer count of nanoseconds
    since the Unix epoch (the saturation of [time.Time] near the ends of its
    range is not modelled); a [time.Duration] is an [int64] held in [Z], with
    the wrap-around of negation written out.  Calls on the search-engine
    client are the constructors of a small free monad, so that a store
    operation is a tree over the client's answers. *)

From Stdlib Require Import ZArith Lia List String Ascii Bool.
From stdpp Require Import base gmap strings list.

Open Scope Z_scope.

(* ===================================================================== *)
(** ** Byte strings *)
(* ===================================================================== *)

Module Strings.

(** [s[n:]] for [n <= len(s)]. *)
Fixpoint drop (n : nat) (s : string) : string :=
  match n, s with
  | O, _ => s
  | S _, EmptyString => EmptyString
  | S k, String _ s' => drop k s'
  end.

(** [strings.Replace(s, old, new, n)] for a non-empty [old]: the first [n]
    non-overlapping occurrences of [old], scanning from the left, are
    replaced by [new]; a negative [n] puts no limit.  [fuel] bounds the
    number of bytes scanned. *)
Fixpoint Replace_go (fuel : nat) (s old new : string) (n : Z) : string :=
  match fuel with
  | O => s
  | S fuel' =>
      if n =? 0 then s
      else match s with
           | EmptyString => EmptyString
           | String c s' =>
               if String.prefix old s
               then new +:+ Replace_go fuel' (drop (String.length old) s) old new (n - 1)
               else String c (Replace_go fuel' s' old new n)
           end
  end.

Definition Replace (s old new : string) (n : Z) : string :=
  if String.eqb old new then s
  else Replace_go (String.length s) s old new n.

(** [strings.Contains] for a one-byte needle. *)
Fixpoint ContainsByte (s : string) (c : ascii) : bool :=
  match s with
  | EmptyString => false
  | String c' s' => Ascii.eqb c' c || ContainsByte s' c
  end.

End Strings.

(* ===================================================================== *)
(** ** The fragment of package [time] the stores use *)
(* ===================================================================== *)

Module GoTime.

(** [time.Duration]: an [int64] number of nanoseconds. *)
Definition Duration := Z.

Definition Nanosecond : Duration := 1.
Definition Second : Duration := 1000000000.
Definition Minute : Duration := 60 * Second.
Definition Hour : Duration := 60 * Minute.
Definition Day : Duration := 24 * Hour.

Definition minInt64 : Z := - 2 ^ 63.
Definition maxInt64 : Z := 2 ^ 63 - 1.

Definition wrap64 (z : Z) : Z := (z + 2 ^ 63) mod 2 ^ 64 - 2 ^ 63.

(** Unary minus on a [Duration]. *)
Definition neg (d : Duration) : Duration := wrap64 (- d).

(** [*time.Location]: the offset, in seconds east of UTC, in force at a
    given Unix second. *)
Record Location := { zoneOffset : Z -> Z }.

Definition UTCLoc : Location := {| zoneOffset := fun _ => 0 |}.

(** [time.Time]: an instant and the location it is shown in. *)
Record Time := { unixNano : Z; location : Location }.

Definition Add (t : Time) (d : Duration) : Time :=
  {| unixNano := unixNano t + d; location := location t |}.

Definition UTC (t : Time) : Time :=
  {| unixNano := unixNano t; location := UTCLoc |}.

(** [time.Date(y, m, d, hh, mm, ss, 0, time.UTC)] is built further down,
    from [daysFromCivil]. *)

Definition unixSec (t : Time) : Z := unixNano t / Second.

(** Seconds since the epoch on the wall clock of [t]'s location. *)
Definition wallSec (t : Time) : Z :=
  unixSec t + zoneOffset (location t) (unixSec t).

(** *** Proleptic Gregorian calendar *)

(** Day of the 400-year era, counted from 1 March, to
    (year of era, month, day of month). *)
Definition civilOfDoe (doe : Z) : Z * Z * Z :=
  let yoe := (doe - doe / 1460 + doe / 36524 - doe / 146096) / 365 in
  let doy := doe - (365 * yoe + yoe / 4 - yoe / 100) in
  let mp := (5 * doy + 2) / 153 in
  let d := doy - (153 * mp + 2) / 5 + 1 in
  let m := if mp <? 10 then mp + 3 else mp - 9 in
  (yoe, m, d).

(** Days since 1970-01-01 to (year, month, day). *)
Definition civilFromDays (z : Z) : Z * Z * Z :=
  let z' := z + 719468 in
  let era := z' / 146097 in
  let doe := z' - era * 146097 in
  let '(yoe, m, d) := civilOfDoe doe in
  let y := yoe + era * 400 in
  ((if m <=? 2 then y + 1 else y), m, d).

Definition doeOfCivil (yoe m d : Z) : Z :=
  let doy := (153 * (if 2 <? m then m - 3 else m + 9) + 2) / 5 + d - 1 in
  yoe * 365 + yoe / 4 - yoe / 100 + doy.

(** (year, month, day) to days since 1970-01-01. *)
Definition daysFromCivil (y m d : Z) : Z :=
  let y' := if m <=? 2 then y - 1 else y in
  let era := y' / 400 in
  let yoe := y' - era * 400 in
  era * 146097 + doeOfCivil yoe m d - 719468.

(** [time.Date(y, m, d, hh, mm, ss, 0, time.UTC)]. *)
Definition Date (y m d hh mm ss : Z) : Time :=
  {| unixNano := (daysFromCivil y m d * 86400 + hh * 3600 + mm * 60 + ss) * Second;
     location := UTCLoc |}.

Definition dayIndex (t : Time) : Z := wallSec t / 86400.
Definition hourIndex (t : Time) : Z := wallSec t / 3600.
Definition minuteIndex (t : Time) : Z := wallSec t / 60.

Definition Year (t : Time) : Z := fst (fst (civilFromDays (dayIndex t))).
Definition Month (t : Time) : Z := snd (fst (civilFromDays (dayIndex t))).
Definition DayOfMonth (t : Time) : Z := snd (civilFromDays (dayIndex t)).
Definition HourOfDay (t : Time) : Z := hourIndex t mod 24.
Definition MinuteOfHour (t : Time) : Z := minuteIndex t mod 60.
Definition SecondOfMinute (t : Time) : Z := wallSec t mod 60.

(** *** Formatting *)

Definition digit (n : Z) : ascii := ascii_of_nat (48 + Z.to_nat n).

(** The last [n] decimal digits of [u]. *)
Fixpoint lastDigits (n : nat) (u : Z) : string :=
  match n with
  | O => EmptyString
  | S k => lastDigits k (u / 10) +:+ String (digit (u mod 10)) EmptyString
  end.

(** The loop [for u2 := u; u2 > 0; u2 /= 10 { n++ }]. *)
Fixpoint countDigits (fuel : nat) (u : Z) : nat :=
  match fuel with
  | O => O
  | S fuel' => if 0 <? u then S (countDigits fuel' (u / 10)) else O
  end.

Definition numDigits (u : Z) : nat :=
  if u =? 0 then 1%nat else countDigits (S (Z.to_nat (Z.log2 u))) u.

(** [appendInt(b, x, width)]: [x] in decimal, zero-padded to [width],
    after a minus sign when negative. *)
Definition appendInt (x : Z) (width : nat) : string :=
  let sign := if x <? 0 then "-" else "" in
  let u := Z.abs x in
  if (Nat.eqb width 2 && (u <? 100))%bool then sign +:+ lastDigits 2 u
  else if (Nat.eqb width 4 && (u <? 10000))%bool then sign +:+ lastDigits 4 u
  else sign +:+ lastDigits (Nat.max width (numDigits u)) u.

(** The layout chunks the index date layouts are made of.  The package has
    more (month and weekday names, 12-hour clock, unpadded fields, zones,
    fractions of a second); no layout of the stores uses them, and here a
    byte that starts none of the chunks below stands for itself (see
    [plainLayout] for the layouts on which this is the package's scan). *)
Inductive stdChunk :=
| stdLongYear            (* "2006" *)
| stdZeroMonth           (* "01" *)
| stdZeroDay             (* "02" *)
| stdHour                (* "15" *)
| stdZeroMinute          (* "04" *)
| stdZeroSecond          (* "05" *)
| stdLiteral (c : ascii).

(** The scan of [nextStdChunk], left to right; [skip] counts the bytes of
    the chunk just recognised that are still to be passed over. *)
Fixpoint chunks_go (layout : string) (skip : nat) : list stdChunk :=
  match layout with
  | EmptyString => []
  | String c rest =>
      match skip with
      | S k => chunks_go rest k
      | O =>
          if String.prefix "2006" layout then stdLongYear :: chunks_go rest 3
          else if String.prefix "01" layout then stdZeroMonth :: chunks_go rest 1
          else if String.prefix "02" layout then stdZeroDay :: chunks_go rest 1
          else if String.prefix "15" layout then stdHour :: chunks_go rest 1
          else if String.prefix "04" layout then stdZeroMinute :: chunks_go rest 1
          else if String.prefix "05" layout then stdZeroSecond :: chunks_go rest 1
          else stdLiteral c :: chunks_go rest 0
      end
  end.

Definition chunks (layout : string) : list stdChunk := chunks_go layout 0.

Definition appendChunk (t : Time) (c : stdChunk) : string :=
  match c with
  | stdLongYear => appendInt (Year t) 4
  | stdZeroMonth => appendInt (Month t) 2
  | stdZeroDay => appendInt (DayOfMonth t) 2
  | stdHour => appendInt (HourOfDay t) 2
  | stdZeroMinute => appendInt (MinuteOfHour t) 2
  | stdZeroSecond => appendInt (SecondOfMinute t) 2
  | stdLiteral c => String c EmptyString
  end.

Fixpoint appendChunks (t : Time) (cs : list stdChunk) : string :=
  match cs with
  | [] => EmptyString
  | c :: cs' => appendChunk t c +:+ appendChunks t cs'
  end.

(** [t.Format(layout)], for the layouts of [plainLayout] below: on a layout
    with a field other than the six above the package prints that field,
    and this definition copies its bytes. *)
Definition Format (t : Time) (layout : string) : string :=
  appendChunks t (chunks layout).

(** The fixed-length period on which the value of a chunk is constant. *)
Definition chunkPeriod (c : stdChunk) : option Duration :=
  match c with
  | stdLongYear | stdZeroMonth | stdZeroDay => Some Day
  | stdHour => Some Hour
  | stdZeroMinute => Some Minute
  | stdZeroSecond => Some Second
  | stdLiteral _ => None
  end.

Definition minPeriod (a : option Duration) (b : option Duration) : option Duration :=
  match a, b with
  | Some x, Some y => Some (Z.min x y)
  | Some x, None => Some x
  | None, _ => b
  end.

(** The bytes that, in the package, can start a chunk other than the six
    above: the digits, and the first letters of the month and weekday names,
    of the half-day marks and of the zones. *)
Definition startsOtherChunk (c : ascii) : bool :=
  ((48 <=? N_of_ascii c) && (N_of_ascii c <=? 57))%N
  || existsb (Ascii.eqb c) ["J"; "M"; "P"; "p"; "Z"; "_"]%char.

(** A layout made of the six chunks above and of bytes that start no other
    chunk: on such a layout the scan above is that of the package. *)
Definition plainChunk (c : stdChunk) : bool :=
  match c with
  | stdLiteral ch => negb (startsOtherChunk ch)
  | _ => true
  end.

Definition plainLayout (layout : string) : bool := forallb plainChunk (chunks layout).

(** The period of a plain layout: that of its finest field; [None] for a
    layout without fields, and for one that is not plain. *)
Definition layoutPeriod (layout : string) : option Duration :=
  if plainLayout layout
  then fold_right (fun c acc => minPeriod (chunkPeriod c) acc) None (chunks layout)
  else None.

End GoTime.

(* ===================================================================== *)
(** ** Package [config]: index names *)
(* ===================================================================== *)

Module config.

(** Modelled from the spec: the constant [IndexPrefixSeparator] is declared
    in a file of package [config] that is not embedded here; the aliases of
    an entity are [<base>-write] and [<base>-read], so the separator is a
    dash. *)
Definition IndexPrefixSeparator : string := "-".

(** [IndexWithDate] returns index name with date. *)
Definition IndexWithDate (indexPrefix indexDateLayout : string) (date : GoTime.Time) : string :=
  indexPrefix +:+ GoTime.Format (GoTime.UTC date) indexDateLayout.

(** [GetDataStreamLegacyWildcard] returns the legacy wildcard pattern for a
    data stream: the first dot becomes a dash and a wildcard is appended. *)
Definition GetDataStreamLegacyWildcard (dataStreamName : string) : string :=
  Strings.Replace dataStreamName "." "-" 1 +:+ "-*".

End config.

(* ===================================================================== *)
(** ** What the stores take from packages that are not embedded here *)
(* ===================================================================== *)

(** The payload types of packages [model] and [dbmodel], the conversion
    between them, the way an [IndexPrefix] is applied to a base name, and the
    hash that identifies a service/operation record. *)
Class Externals := {
  IndexPrefix : Type;
  Apply : IndexPrefix -> string -> string;
  Throughput : Type;
  dbThroughput : Type;
  FromThroughputs : list Throughput -> list dbThroughput;
  ServiceOperationProbabilities : Type;
  ServiceOperationQPS : Type;
  DependencyLink : Type;
  Service : Type;
  hashCode : Service -> string
}.

(* ===================================================================== *)
(** ** The search-engine client *)
(* ===================================================================== *)

Module es.
Section Client.
Context `{Ext : Externals}.

Inductive error :=
| errNew (msg : string)                 (* errors.New(msg) *)
| errWrap (msg : string) (e : error)    (* fmt.Errorf(msg + ": %w", e) *)
| errClient (reason : string).          (* an error answered by the client *)

(** The documents the stores index. *)
Inductive Doc :=
| TimeThroughput (Timestamp : GoTime.Time) (tp : dbThroughput)
| TimeProbabilitiesAndQPS (Timestamp : GoTime.Time)
    (Probabilities : ServiceOperationProbabilities) (QPS : ServiceOperationQPS)
| TimeDependencies (Timestamp : GoTime.Time) (Dependencies : list DependencyLink)
| ServiceDoc (svc : Service).

(** The index request under construction ([es.IndexService]); [Add] hands
    it to the bulk processor together with the operation type, the empty
    operation type being the default one ([index], an upsert). *)
Record IndexService := {
  isIndex : string;
  isType : string;
  isId : option string;
  isBody : option Doc;
  isOpType : string
}.

Definition newIndexService : IndexService :=
  {| isIndex := ""; isType := ""; isId := None; isBody := None; isOpType := "" |}.

Definition Index (il : IndexService) (index : string) : IndexService :=
  {| isIndex := index; isType := isType il; isId := isId il;
     isBody := isBody il; isOpType := isOpType il |}.

Definition Type_ (il : IndexService) (typ : string) : IndexService :=
  {| isIndex := isIndex il; isType := typ; isId := isId il;
     isBody := isBody il; isOpType := isOpType il |}.

Definition Id (il : IndexService) (id : string) : IndexService :=
  {| isIndex := isIndex il; isType := isType il; isId := Some id;
     isBody := isBody il; isOpType := isOpType il |}.

Definition BodyJson (il : IndexService) (body : Doc) : IndexService :=
  {| isIndex := isIndex il; isType := isType il; isId := isId il;
     isBody := Some body; isOpType := isOpType il |}.

Definition withOpType (il : IndexService) (opType : string) : IndexService :=
  {| isIndex := isIndex il; isType := isType il; isId := isId il;
     isBody := isBody il; isOpType := opType |}.

(** A store operation: a tree of client calls, branching on the answers.
    [Add] answers nothing. *)
Inductive Prog (A : Type) : Type :=
| Ret (a : A)
| IndexExistsDo (index : string) (k : bool * option error -> Prog A)
| CreateIndexDo (index : string) (k : option error -> Prog A)
| GetVersion (k : Z -> Prog A)
| AddDo (w : IndexService) (k : Prog A).

Arguments Ret {A} a.
Arguments IndexExistsDo {A} index k.
Arguments CreateIndexDo {A} index k.
Arguments GetVersion {A} k.
Arguments AddDo {A} w k.

Fixpoint bind {A B : Type} (p : Prog A) (f : A -> Prog B) : Prog B :=
  match p with
  | Ret a => f a
  | IndexExistsDo index k => IndexExistsDo index (fun r => bind (k r) f)
  | CreateIndexDo index k => CreateIndexDo index (fun r => bind (k r) f)
  | GetVersion k => GetVersion (fun v => bind (k v) f)
  | AddDo w k => AddDo w (bind k f)
  end.

(** [il.Add(opType)]. *)
Definition Add (il : IndexService) (opType : string) : Prog unit :=
  AddDo (withOpType il opType) (Ret tt).

(** What a run of a store operation leaves behind: the calls made, each
    with the answer it got. *)
Inductive Event :=
| EvIndexExists (index : string) (ans : bool * option error)
| EvCreateIndex (index : string) (ans : option error)
| EvGetVersion (v : Z)
| EvAdd (w : IndexService).

(** A client: any state, and any answers. *)
Record Client (St : Type) := {
  onIndexExists : string -> St -> (bool * option error) * St;
  onCreateIndex : string -> St -> option error * St;
  onGetVersion : St -> Z * St;
  onAdd : IndexService -> St -> St
}.

Arguments onIndexExists {St} c index st.
Arguments onCreateIndex {St} c index st.
Arguments onGetVersion {St} c st.
Arguments onAdd {St} c w st.

(** One call of a store operation against a client. *)
Definition step {St A : Type} (c : Client St) (p : Prog A) (st : St)
  : Prog A * St * list Event :=
  match p with
  | Ret a => (Ret a, st, [])
  | IndexExistsDo index k =>
      let '(ans, st') := onIndexExists c index st in
      (k ans, st', [EvIndexExists index ans])
  | CreateIndexDo index k =>
      let '(ans, st') := onCreateIndex c index st in
      (k ans, st', [EvCreateIndex index ans])
  | GetVersion k =>
      let '(v, st') := onGetVersion c st in
      (k v, st', [EvGetVersion v])
  | AddDo w k => (k, onAdd c w st, [EvAdd w])
  end.

(** A whole store operation against a client: its result, the final state
    of the client and the events, oldest first. *)
Fixpoint run {St A : Type} (c : Client St) (p : Prog A) (st : St)
  : A * St * list Event :=
  match p with
  | Ret a => (a, st, [])
  | IndexExistsDo index k =>
      let '(ans, st') := onIndexExists c index st in
      let '(a, st'', evs) := run c (k ans) st' in
      (a, st'', EvIndexExists index ans :: evs)
  | CreateIndexDo index k =>
      let '(ans, st') := onCreateIndex c index st in
      let '(a, st'', evs) := run c (k ans) st' in
      (a, st'', EvCreateIndex index ans :: evs)
  | GetVersion k =>
      let '(v, st') := onGetVersion c st in
      let '(a, st'', evs) := run c (k v) st' in
      (a, st'', EvGetVersion v :: evs)
  | AddDo w k =>
      let '(a, st', evs) := run c k (onAdd c w st) in
      (a, st', EvAdd w :: evs)
  end.

Definition result {St A : Type} (r : A * St * list Event) : A := fst (fst r).
Definition state {St A : Type} (r : A * St * list Event) : St := snd (fst r).
Definition events {St A : Type} (r : A * St * list Event) : list Event := snd r.

(** Two store operations against one client, their calls interleaved by a
    schedule ([true]: the first takes a step); when the schedule is used
    up, the first runs to its end and then the second. *)
Fixpoint interleave {St A B : Type} (c : Client St) (sched : list bool)
    (p : Prog A) (q : Prog B) (st : St) : A * B * St :=
  match sched with
  | [] =>
      let '(a, st', _) := run c p st in
      let '(b, st'', _) := run c q st' in
      (a, b, st'')
  | true :: sched' =>
      let '(p', st', _) := step c p st in interleave c sched' p' q st'
  | false :: sched' =>
      let '(q', st', _) := step c q st in interleave c sched' p q' st'
  end.

Definition isExistsEvent (ev : Event) : bool :=
  match ev with EvIndexExists _ _ => true | _ => false end.

Definition isCreateEvent (ev : Event) : bool :=
  match ev with EvCreateIndex _ _ => true | _ => false end.

(** The writes among the events. *)
Fixpoint writes (evs : list Event) : list IndexService :=
  match evs with
  | [] => []
  | EvAdd w :: evs' => w :: writes evs'
  | _ :: evs' => writes evs'
  end.

(** *** A cluster *)

(** The answer of the search engine to the creation of an index that is
    there already. *)
Definition ErrIndexAlreadyExists : error := errClient "resource_already_exists_exception".

(** A cluster that never fails: its state is the set of its indices;
    creation of an index that exists is refused, and a write creates the
    index it names when missing. *)
Definition cluster (version : Z) : Client (gset string) :=
  {| onIndexExists := fun index st => ((bool_decide (index ∈ st), None), st);
     onCreateIndex := fun index st =>
       if bool_decide (index ∈ st) then (Some ErrIndexAlreadyExists, st)
       else (None, {[index]} ∪ st);
     onGetVersion := fun st => (version, st);
     onAdd := fun w st => {[isIndex w]} ∪ st |}.

(** A cluster with a second writer at work: right after an existence check
    the other writer creates the index that was asked for. *)
Definition contendedCluster (version : Z) : Client (gset string) :=
  {| onIndexExists := fun index st => ((bool_decide (index ∈ st), None), {[index]} ∪ st);
     onCreateIndex := fun index st =>
       if bool_decide (index ∈ st) then (Some ErrIndexAlreadyExists, st)
       else (None, {[index]} ∪ st);
     onGetVersion := fun st => (version, st);
     onAdd := fun w st => {[isIndex w]} ∪ st |}.

End Client.

Arguments Ret {Ext A} a.
Arguments IndexExistsDo {Ext A} index k.
Arguments CreateIndexDo {Ext A} index k.
Arguments GetVersion {Ext A} k.
Arguments AddDo {Ext A} w k.
Arguments onIndexExists {Ext St} c index st.
Arguments onCreateIndex {Ext St} c index st.
Arguments onGetVersion {Ext St} c st.
Arguments onAdd {Ext St} c w st.

End es.

Notation "'call' x <- p ; q" := (es.bind p (fun x => q))
  (at level 10, x name, p at level 100, q at level 200).
Notation "'exec' p ; q" := (es.bind p (fun _ => q))
  (at level 10, p at level 100, q at level 200).

(* ===================================================================== *)
(** ** The sampling store, dated indices only ([samplingstore/storage.go]) *)
(* ===================================================================== *)

Module samplingstore_dated.
Section Store.
Context `{Ext : Externals}.
Import es.

Definition samplingIndexBaseName : string := "jaeger-sampling".
Definition throughputType : string := "throughput-sampling".
Definition probabilitiesType : string := "probabilities-sampling".

Record SamplingStore := {
  samplingIndexPrefix : string;
  indexDateLayout : string;
  maxDocCount : Z;
  indexRolloverFrequency : GoTime.Duration;
  lookback : GoTime.Duration
}.

Record Params := {
  IndexPrefix_ : IndexPrefix;
  IndexDateLayout : string;
  IndexRolloverFrequency : GoTime.Duration;
  Lookback : GoTime.Duration;
  MaxDocCount : Z
}.

Definition NewSamplingStore (p : Params) : SamplingStore :=
  {| samplingIndexPrefix :=
       Apply (IndexPrefix_ p) samplingIndexBaseName +:+ config.IndexPrefixSeparator;
     indexDateLayout := IndexDateLayout p;
     maxDocCount := MaxDocCount p;
     indexRolloverFrequency := IndexRolloverFrequency p;
     lookback := Lookback p |}.

Definition getWriteIndex (s : SamplingStore) (ts : GoTime.Time) : string :=
  config.IndexWithDate (samplingIndexPrefix s) (indexDateLayout s) ts.

(** The body of the loop of [InsertThroughput]. *)
Fixpoint insertEach (indexName : string) (ts : GoTime.Time)
    (throughputs : list dbThroughput) : Prog unit :=
  match throughputs with
  | [] => Ret tt
  | eachThroughput :: rest =>
      exec Add (BodyJson (Type_ (Index newIndexService indexName) throughputType)
                  (TimeThroughput ts eachThroughput)) "";
      insertEach indexName ts rest
  end.

(** [InsertThroughput]; [ts] is the value of [time.Now()]. *)
Definition InsertThroughput (s : SamplingStore) (ts : GoTime.Time)
    (throughput : list Throughput) : Prog (option error) :=
  let indexName := getWriteIndex s ts in
  exec insertEach indexName ts (FromThroughputs throughput);
  Ret None.

Definition writeProbabilitiesAndQPS (indexName : string) (ts : GoTime.Time)
    (probabilities : ServiceOperationProbabilities) (qps : ServiceOperationQPS)
  : Prog unit :=
  Add (BodyJson (Type_ (Index newIndexService indexName) probabilitiesType)
         (TimeProbabilitiesAndQPS ts probabilities qps)) "".

(** [InsertProbabilitiesAndQPS]; [ts] is the value of [time.Now()]. *)
Definition InsertProbabilitiesAndQPS (s : SamplingStore) (ts : GoTime.Time)
    (hostname : string) (probabilities : ServiceOperationProbabilities)
    (qps : ServiceOperationQPS) : Prog (option error) :=
  let writeIndexName := getWriteIndex s ts in
  exec writeProbabilitiesAndQPS writeIndexName ts probabilities qps;
  Ret None.

(** The loop of [getLatestIndices]; out of fuel it has no result. *)
Fixpoint latestLoop (fuel : nat) (s : SamplingStore) (earliestIndex : string)
    (now : GoTime.Time) : Prog (option (list string * option error)) :=
  match fuel with
  | O => Ret None
  | S fuel' =>
      let currentIndex :=
        config.IndexWithDate (samplingIndexPrefix s) (indexDateLayout s) now in
      IndexExistsDo currentIndex (fun ans =>
        match snd ans with
        | Some err => Ret (Some ([], Some (errWrap "failed to check index existence" err)))
        | None =>
            if fst ans then Ret (Some ([currentIndex], None))
            else if String.eqb currentIndex earliestIndex
                 then Ret (Some ([], Some (errNew "falied to find latest index")))
                 else latestLoop fuel' s earliestIndex
                        (GoTime.Add now (indexRolloverFrequency s)) (* rollover is negative *)
        end)
  end.

(** [getLatestIndices]; [now] is the value of [time.Now()]. *)
Definition getLatestIndices (fuel : nat) (s : SamplingStore) (now : GoTime.Time)
  : Prog (option (list string * option error)) :=
  let now := GoTime.UTC now in
  let earliest := GoTime.Add now (GoTime.neg (lookback s)) in
  let earliestIndex :=
    config.IndexWithDate (samplingIndexPrefix s) (indexDateLayout s) earliest in
  latestLoop fuel s earliestIndex now.

(** The loop of [getReadIndices] and the append after it; out of fuel it
    has no result. *)
Fixpoint readLoop (fuel : nat) (s : SamplingStore) (firstIndex : string)
    (endTime : GoTime.Time) (currentIndex : string) (indices : list string)
  : option (list string) :=
  match fuel with
  | O => None
  | S fuel' =>
      if String.eqb currentIndex firstIndex then Some (indices ++ [firstIndex])
      else
        let indices := indices ++ [currentIndex] in
        let endTime := GoTime.Add endTime (indexRolloverFrequency s) in (* rollover is negative *)
        let currentIndex :=
          config.IndexWithDate (samplingIndexPrefix s) (indexDateLayout s) endTime in
        readLoop fuel' s firstIndex endTime currentIndex indices
  end.

Definition getReadIndices (fuel : nat) (s : SamplingStore)
    (startTime endTime : GoTime.Time) : option (list string) :=
  let firstIndex :=
    config.IndexWithDate (samplingIndexPrefix s) (indexDateLayout s) startTime in
  let currentIndex :=
    config.IndexWithDate (samplingIndexPrefix s) (indexDateLayout s) endTime in
  readLoop fuel s firstIndex endTime currentIndex [].

End Store.
End samplingstore_dated.

(* ===================================================================== *)
(** ** The sampling store with the data-stream switch *)
(* ===================================================================== *)

Module samplingstore.
Section Store.
Context `{Ext : Externals}.
Import es.

Definition samplingIndexBaseName : string := "jaeger-sampling".
Definition throughputType : string := "throughput-sampling".
Definition probabilitiesType : string := "probabilities-sampling".

Record SamplingStore := {
  samplingIndexPrefix : string;
  indexDateLayout : string;
  maxDocCount : Z;
  indexRolloverFrequency : GoTime.Duration;
  lookback : GoTime.Duration;
  useDataStream : bool
}.

Record Params := {
  IndexPrefix_ : IndexPrefix;
  IndexDateLayout : string;
  IndexRolloverFrequency : GoTime.Duration;
  Lookback : GoTime.Duration;
  MaxDocCount : Z;
  UseDataStream : bool
}.

Definition NewSamplingStore (p : Params) : SamplingStore :=
  let samplingIndexBase :=
    if UseDataStream p then "jaeger.sampling" else samplingIndexBaseName in
  let prefix := Apply (IndexPrefix_ p) samplingIndexBase in
  let prefix :=
    if negb (UseDataStream p) then prefix +:+ config.IndexPrefixSeparator else prefix in
  {| samplingIndexPrefix := prefix;
     indexDateLayout := IndexDateLayout p;
     maxDocCount := MaxDocCount p;
     indexRolloverFrequency := IndexRolloverFrequency p;
     lookback := Lookback p;
     useDataStream := UseDataStream p |}.

Definition getWriteIndex (s : SamplingStore) (ts : GoTime.Time) : string :=
  if useDataStream s then samplingIndexPrefix s
  else config.IndexWithDate (samplingIndexPrefix s) (indexDateLayout s) ts.

(** [opType := ""; if s.useDataStream || s.client().GetVersion() >= 8
    { opType = "create" }]: the version is asked for only when the store
    does not use a data stream. *)
Definition chooseOpType (s : SamplingStore) : Prog string :=
  if useDataStream s then Ret "create"
  else GetVersion (fun v => Ret (if 8 <=? v then "create" else "")).

(** The body of the loop of [InsertThroughput]. *)
Fixpoint insertEach (s : SamplingStore) (indexName : string) (ts : GoTime.Time)
    (throughputs : list dbThroughput) : Prog unit :=
  match throughputs with
  | [] => Ret tt
  | eachThroughput :: rest =>
      let il := BodyJson (Type_ (Index newIndexService indexName) throughputType)
                  (TimeThroughput ts eachThroughput) in
      call opType <- chooseOpType s;
      exec Add il opType;
      insertEach s indexName ts rest
  end.

(** [InsertThroughput]; [ts] is the value of [time.Now()]. *)
Definition InsertThroughput (s : SamplingStore) (ts : GoTime.Time)
    (throughput : list Throughput) : Prog (option error) :=
  let indexName := getWriteIndex s ts in
  exec insertEach s indexName ts (FromThroughputs throughput);
  Ret None.

Definition writeProbabilitiesAndQPS (s : SamplingStore) (indexName : string)
    (ts : GoTime.Time) (probabilities : ServiceOperationProbabilities)
    (qps : ServiceOperationQPS) : Prog unit :=
  let il := BodyJson (Type_ (Index newIndexService indexName) probabilitiesType)
              (TimeProbabilitiesAndQPS ts probabilities qps) in
  call opType <- chooseOpType s;
  Add il opType.

(** [InsertProbabilitiesAndQPS]; [ts] is the value of [time.Now()]. *)
Definition InsertProbabilitiesAndQPS (s : SamplingStore) (ts : GoTime.Time)
    (hostname : string) (probabilities : ServiceOperationProbabilities)
    (qps : ServiceOperationQPS) : Prog (option error) :=
  let writeIndexName := getWriteIndex s ts in
  exec writeProbabilitiesAndQPS s writeIndexName ts probabilities qps;
  Ret None.

(** The loop of [getLatestIndices]; out of fuel it has no result. *)
Fixpoint latestLoop (fuel : nat) (s : SamplingStore) (earliestIndex : string)
    (now : GoTime.Time) : Prog (option (list string * option error)) :=
  match fuel with
  | O => Ret None
  | S fuel' =>
      let currentIndex :=
        config.IndexWithDate (samplingIndexPrefix s) (indexDateLayout s) now in
      IndexExistsDo currentIndex (fun ans =>
        match snd ans with
        | Some err => Ret (Some ([], Some (errWrap "failed to check index existence" err)))
        | None =>
            if fst ans then Ret (Some ([currentIndex], None))
            else if String.eqb currentIndex earliestIndex
                 then Ret (Some ([], Some (errNew "falied to find latest index")))
                 else latestLoop fuel' s earliestIndex
                        (GoTime.Add now (indexRolloverFrequency s)) (* rollover is negative *)
        end)
  end.

(** [getLatestIndices]; [now] is the value of [time.Now()]. *)
Definition getLatestIndices (fuel : nat) (s : SamplingStore) (now : GoTime.Time)
  : Prog (option (list string * option error)) :=
  if useDataStream s then
    let indices := [samplingIndexPrefix s] in
    let indices := indices ++ [config.GetDataStreamLegacyWildcard (samplingIndexPrefix s)] in
    Ret (Some (indices, None))
  else
    let now := GoTime.UTC now in
    let earliest := GoTime.Add now (GoTime.neg (lookback s)) in
    let earliestIndex :=
      config.IndexWithDate (samplingIndexPrefix s) (indexDateLayout s) earliest in
    latestLoop fuel s earliestIndex now.

(** The loop of [getReadIndices] and the append after it; out of fuel it
    has no result. *)
Fixpoint readLoop (fuel : nat) (s : SamplingStore) (firstIndex : string)
    (endTime : GoTime.Time) (currentIndex : string) (indices : list string)
  : option (list string) :=
  match fuel with
  | O => None
  | S fuel' =>
      if String.eqb currentIndex firstIndex then Some (indices ++ [firstIndex])
      else
        let indices := indices ++ [currentIndex] in
        let endTime := GoTime.Add endTime (indexRolloverFrequency s) in (* rollover is negative *)
        let currentIndex :=
          config.IndexWithDate (samplingIndexPrefix s) (indexDateLayout s) endTime in
        readLoop fuel' s firstIndex endTime currentIndex indices
  end.

Definition getReadIndices (fuel : nat) (s : SamplingStore)
    (startTime endTime : GoTime.Time) : option (list string) :=
  if useDataStream s then
    let indices := [samplingIndexPrefix s] in
    let indices := indices ++ [config.GetDataStreamLegacyWildcard (samplingIndexPrefix s)] in
    Some indices
  else
    let firstIndex :=
      config.IndexWithDate (samplingIndexPrefix s) (indexDateLayout s) startTime in
    let currentIndex :=
      config.IndexWithDate (samplingIndexPrefix s) (indexDateLayout s) endTime in
    readLoop fuel s firstIndex endTime currentIndex [].

(** The store of [samplingstore/storage.go] as one of this kind with the
    switch off. *)
Definition ofDated (s : samplingstore_dated.SamplingStore) : SamplingStore :=
  {| samplingIndexPrefix := samplingstore_dated.samplingIndexPrefix s;
     indexDateLayout := samplingstore_dated.indexDateLayout s;
     maxDocCount := samplingstore_dated.maxDocCount s;
     indexRolloverFrequency := samplingstore_dated.indexRolloverFrequency s;
     lookback := samplingstore_dated.lookback s;
     useDataStream := false |}.

End Store.
End samplingstore.

(* ===================================================================== *)
(** ** The dependency store ([depstore/storage.go]) *)
(* ===================================================================== *)

Module depstore.
Section Store.
Context `{Ext : Externals}.
Import es.

Definition dependencyType : string := "dependencies".
Definition dependencyIndexBaseName : string := "jaeger-dependencies".

Record DependencyStore := {
  dependencyIndexPrefix : string;
  indexDateLayout : string;
  indexRolloverFrequency : GoTime.Duration;
  maxDocCount : Z;
  useReadWriteAliases : bool
}.

Record Params := {
  IndexPrefix_ : IndexPrefix;
  IndexDateLayout : string;
  IndexRolloverFrequency : GoTime.Duration;
  MaxDocCount : Z;
  UseReadWriteAliases : bool
}.

Definition NewDependencyStore (p : Params) : DependencyStore :=
  {| dependencyIndexPrefix :=
       Apply (IndexPrefix_ p) dependencyIndexBaseName +:+ config.IndexPrefixSeparator;
     indexDateLayout := IndexDateLayout p;
     indexRolloverFrequency := IndexRolloverFrequency p;
     maxDocCount := MaxDocCount p;
     useReadWriteAliases := UseReadWriteAliases p |}.

Definition writeDependenciesToIndex (indexName : string) (ts : GoTime.Time)
    (dependencies : list DependencyLink) : Prog unit :=
  Add (BodyJson (Type_ (Index newIndexService indexName) dependencyType)
         (TimeDependencies ts dependencies)) "".

Definition createIndex (s : DependencyStore) (indexName : string) : Prog (option error) :=
  if useReadWriteAliases s then Ret None
  else
    IndexExistsDo indexName (fun ans =>
      match snd ans with
      | Some err => Ret (Some err)
      | None =>
          if negb (fst ans) then CreateIndexDo indexName (fun err => Ret err)
          else Ret None
      end).

Definition getWriteIndex (s : DependencyStore) (ts : GoTime.Time) : string :=
  if useReadWriteAliases s then dependencyIndexPrefix s +:+ "write"
  else config.IndexWithDate (dependencyIndexPrefix s) (indexDateLayout s) ts.

(** [WriteDependencies] implements the dependency writer. *)
Definition WriteDependencies (s : DependencyStore) (ts : GoTime.Time)
    (dependencies : list DependencyLink) : Prog (option error) :=
  let indexName := getWriteIndex s ts in
  call err <- createIndex s indexName;
  match err with
  | Some e => Ret (Some e)
  | None =>
      exec writeDependenciesToIndex indexName ts dependencies;
      Ret None
  end.

(** The request [WriteDependencies] hands to the bulk processor. *)
Definition dependencyWrite (s : DependencyStore) (ts : GoTime.Time)
    (dependencies : list DependencyLink) : IndexService :=
  withOpType
    (BodyJson (Type_ (Index newIndexService (getWriteIndex s ts)) dependencyType)
       (TimeDependencies ts dependencies)) "".

End Store.
End depstore.

(* ===================================================================== *)
(** ** The service/operation writer *)
(* ===================================================================== *)

Module spanstore.
Section Store.
Context `{Ext : Externals}.
Import es.

Definition serviceType : string := "service".

(** Modelled from the spec: the writer of service/operation records
    ([ServiceOperationStorage.Write]) is not among the sources embedded
    here; only its tests [TestWriteService] and
    [TestWriteService_DataStream] are.  A record is written once per process and index, an in-process
    cache suppressing the repeats; on dated indices and aliases it carries
    an identifier derived from its hash and the default operation type, on
    a data stream it carries no identifier and is created. *)
Definition Write (useDataStream : bool) (cache : gset string) (indexName : string)
    (service : Service) : Prog (gset string) :=
  let cacheKey := indexName +:+ "|" +:+ hashCode service in
  if bool_decide (cacheKey ∈ cache) then Ret cache
  else
    let il := BodyJson (Type_ (Index newIndexService indexName) serviceType)
                (ServiceDoc service) in
    exec (if useDataStream then Add il "create"
          else Add (Id il (hashCode service)) "");
    Ret ({[cacheKey]} ∪ cache).

End Store.
End spanstore.

(* ===================================================================== *)
(** ** The specification's words *)
(* ===================================================================== *)

Module Spec.

(** The read plan of the specification in data-stream mode: the legacy
    wildcard is part of it exactly when the migration gate is enabled. *)
Definition BuildReadPlan_DataStream (name : string) (migrationGateEnabled : bool)
  : list string :=
  if migrationGateEnabled then [name; config.GetDataStreamLegacyWildcard name]
  else [name].

End Spec.

(* ===================================================================== *)
(** ** The dated read plan, in closed form *)
(* ===================================================================== *)

Module Plan.
Section Plan.
Context `{Ext : Externals}.
Variable s : samplingstore.SamplingStore.

(** The name of the dated index of an instant. *)
Definition name (t : GoTime.Time) : string :=
  config.IndexWithDate (samplingstore.samplingIndexPrefix s)
    (samplingstore.indexDateLayout s) t.

(** The names met when stepping back [m] times by [P] from [c], [c]'s
    first. *)
Definition walk (P : Z) (c : GoTime.Time) (m : nat) : list string :=
  map (fun k => name (GoTime.Add c (- (Z.of_nat k * P)))) (seq 0 (S m)).

(** The number of periods of length [P] between that of the start and
    that of the end. *)
Definition span (P : Z) (startTime endTime : GoTime.Time) : nat :=
  Z.to_nat (GoTime.unixNano endTime / P - GoTime.unixNano startTime / P).

End Plan.
End Plan.

(* ===================================================================== *)
(** ** What a scan for the latest index leaves behind *)
(* ===================================================================== *)

Module Scan.
Section Scan.
Context `{Ext : Externals}.
Import es.

Definition errCheck (e : error) : error := errWrap "failed to check index existence" e.
Definition errNotFound : error := errNew "falied to find latest index".

(** [Scanned names evs r]: the events [evs] are existence checks of the
    names [names], in their order and as far as needed, and [r] is what the
    scan comes to: the first name answered to exist, alone; the error of a
    check that failed, wrapped; or the not-found error when the last of the
    names has been answered not to exist. *)
Inductive Scanned : list string -> list Event -> list string * option error -> Prop :=
| ScanFound (index : string) (rest : list string) :
    Scanned (index :: rest) [EvIndexExists index (true, None)] ([index], None)
| ScanError (index : string) (rest : list string) (b : bool) (e : error) :
    Scanned (index :: rest) [EvIndexExists index (b, Some e)] ([], Some (errCheck e))
| ScanNotFound (index : string) :
    Scanned [index] [EvIndexExists index (false, None)] ([], Some errNotFound)
| ScanNext (index : string) (rest : list string) (evs : list Event)
    (r : list string * option error) :
    rest <> [] -> Scanned rest evs r ->
    Scanned (index :: rest) (EvIndexExists index (false, None) :: evs) r.

(** The names the existence checks among the events ask for. *)
Fixpoint checked (evs : list Event) : list string :=
  match evs with
  | [] => []
  | EvIndexExists index _ :: evs' => index :: checked evs'
  | _ :: evs' => checked evs'
  end.

End Scan.
End Scan.

(* ===================================================================== *)
(** ** The shape of the calls of the sampling store's write paths *)
(* ===================================================================== *)

Module WriteShape.
Section WriteShape.
Context `{Ext : Externals}.
Import es.
Variable s : samplingstore.SamplingStore.

(** What the sampling store asks of the client when it writes: the
    version, unless it uses a data stream, and the addition of a request
    without identifier to the bulk processor. *)
Definition samplingEvent (index typ : string) (ev : Event) : Prop :=
  match ev with
  | EvGetVersion _ => samplingstore.useDataStream s = false
  | EvAdd w =>
      isIndex w = index /\ isType w = typ /\ isId w = None /\
      (isOpType w = "create" \/
       (samplingstore.useDataStream s = false /\ isOpType w = ""))
  | _ => False
  end.

End WriteShape.
End WriteShape.

(* ===================================================================== *)
(** ** Periods of a layout *)
(* ===================================================================== *)

Module Periods.
Import GoTime.

(** The lengths a period of a layout can have. *)
Definition isUnit (P : Duration) : Prop :=
  P = Second \/ P = Minute \/ P = Hour \/ P = Day.

(** The name an instant gets under a prefix and a layout changes exactly
    with the period of length [P] the instant is in, for the instants
    between [lo] and [hi]. *)
Definition periodicOn (layout : string) (P lo hi : Z) : Prop :=
  0 < P /\
  forall t1 t2 : Time,
    lo <= unixNano t1 <= hi -> lo <= unixNano t2 <= hi ->
    (Format (UTC t1) layout = Format (UTC t2) layout <->
     unixNano t1 / P = unixNano t2 / P).

(** The layout of a daily rollover. *)
Definition dailyLayout : string := "2006-01-02".

(** The days on which years have four digits and the calendar lemmas are
    proved. *)
Definition firstDay : Z := - 719468.                (* 0000-03-01 *)
Definition lastDay : Z := 24 * 146097 - 719468 - 1. (* 9600-02-29 *)

Definition firstInstant : Z := firstDay * Day.
Definition lastInstant : Z := (lastDay + 1) * Day - 1.

End Periods.

(* ===================================================================== *)
(** ** The configurations of the examples *)
(* ===================================================================== *)

Module Examples.
Import GoTime Periods.

(** Modelled from the spec: [IndexPrefix.Apply] is not among the sources
    embedded here; the prefix is an optional string prepended to every base
    name.  The payloads are strings. *)
Definition sampleExternals : Externals :=
  {| IndexPrefix := string;
     Apply := fun prefix name => prefix +:+ name;
     Throughput := string;
     dbThroughput := string;
     FromThroughputs := fun l => l;
     ServiceOperationProbabilities := string;
     ServiceOperationQPS := string;
     DependencyLink := string;
     Service := string;
     hashCode := fun svc => svc |}.

#[export] Existing Instance sampleExternals.

Definition samplingParams (frequency lookback : Duration) (useDataStream : bool)
  : samplingstore.Params :=
  {| samplingstore.IndexPrefix_ := "" : @IndexPrefix sampleExternals;
     samplingstore.IndexDateLayout := dailyLayout;
     samplingstore.IndexRolloverFrequency := frequency;
     samplingstore.Lookback := lookback;
     samplingstore.MaxDocCount := 10000;
     samplingstore.UseDataStream := useDataStream |}.

(** Daily indices, stepped back a day at a time, seven days of lookback. *)
Definition dailyStore : samplingstore.SamplingStore :=
  samplingstore.NewSamplingStore (samplingParams (- Day) (7 * Day) false).

(** Daily indices stepped back half a day at a time. *)
Definition halfDayStore : samplingstore.SamplingStore :=
  samplingstore.NewSamplingStore (samplingParams (- (12 * Hour)) (7 * Day) false).

(** Daily indices and a frequency of zero. *)
Definition stuckStore : samplingstore.SamplingStore :=
  samplingstore.NewSamplingStore (samplingParams 0 (7 * Day) false).

(** Daily indices and a lookback of a day and a half. *)
Definition shortLookbackStore : samplingstore.SamplingStore :=
  samplingstore.NewSamplingStore (samplingParams (- Day) (36 * Hour) false).

(** The data stream. *)
Definition streamStore : samplingstore.SamplingStore :=
  samplingstore.NewSamplingStore (samplingParams (- Day) (7 * Day) true).

Definition dependencyParams (useReadWriteAliases : bool) : depstore.Params :=
  {| depstore.IndexPrefix_ := "" : @IndexPrefix sampleExternals;
     depstore.IndexDateLayout := dailyLayout;
     depstore.IndexRolloverFrequency := Day;
     depstore.MaxDocCount := 10000;
     depstore.UseReadWriteAliases := useReadWriteAliases |}.

Definition datedDependencyStore : depstore.DependencyStore :=
  depstore.NewDependencyStore (dependencyParams false).

End Examples.

(* ===================================================================== *)
(** ** The read side: searches and the documents they return *)
(* ===================================================================== *)

Module TimeOrder.

(** [time.Time{}], the zero time: 0001-01-01T00:00:00Z. *)
Definition zeroTime : GoTime.Time :=
  {| GoTime.unixNano := GoTime.daysFromCivil 1 1 1 * 86400 * GoTime.Second;
     GoTime.location := GoTime.UTCLoc |}.

(** [t.After(u)]. *)
Definition After (t u : GoTime.Time) : bool :=
  GoTime.unixNano u <? GoTime.unixNano t.

End TimeOrder.

(** What the read paths take from packages that are not embedded here: the
    raw source of a hit, [json.Unmarshal] into the three document types (the
    value decoded, or the error), the conversion back to the model, and the
    nil values of the maps. *)
Class Decoding `{Ext : Externals} := {
  Source : Type;
  unmarshalTimeThroughput : Source -> (GoTime.Time * dbThroughput) + es.error;
  unmarshalTimeProbabilitiesAndQPS :
    Source ->
    (GoTime.Time * (ServiceOperationProbabilities * ServiceOperationQPS)) + es.error;
  unmarshalTimeDependencies : Source -> (GoTime.Time * list DependencyLink) + es.error;
  ToThroughputs : list dbThroughput -> list Throughput;
  nilProbabilities : ServiceOperationProbabilities;
  nilQPS : ServiceOperationQPS
}.

Module search.
Section Search.
Context `{Dec : Decoding}.

(** [esquery.NewRangeQuery(field).Gte(from).Lte(to)]. *)
Record RangeQuery := {
  rqField : string;
  rqGte : GoTime.Time;
  rqLte : GoTime.Time
}.

(** The search under construction ([es.SearchService]). *)
Record SearchService := {
  ssIndices : list string;
  ssSize : option Z;
  ssQuery : option RangeQuery;
  ssIgnoreUnavailable : bool
}.

Definition Search (indices : list string) : SearchService :=
  {| ssIndices := indices; ssSize := None; ssQuery := None;
     ssIgnoreUnavailable := false |}.

Definition Size (ss : SearchService) (size : Z) : SearchService :=
  {| ssIndices := ssIndices ss; ssSize := Some size; ssQuery := ssQuery ss;
     ssIgnoreUnavailable := ssIgnoreUnavailable ss |}.

Definition Query (ss : SearchService) (q : RangeQuery) : SearchService :=
  {| ssIndices := ssIndices ss; ssSize := ssSize ss; ssQuery := Some q;
     ssIgnoreUnavailable := ssIgnoreUnavailable ss |}.

Definition IgnoreUnavailable (ss : SearchService) (b : bool) : SearchService :=
  {| ssIndices := ssIndices ss; ssSize := ssSize ss; ssQuery := ssQuery ss;
     ssIgnoreUnavailable := b |}.

(** The answer of [Do(ctx)] to a search: the sources of the hits, in the
    order of the answer, and the error. *)
Definition Searcher : Type := SearchService -> list Source * option es.error.

(** A loop that unmarshals the hits one after the other and returns at the
    first that fails. *)
Fixpoint unmarshalAll {A : Type} (unmarshal : Source -> A + es.error)
    (hits : list Source) : list A + es.error :=
  match hits with
  | [] => inl []
  | hit :: rest =>
      match unmarshal hit with
      | inr err => inr err
      | inl a =>
          match unmarshalAll unmarshal rest with
          | inr err => inr err
          | inl output => inl (a :: output)
          end
      end
  end.

End Search.
End search.

(* ===================================================================== *)
(** ** The sampling store: reads *)
(* ===================================================================== *)

Module samplingstore_reads.
Section Reads.
Context `{Dec : Decoding}.
Import es search samplingstore.

Definition PrefixedIndexName (p : Params) : string :=
  Apply (IndexPrefix_ p) samplingIndexBaseName.

Definition buildTSQuery (startTime endTime : GoTime.Time) : RangeQuery :=
  {| rqField := "timestamp"; rqGte := startTime; rqLte := endTime |}.

(** [GetThroughput]; out of fuel in [getReadIndices] it has no result. *)
Definition GetThroughput (fuel : nat) (s : SamplingStore) (client : Searcher)
    (startTime endTime : GoTime.Time) : option (list Throughput * option error) :=
  match getReadIndices fuel s startTime endTime with
  | None => None
  | Some indices =>
      let searchResult :=
        client (IgnoreUnavailable
                  (Query (Size (Search indices) (maxDocCount s))
                     (buildTSQuery startTime endTime)) true) in
      match snd searchResult with
      | Some err => Some ([], Some (errWrap "failed to search for throughputs" err))
      | None =>
          match unmarshalAll unmarshalTimeThroughput (fst searchResult) with
          | inr err => Some ([], Some (errWrap "unmarshalling documents failed" err))
          | inl output =>
              let outThroughputs := map snd output in
              Some (ToThroughputs outThroughputs, None)
          end
      end
  end.

(** The loop of [GetLatestProbabilities] over the hits. *)
Fixpoint latestOf (hits : list Source) (latestTime : GoTime.Time)
    (latestProbabilities :
       GoTime.Time * (ServiceOperationProbabilities * ServiceOperationQPS))
  : (GoTime.Time * (ServiceOperationProbabilities * ServiceOperationQPS)) + error :=
  match hits with
  | [] => inl latestProbabilities
  | hit :: rest =>
      match unmarshalTimeProbabilitiesAndQPS hit with
      | inr err => inr err
      | inl data =>
          if TimeOrder.After (fst data) latestTime
          then latestOf rest (fst data) data
          else latestOf rest latestTime latestProbabilities
      end
  end.

(** What follows the search of the latest indices. *)
Definition latestProbabilitiesOf (s : SamplingStore) (client : Searcher)
    (indices : list string) : ServiceOperationProbabilities * option error :=
  let searchResult :=
    client (IgnoreUnavailable (Size (Search indices) (maxDocCount s)) true) in
  match snd searchResult with
  | Some err => (nilProbabilities, Some (errWrap "failed to search for Latest Probabilities" err))
  | None =>
      let lengthOfSearchResult := length (fst searchResult) in
      if Nat.eqb lengthOfSearchResult 0 then (nilProbabilities, None)
      else
        match latestOf (fst searchResult) TimeOrder.zeroTime
                (TimeOrder.zeroTime, (nilProbabilities, nilQPS)) with
        | inr err => (nilProbabilities, Some (errWrap "unmarshalling documents failed" err))
        | inl latestProbabilities => (fst (snd latestProbabilities), None)
        end
  end.

(** [GetLatestProbabilities]; [now] is the value of [time.Now()], and out of
    fuel in [getLatestIndices] there is no result. *)
Definition GetLatestProbabilities (fuel : nat) (s : SamplingStore) (client : Searcher)
    (now : GoTime.Time) : Prog (option (ServiceOperationProbabilities * option error)) :=
  call r <- getLatestIndices fuel s now;
  Ret (match r with
       | None => None
       | Some (indices, Some err) =>
           Some (nilProbabilities, Some (errWrap "failed to get latest indices" err))
       | Some (indices, None) => Some (latestProbabilitiesOf s client indices)
       end).

End Reads.
End samplingstore_reads.

(* ===================================================================== *)
(** ** The dependency store: reads *)
(* ===================================================================== *)

Module depstore_reads.
Section Reads.
Context `{Dec : Decoding}.
Import es search depstore.

(** The loop of [getReadIndices] and the append after it; out of fuel it
    has no result. *)
Fixpoint readLoop (fuel : nat) (s : DependencyStore) (firstIndex : string)
    (endTs : GoTime.Time) (currentIndex : string) (indices : list string)
  : option (list string) :=
  match fuel with
  | O => None
  | S fuel' =>
      if String.eqb currentIndex firstIndex then Some (indices ++ [firstIndex])
      else
        let indices := indices ++ [currentIndex] in
        let endTs := GoTime.Add endTs (GoTime.neg (indexRolloverFrequency s)) in
        let currentIndex :=
          config.IndexWithDate (dependencyIndexPrefix s) (indexDateLayout s) endTs in
        readLoop fuel' s firstIndex endTs currentIndex indices
  end.

Definition getReadIndices (fuel : nat) (s : DependencyStore)
    (endTs : GoTime.Time) (lookback : GoTime.Duration) : option (list string) :=
  if useReadWriteAliases s then Some [dependencyIndexPrefix s +:+ "read"]
  else
    let firstIndex :=
      config.IndexWithDate (dependencyIndexPrefix s) (indexDateLayout s)
        (GoTime.Add endTs (GoTime.neg lookback)) in
    let currentIndex :=
      config.IndexWithDate (dependencyIndexPrefix s) (indexDateLayout s) endTs in
    readLoop fuel s firstIndex endTs currentIndex [].

Definition buildTSQuery (endTs : GoTime.Time) (lookback : GoTime.Duration) : RangeQuery :=
  {| rqField := "timestamp";
     rqGte := GoTime.Add endTs (GoTime.neg lookback);
     rqLte := endTs |}.

(** The loop of [GetDependencies] over the hits. *)
Fixpoint collect (hits : list Source) (retDependencies : list DependencyLink)
  : list DependencyLink + error :=
  match hits with
  | [] => inl retDependencies
  | hit :: rest =>
      match unmarshalTimeDependencies hit with
      | inr err => inr err
      | inl tDependencies => collect rest (retDependencies ++ snd tDependencies)
      end
  end.

(** [GetDependencies] returns all interservice dependencies; out of fuel in
    [getReadIndices] it has no result. *)
Definition GetDependencies (fuel : nat) (s : DependencyStore) (client : Searcher)
    (endTs : GoTime.Time) (lookback : GoTime.Duration)
  : option (list DependencyLink * option error) :=
  match getReadIndices fuel s endTs lookback with
  | None => None
  | Some indices =>
      let searchResult :=
        client (IgnoreUnavailable
                  (Query (Size (Search indices) (maxDocCount s))
                     (buildTSQuery endTs lookback)) true) in
      match snd searchResult with
      | Some err => Some ([], Some (errWrap "failed to search for dependencies" err))
      | None =>
          match collect (fst searchResult) [] with
          | inr err => Some ([], Some (errWrap "unmarshalling documents failed" err))
          | inl retDependencies => Some (retDependencies, None)
          end
      end
  end.

End Reads.
End depstore_reads.

(* ===================================================================== *)
(** ** Bridges between the stores, and further examples *)
(* ===================================================================== *)

Module Bridge.
Section Bridge.
Context `{Ext : Externals}.

(** The sampling store that names and steps as a dependency store does: the
    dependency store steps by its frequency negated. *)
Definition asSampling (s : depstore.DependencyStore) : samplingstore.SamplingStore :=
  {| samplingstore.samplingIndexPrefix := depstore.dependencyIndexPrefix s;
     samplingstore.indexDateLayout := depstore.indexDateLayout s;
     samplingstore.maxDocCount := depstore.maxDocCount s;
     samplingstore.indexRolloverFrequency := GoTime.neg (depstore.indexRolloverFrequency s);
     samplingstore.lookback := 0;
     samplingstore.useDataStream := false |}.

(** The names of the instants [endTime], [endTime + f], [endTime + 2 f], ...,
    [n + 1] of them, [f] being the frequency of the store. *)
Definition steps (s : samplingstore.SamplingStore) (endTime : GoTime.Time) (n : nat)
  : list string :=
  map (fun k => Plan.name s
                  (GoTime.Add endTime (Z.of_nat k * samplingstore.indexRolloverFrequency s)))
      (seq 0 (S n)).

(** What a scan comes to once the last of its checks is answered. *)
Definition outcome (index : string) (ans : bool * option es.error)
  : list string * option es.error :=
  match snd ans with
  | Some err => ([], Some (Scan.errCheck err))
  | None => if fst ans then ([index], None) else ([], Some Scan.errNotFound)
  end.

(** The request the sampling store hands to the bulk processor for one
    throughput. *)
Definition throughputRequest (index : string) (ts : GoTime.Time) (each : dbThroughput)
    (opType : string) : es.IndexService :=
  es.withOpType
    (es.BodyJson (es.Type_ (es.Index es.newIndexService index)
                    samplingstore.throughputType)
       (es.TimeThroughput ts each)) opType.

(** The request the sampling store hands to the bulk processor for the
    probabilities and the QPS. *)
Definition probabilitiesRequest (index : string) (ts : GoTime.Time)
    (probabilities : ServiceOperationProbabilities) (qps : ServiceOperationQPS)
    (opType : string) : es.IndexService :=
  es.withOpType
    (es.BodyJson (es.Type_ (es.Index es.newIndexService index)
                    samplingstore.probabilitiesType)
       (es.TimeProbabilitiesAndQPS ts probabilities qps)) opType.

(** The operation type the store with the data-stream switch, the switch
    off, derives from the version of the cluster. *)
Definition opTypeOfVersion (v : Z) : string := if 8 <=? v then "create" else "".

(** The checks answered "absent" that precede the last check of a scan:
    those of the names of [c], [c + f], ..., [n] of them. *)
Definition absentChecks (s : samplingstore.SamplingStore) (c : GoTime.Time) (n : nat)
  : list es.Event :=
  map (fun k => es.EvIndexExists
                  (Plan.name s
                     (GoTime.Add c (Z.of_nat k * samplingstore.indexRolloverFrequency s)))
                  (false, None))
      (seq 0 n).

End Bridge.
End Bridge.

Module MoreExamples.
Import GoTime Periods.

(** The layout of an hourly rollover. *)
Definition hourlyLayout : string := "2006-01-02-15".

(** Decoding for the examples: a source is a line ["<unix seconds>|<text>"]
    already split, or a line that does not parse. *)
Inductive sampleSource :=
| goodSource (unixSeconds : Z) (text : string)
| badSource (reason : string).

Definition sampleTime (unixSeconds : Z) : Time :=
  {| unixNano := unixSeconds * Second; location := UTCLoc |}.

Definition sampleError (reason : string) : es.error :=
  es.errClient reason.

Definition sampleDecoding : @Decoding Examples.sampleExternals :=
  @Build_Decoding Examples.sampleExternals sampleSource
    (fun src =>
       match src with
       | goodSource u text => inl (sampleTime u, text)
       | badSource reason => inr (sampleError reason)
       end)
    (fun src =>
       match src with
       | goodSource u text => inl (sampleTime u, (text, text))
       | badSource reason => inr (sampleError reason)
       end)
    (fun src =>
       match src with
       | goodSource u text => inl (sampleTime u, [text])
       | badSource reason => inr (sampleError reason)
       end)
    (fun l => l) EmptyString EmptyString.

#[export] Existing Instance sampleDecoding.

(** Daily indices and an hour of lookback. *)
Definition hourLookbackStore : samplingstore.SamplingStore :=
  samplingstore.NewSamplingStore (Examples.samplingParams (- Day) Hour false).

(** Hourly indices, stepped back an hour at a time, three hours of
    lookback. *)
Definition hourlyStore : samplingstore.SamplingStore :=
  {| samplingstore.samplingIndexPrefix := "jaeger-sampling-";
     samplingstore.indexDateLayout := hourlyLayout;
     samplingstore.maxDocCount := 10000;
     samplingstore.indexRolloverFrequency := - Hour;
     samplingstore.lookback := 3 * Hour;
     samplingstore.useDataStream := false |}.


(** A dependency store on daily indices with a frequency of zero. *)
Definition stuckDependencyStore : depstore.DependencyStore :=
  depstore.NewDependencyStore
    {| depstore.IndexPrefix_ := "" : @IndexPrefix Examples.sampleExternals;
       depstore.IndexDateLayout := dailyLayout;
       depstore.IndexRolloverFrequency := 0;
       depstore.MaxDocCount := 10000;
       depstore.UseReadWriteAliases := false |}.

(** The store of [samplingstore/storage.go] on daily indices. *)
Definition olderStore : samplingstore_dated.SamplingStore :=
  samplingstore_dated.NewSamplingStore
    {| samplingstore_dated.IndexPrefix_ := "" : @IndexPrefix Examples.sampleExternals;
       samplingstore_dated.IndexDateLayout := dailyLayout;
       samplingstore_dated.IndexRolloverFrequency := - Day;
       samplingstore_dated.Lookback := Day;
       samplingstore_dated.MaxDocCount := 10000 |}.

End MoreExamples.

(* ===================================================================== *)
(** * Properties *)
(* ===================================================================== *)

(** ** Byte strings *)

Module StringFacts.

Lemma append_cons (c : ascii) (a b : string) : String c a +:+ b = String c (a +:+ b).
Proof. reflexivity. Qed.

Lemma append_nil_l (b : string) : "" +:+ b = b.
Proof. reflexivity. Qed.

Lemma append_nil_r (s : string) : s +:+ "" = s.
Proof.
  induction s as [|c s IH]; [reflexivity|]. now rewrite append_cons, IH.
Qed.

Lemma append_assoc (a b c : string) : (a +:+ b) +:+ c = a +:+ (b +:+ c).
Proof.
  induction a as [|x a IH]; [reflexivity|]. now rewrite !append_cons, IH.
Qed.

Lemma length_append (a b : string) :
  String.length (a +:+ b) = (String.length a + String.length b)%nat.
Proof.
  induction a as [|x a IH]; [reflexivity|].
  rewrite append_cons. simpl. now rewrite IH.
Qed.

(** Two concatenations that agree, with left parts of one length, agree
    part by part. *)
Lemma append_inj_length (a b x y : string) :
  String.length a = String.length b -> a +:+ x = b +:+ y -> a = b /\ x = y.
Proof.
  revert b. induction a as [|c a IH]; intros [|d b] Hlen Heq;
    try discriminate Hlen.
  - split; [reflexivity | exact Heq].
  - injection Hlen as Hlen. rewrite !append_cons in Heq.
    injection Heq as Hc Heq.
    destruct (IH b Hlen Heq) as [Hab Hxy]. subst. split; reflexivity.
Qed.

Lemma append_inj_l (p x y : string) : p +:+ x = p +:+ y -> x = y.
Proof. intros H. now apply (append_inj_length p p x y). Qed.

End StringFacts.

(** ** Calendar and formatting *)

Module GoTimeFacts.
Import GoTime StringFacts Periods.

(** *** Indices of the day, the hour and the minute of a UTC instant *)

Lemma wallSec_UTC (t : Time) : wallSec (UTC t) = unixNano t / Second.
Proof. unfold wallSec, unixSec. simpl. lia. Qed.

Lemma minuteIndex_UTC (t : Time) : minuteIndex (UTC t) = unixNano t / Minute.
Proof.
  unfold minuteIndex. rewrite wallSec_UTC. unfold Minute, Second.
  rewrite Z.div_div by lia. f_equal.
Qed.

Lemma hourIndex_UTC (t : Time) : hourIndex (UTC t) = unixNano t / Hour.
Proof.
  unfold hourIndex. rewrite wallSec_UTC. unfold Hour, Minute, Second.
  rewrite Z.div_div by lia. f_equal.
Qed.

Lemma dayIndex_UTC (t : Time) : dayIndex (UTC t) = unixNano t / Day.
Proof.
  unfold dayIndex. rewrite wallSec_UTC. unfold Day, Hour, Minute, Second.
  rewrite Z.div_div by lia. f_equal.
Qed.

(** Instants in one period of length [p] are in one period of length
    [k * p]. *)
Lemma same_period_coarser (p k a b : Z) :
  0 < p -> 0 < k -> a / p = b / p -> a / (p * k) = b / (p * k).
Proof.
  intros Hp Hk H. rewrite <- !Z.div_div by lia. now rewrite H.
Qed.

(** *** A chunk is constant on its period *)

Lemma appendChunk_same_period (c : stdChunk) (U : Duration) (t1 t2 : Time) :
  chunkPeriod c = Some U ->
  unixNano t1 / U = unixNano t2 / U ->
  appendChunk (UTC t1) c = appendChunk (UTC t2) c.
Proof.
  intros Hc H.
  destruct c; simpl in Hc; try discriminate; injection Hc as <-; simpl.
  - unfold Year. now rewrite !dayIndex_UTC, H.
  - unfold Month. now rewrite !dayIndex_UTC, H.
  - unfold DayOfMonth. now rewrite !dayIndex_UTC, H.
  - unfold HourOfDay. now rewrite !hourIndex_UTC, H.
  - unfold MinuteOfHour. now rewrite !minuteIndex_UTC, H.
  - unfold SecondOfMinute. now rewrite !wallSec_UTC, H.
Qed.

Lemma chunkPeriod_unit (c : stdChunk) (U : Duration) :
  chunkPeriod c = Some U -> isUnit U.
Proof.
  unfold isUnit. destruct c; simpl; intros H; try discriminate;
    injection H as <-; auto.
Qed.

(** A unit is an exact multiple of every unit that is not longer. *)
Lemma unit_multiple (P U : Duration) :
  isUnit P -> isUnit U -> P <= U -> exists k, 0 < k /\ U = P * k.
Proof.
  unfold isUnit, Day, Hour, Minute, Second.
  intros [-> | [-> | [-> | ->]]] [-> | [-> | [-> | ->]]] Hle; try lia.
  - exists 1; lia.
  - exists 60; lia.
  - exists 3600; lia.
  - exists 86400; lia.
  - exists 1; lia.
  - exists 60; lia.
  - exists 1440; lia.
  - exists 1; lia.
  - exists 24; lia.
  - exists 1; lia.
Qed.

Lemma unit_pos (P : Duration) : isUnit P -> 0 < P.
Proof.
  unfold isUnit, Day, Hour, Minute, Second. intros [-> | [-> | [-> | ->]]]; lia.
Qed.

(** The period of a list of chunks is a unit, and no chunk has a shorter
    one. *)
Lemma foldPeriod_least (cs : list stdChunk) (P : Duration) :
  fold_right (fun c acc => minPeriod (chunkPeriod c) acc) None cs = Some P ->
  isUnit P /\
  forall c U, In c cs -> chunkPeriod c = Some U -> P <= U.
Proof.
  revert P. induction cs as [|c cs IH]; intros P H; simpl in H; [discriminate|].
  destruct (chunkPeriod c) as [Uc|] eqn:Hc;
    destruct (fold_right _ None cs) as [Q|] eqn:Hcs; simpl in H.
  - injection H as <-. destruct (IH Q eq_refl) as [HQ Hall].
    pose proof (chunkPeriod_unit _ _ Hc) as HUc.
    split.
    + destruct (Z.min_spec Uc Q) as [[_ ->] | [_ ->]]; assumption.
    + intros c' U [<- | Hin] HU.
      * rewrite Hc in HU. injection HU as <-. lia.
      * specialize (Hall c' U Hin HU). lia.
  - injection H as <-. split; [now apply chunkPeriod_unit in Hc|].
    intros c' U [<- | Hin] HU.
    + rewrite Hc in HU. injection HU as <-. lia.
    + exfalso. clear -Hcs Hin HU.
      induction cs as [|d cs IHcs]; [contradiction|].
      simpl in Hcs. destruct Hin as [<- | Hin].
      * rewrite HU in Hcs. destruct (fold_right _ None cs); discriminate.
      * destruct (chunkPeriod d); [destruct (fold_right _ None cs); discriminate|].
        simpl in Hcs. auto.
  - destruct (IH P H) as [HP Hall]. split; [assumption|].
    intros c' U [<- | Hin] HU; [congruence | eauto].
  - discriminate.
Qed.

Lemma appendChunks_same_period (cs : list stdChunk) (P : Duration) (t1 t2 : Time) :
  isUnit P ->
  (forall c U, In c cs -> chunkPeriod c = Some U -> P <= U) ->
  unixNano t1 / P = unixNano t2 / P ->
  appendChunks (UTC t1) cs = appendChunks (UTC t2) cs.
Proof.
  intros HP Hall H. induction cs as [|c cs IH]; [reflexivity|].
  simpl. rewrite IH by (intros; eapply Hall; [right|]; eassumption).
  f_equal. destruct (chunkPeriod c) as [U|] eqn:Hc.
  - apply (appendChunk_same_period c U); [assumption|].
    destruct (unit_multiple P U HP (chunkPeriod_unit _ _ Hc)) as (k & Hk & ->).
    { eapply Hall; [left; reflexivity | assumption]. }
    apply same_period_coarser; auto using unit_pos.
  - destruct c; simpl in Hc; try discriminate. reflexivity.
Qed.

(** Instants of one period of a layout are formatted alike. *)
Lemma Format_same_period (layout : string) (P : Duration) (t1 t2 : Time) :
  layoutPeriod layout = Some P ->
  unixNano t1 / P = unixNano t2 / P ->
  Format (UTC t1) layout = Format (UTC t2) layout.
Proof.
  intros HP H. unfold Format. unfold layoutPeriod in HP.
  destruct (plainLayout layout); [|discriminate].
  destruct (foldPeriod_least _ _ HP) as [HU Hall].
  now apply (appendChunks_same_period _ P).
Qed.

(** The location an instant is shown in plays no part once it is moved
    to UTC. *)
Lemma UTC_location (t1 t2 : Time) : unixNano t1 = unixNano t2 -> UTC t1 = UTC t2.
Proof. unfold UTC. now intros ->. Qed.

End GoTimeFacts.

(** ** The calendar and the daily layout *)

Module CalendarFacts.
Import GoTime StringFacts GoTimeFacts Periods.

Lemma civilOfDoe_range (doe : Z) :
  0 <= doe < 146097 ->
  let '(yoe, m, d) := civilOfDoe doe in
  0 <= yoe <= 399 /\ 1 <= m <= 12 /\ 1 <= d <= 31 /\ doeOfCivil yoe m d = doe.
Proof.
  intros H. unfold civilOfDoe, doeOfCivil.
  set (yoe := (doe - doe / 1460 + doe / 36524 - doe / 146096) / 365).
  set (doy := doe - (365 * yoe + yoe / 4 - yoe / 100)).
  set (mp := (5 * doy + 2) / 153).
  assert (Hy : 0 <= yoe <= 399 /\ 0 <= doy <= 365).
  { subst doy yoe. Z.div_mod_to_equations. lia. }
  assert (Hm : 0 <= mp <= 11 /\ 1 <= doy - (153 * mp + 2) / 5 + 1 <= 31).
  { subst mp. destruct Hy as [_ Hd]. revert Hd. generalize doy. intros n Hn.
    Z.div_mod_to_equations. lia. }
  destruct Hy as [Hy Hd]. destruct Hm as [Hm Hdd].
  split; [exact Hy|].
  destruct (mp <? 10) eqn:E; [apply Z.ltb_lt in E | apply Z.ltb_ge in E].
  - split; [lia|]. split; [exact Hdd|].
    replace (2 <? mp + 3) with true by (symmetry; apply Z.ltb_lt; lia).
    replace (mp + 3 - 3) with mp by lia. subst doy. lia.
  - split; [lia|]. split; [exact Hdd|].
    replace (2 <? mp - 9) with false by (symmetry; apply Z.ltb_ge; lia).
    replace (mp - 9 + 9) with mp by lia. subst doy. lia.
Qed.

(** Between 0000-03-01 and 9600-02-29 the date of a day has a year of four
    digits, and the day is recovered from its date. *)
Lemma civilFromDays_range (z : Z) :
  firstDay <= z <= lastDay ->
  let '(y, m, d) := civilFromDays z in
  0 <= y < 10000 /\ 1 <= m <= 12 /\ 1 <= d <= 31 /\ daysFromCivil y m d = z.
Proof.
  unfold firstDay, lastDay. intros H. unfold civilFromDays, daysFromCivil.
  set (z' := z + 719468).
  set (era := z' / 146097).
  assert (He : 0 <= era <= 23) by (subst era z'; Z.div_mod_to_equations; lia).
  assert (Hdoe : 0 <= z' - era * 146097 < 146097)
    by (subst era z'; Z.div_mod_to_equations; lia).
  pose proof (civilOfDoe_range _ Hdoe) as Hc.
  destruct (civilOfDoe (z' - era * 146097)) as [[yoe m] d].
  destruct Hc as (Hy & Hm & Hd & Hrt).
  destruct (m <=? 2) eqn:E.
  - split; [lia|]. split; [exact Hm|]. split; [exact Hd|].
    replace (yoe + era * 400 + 1 - 1) with (yoe + era * 400) by lia.
    assert (Hq : (yoe + era * 400) / 400 = era) by (Z.div_mod_to_equations; lia).
    rewrite Hq. replace (yoe + era * 400 - era * 400) with yoe by lia.
    rewrite Hrt. subst z'. lia.
  - split; [lia|]. split; [exact Hm|]. split; [exact Hd|].
    assert (Hq : (yoe + era * 400) / 400 = era) by (Z.div_mod_to_equations; lia).
    rewrite Hq. replace (yoe + era * 400 - era * 400) with yoe by lia.
    rewrite Hrt. subst z'. lia.
Qed.

(** *** Decimal digits *)

Lemma digit_inj (a b : Z) : 0 <= a <= 9 -> 0 <= b <= 9 -> digit a = digit b -> a = b.
Proof.
  intros Ha Hb H. unfold digit in H.
  apply (f_equal nat_of_ascii) in H.
  rewrite !nat_ascii_embedding in H by lia. lia.
Qed.

Lemma length_lastDigits (n : nat) (u : Z) : String.length (lastDigits n u) = n.
Proof.
  revert u. induction n as [|n IH]; intros u; [reflexivity|].
  simpl. rewrite length_append, IH. simpl. lia.
Qed.

Lemma lastDigits_inj (n : nat) (u v : Z) :
  0 <= u < 10 ^ Z.of_nat n -> 0 <= v < 10 ^ Z.of_nat n ->
  lastDigits n u = lastDigits n v -> u = v.
Proof.
  revert u v. induction n as [|n IH]; intros u v Hu Hv H.
  - simpl in Hu, Hv. lia.
  - rewrite Nat2Z.inj_succ, Z.pow_succ_r in Hu, Hv by lia.
    simpl in H.
    apply append_inj_length in H; [|now rewrite !length_lastDigits].
    destruct H as [H1 H2]. injection H2 as H2.
    assert (0 <= u mod 10 < 10) by (apply Z.mod_pos_bound; lia).
    assert (0 <= v mod 10 < 10) by (apply Z.mod_pos_bound; lia).
    apply digit_inj in H2; [|lia ..].
    assert (0 <= u / 10 < 10 ^ Z.of_nat n)
      by (split; [apply Z.div_pos; lia | apply Z.div_lt_upper_bound; lia]).
    assert (0 <= v / 10 < 10 ^ Z.of_nat n)
      by (split; [apply Z.div_pos; lia | apply Z.div_lt_upper_bound; lia]).
    apply IH in H1; [| assumption ..].
    rewrite (Z.div_mod u 10), (Z.div_mod v 10) by lia. lia.
Qed.

Lemma appendInt_2 (x : Z) : 0 <= x < 100 -> appendInt x 2 = lastDigits 2 x.
Proof.
  intros H. unfold appendInt.
  replace (x <? 0) with false by (symmetry; apply Z.ltb_ge; lia).
  rewrite Z.abs_eq by lia.
  replace (x <? 100) with true by (symmetry; apply Z.ltb_lt; lia).
  reflexivity.
Qed.

Lemma appendInt_4 (x : Z) : 0 <= x < 10000 -> appendInt x 4 = lastDigits 4 x.
Proof.
  intros H. unfold appendInt.
  replace (x <? 0) with false by (symmetry; apply Z.ltb_ge; lia).
  rewrite Z.abs_eq by lia.
  replace (x <? 10000) with true by (symmetry; apply Z.ltb_lt; lia).
  reflexivity.
Qed.

(** *** The daily layout *)

Lemma Format_daily (t : Time) :
  firstDay <= dayIndex t <= lastDay ->
  Format t dailyLayout =
    lastDigits 4 (Year t) +:+ "-" +:+ lastDigits 2 (Month t) +:+ "-" +:+
    lastDigits 2 (DayOfMonth t).
Proof.
  intros H. pose proof (civilFromDays_range _ H) as Hc.
  unfold Format. change (chunks dailyLayout)
    with [stdLongYear; stdLiteral "-"; stdZeroMonth; stdLiteral "-"; stdZeroDay].
  unfold appendChunks, appendChunk. unfold Year, Month, DayOfMonth.
  destruct (civilFromDays (dayIndex t)) as [[y m] d]. simpl fst; simpl snd.
  destruct Hc as (Hy & Hm & Hd & _).
  rewrite appendInt_4, !appendInt_2 by lia.
  rewrite append_nil_r. reflexivity.
Qed.

(** Between 0000-03-01 and 9600-02-29 two instants are formatted alike by
    the daily layout exactly when they are of one day. *)
Lemma Format_daily_inj (t1 t2 : Time) :
  firstDay <= dayIndex t1 <= lastDay ->
  firstDay <= dayIndex t2 <= lastDay ->
  Format t1 dailyLayout = Format t2 dailyLayout ->
  dayIndex t1 = dayIndex t2.
Proof.
  intros H1 H2 H. rewrite !Format_daily in H by assumption.
  pose proof (civilFromDays_range _ H1) as Hc1.
  pose proof (civilFromDays_range _ H2) as Hc2.
  unfold Year, Month, DayOfMonth in H.
  destruct (civilFromDays (dayIndex t1)) as [[y1 m1] d1].
  destruct (civilFromDays (dayIndex t2)) as [[y2 m2] d2].
  simpl fst in H; simpl snd in H.
  destruct Hc1 as (Hy1 & Hm1 & Hd1 & <-). destruct Hc2 as (Hy2 & Hm2 & Hd2 & <-).
  apply append_inj_length in H; [|now rewrite !length_lastDigits].
  destruct H as [Hy H]. apply append_inj_l in H.
  apply append_inj_length in H; [|now rewrite !length_lastDigits].
  destruct H as [Hm H]. apply append_inj_l in H.
  apply lastDigits_inj in Hy; [|simpl; lia ..].
  apply lastDigits_inj in Hm; [|simpl; lia ..].
  apply lastDigits_inj in H; [|simpl; lia ..].
  now subst.
Qed.

End CalendarFacts.

(** ** Periods *)

Module PeriodFacts.
Import GoTime StringFacts GoTimeFacts CalendarFacts Periods.

Lemma dayIndex_in_range (t : Time) :
  firstInstant <= unixNano t <= lastInstant ->
  firstDay <= dayIndex (UTC t) <= lastDay.
Proof.
  unfold firstInstant, lastInstant, firstDay, lastDay. rewrite dayIndex_UTC.
  unfold Day, Hour, Minute, Second. intros H.
  Z.div_mod_to_equations. lia.
Qed.

(** Between 0000-03-01 and 9600-02-29 the daily layout changes names
    exactly with the UTC day. *)
Lemma daily_periodicOn : periodicOn dailyLayout Day firstInstant lastInstant.
Proof.
  split; [reflexivity|]. intros t1 t2 H1 H2. split.
  - intros H. rewrite <- !dayIndex_UTC.
    apply Format_daily_inj; auto using dayIndex_in_range.
  - apply Format_same_period. reflexivity.
Qed.

Lemma neg_small (d : Duration) : minInt64 < d <= maxInt64 -> neg d = - d.
Proof.
  unfold minInt64, maxInt64, neg, wrap64. intros H.
  rewrite Z.mod_small by lia. lia.
Qed.

Lemma div_sub_period (x P : Z) : 0 < P -> (x - P) / P = x / P - 1.
Proof.
  intros HP. replace (x - P) with (x + (-1) * P) by lia.
  rewrite Z.div_add by lia. lia.
Qed.

Lemma div_sub_periods (x P k : Z) : 0 < P -> (x - k * P) / P = x / P - k.
Proof.
  intros HP. replace (x - k * P) with (x + (- k) * P) by lia.
  rewrite Z.div_add by lia. lia.
Qed.

End PeriodFacts.

(** ** The backward walk of [getReadIndices] *)

Module ReadPlanFacts.
Import GoTime StringFacts GoTimeFacts PeriodFacts Periods.
Import samplingstore.

Section Walk.
Context `{Ext : Externals}.
Variable s : SamplingStore.

Local Abbreviation name := (Plan.name s).

Lemma name_instant (t1 t2 : Time) : unixNano t1 = unixNano t2 -> name t1 = name t2.
Proof.
  intros H. unfold Plan.name, config.IndexWithDate. now rewrite (UTC_location t1 t2).
Qed.

Lemma readLoop_S (fuel : nat) (firstIndex : string) (endTime : Time)
    (currentIndex : string) (indices : list string) :
  readLoop (S fuel) s firstIndex endTime currentIndex indices =
    if String.eqb currentIndex firstIndex then Some (indices ++ [firstIndex])
    else readLoop fuel s firstIndex (Add endTime (indexRolloverFrequency s))
           (name (Add endTime (indexRolloverFrequency s))) (indices ++ [currentIndex]).
Proof. reflexivity. Qed.

(** More fuel does not change a result. *)
Lemma readLoop_more_fuel (fuel : nat) :
  forall firstIndex endTime currentIndex indices r,
    readLoop fuel s firstIndex endTime currentIndex indices = Some r ->
    forall fuel', (fuel <= fuel')%nat ->
      readLoop fuel' s firstIndex endTime currentIndex indices = Some r.
Proof.
  induction fuel as [|fuel IH]; intros firstIndex endTime currentIndex indices r H fuel' Hle;
    [discriminate|].
  destruct fuel' as [|fuel']; [lia|]. rewrite readLoop_S in *.
  destruct (String.eqb currentIndex firstIndex); [exact H|].
  eapply IH; [exact H | lia].
Qed.

(** With the names of the start and of the end equal the loop is not
    entered. *)
Lemma getReadIndices_same_name (fuel : nat) (startTime endTime : Time) :
  useDataStream s = false ->
  name endTime = name startTime ->
  getReadIndices (S fuel) s startTime endTime = Some [name startTime].
Proof.
  intros Hds H. unfold getReadIndices. rewrite Hds.
  fold (name endTime). fold (name startTime).
  rewrite readLoop_S, H, String.eqb_refl. reflexivity.
Qed.

(** With a frequency of zero the cursor stays where it is. *)
Lemma readLoop_zero_frequency (fuel : nat) :
  indexRolloverFrequency s = 0 ->
  forall firstIndex endTime indices,
    name endTime <> firstIndex ->
    readLoop fuel s firstIndex endTime (name endTime) indices = None.
Proof.
  intros Hf. induction fuel as [|fuel IH]; intros firstIndex endTime indices Hne;
    [reflexivity|].
  rewrite readLoop_S.
  destruct (String.eqb_spec (name endTime) firstIndex) as [E|_]; [contradiction|].
  apply IH.
  rewrite (name_instant (Add endTime (indexRolloverFrequency s)) endTime)
    by (simpl; lia).
  exact Hne.
Qed.

Section Periodic.
Variables P lo hi : Z.
Hypothesis Hper : periodicOn (indexDateLayout s) P lo hi.
Hypothesis Hfreq : indexRolloverFrequency s = - P.

Lemma name_eq_iff (t1 t2 : Time) :
  lo <= unixNano t1 <= hi -> lo <= unixNano t2 <= hi ->
  (name t1 = name t2 <-> unixNano t1 / P = unixNano t2 / P).
Proof.
  intros H1 H2. destruct Hper as [_ H]. rewrite <- (H t1 t2 H1 H2).
  unfold Plan.name, config.IndexWithDate. split; [apply append_inj_l | now intros ->].
Qed.

Local Abbreviation walk := (Plan.walk s P).

Lemma walk_succ (c : Time) (m : nat) :
  walk c (S m) = name c :: walk (Add c (- P)) m.
Proof.
  unfold Plan.walk. change (seq 0 (S (S m))) with (0%nat :: seq 1 (S m)).
  rewrite <- seq_shift, map_cons, map_map. f_equal.
  - apply name_instant. simpl. lia.
  - apply map_ext. intros k. apply name_instant. simpl. lia.
Qed.

Lemma readLoop_walk (m : nat) :
  forall (startTime c : Time) (indices : list string),
    lo <= unixNano startTime <= hi ->
    lo <= unixNano c - Z.of_nat m * P -> unixNano c <= hi ->
    unixNano c / P - unixNano startTime / P = Z.of_nat m ->
    readLoop (S m) s (name startTime) c (name c) indices
    = Some (indices ++ walk c m).
Proof.
  destruct Hper as [HP _].
  induction m as [|m IH]; intros startTime c indices Hs Hlo Hhi Hm.
  - assert (E : name c = name startTime) by (apply name_eq_iff; lia).
    rewrite readLoop_S, E, String.eqb_refl. unfold Plan.walk. simpl. do 3 f_equal.
    rewrite <- E. apply name_instant. simpl. lia.
  - assert (E : name c <> name startTime).
    { intros E. apply name_eq_iff in E; lia. }
    rewrite readLoop_S.
    destruct (String.eqb_spec (name c) (name startTime)) as [E'|_];
      [contradiction|].
    rewrite Hfreq, IH.
    + rewrite walk_succ, <- app_assoc. reflexivity.
    + exact Hs.
    + simpl. lia.
    + simpl. lia.
    + simpl. replace (unixNano c + - P) with (unixNano c - P) by lia.
      rewrite div_sub_period by lia. lia.
Qed.

Variables startTime endTime : Time.
Hypothesis Hds : useDataStream s = false.
Hypothesis Hlo : lo + P <= unixNano startTime.
Hypothesis Hord : unixNano startTime <= unixNano endTime.
Hypothesis Hhi : unixNano endTime <= hi.

Local Abbreviation span := (Plan.span P startTime endTime).

Lemma span_spec :
  Z.of_nat span = unixNano endTime / P - unixNano startTime / P.
Proof.
  destruct Hper as [HP _]. unfold Plan.span. rewrite Z2Nat.id; [reflexivity|].
  assert (unixNano startTime / P <= unixNano endTime / P)
    by (apply Z.div_le_mono; lia). lia.
Qed.

Lemma getReadIndices_walk (fuel : nat) :
  (span < fuel)%nat ->
  getReadIndices fuel s startTime endTime = Some (walk endTime span).
Proof.
  destruct Hper as [HP _]. intros Hfuel. unfold getReadIndices. rewrite Hds.
  fold (name startTime). fold (name endTime).
  apply (readLoop_more_fuel (S span)); [|lia].
  rewrite readLoop_walk; [reflexivity | lia | | lia | now rewrite span_spec].
  rewrite span_spec. Z.div_mod_to_equations. nia.
Qed.

Lemma walk_instant_range (k : nat) :
  (k <= span)%nat ->
  lo <= unixNano endTime - Z.of_nat k * P <= hi /\
  (unixNano endTime - Z.of_nat k * P) / P = unixNano endTime / P - Z.of_nat k.
Proof.
  destruct Hper as [HP _]. intros Hk. pose proof span_spec as Hs.
  rewrite div_sub_periods by lia. split; [|reflexivity].
  split; [|nia]. Z.div_mod_to_equations. nia.
Qed.

Lemma walk_NoDup : List.NoDup (walk endTime span).
Proof.
  destruct Hper as [HP _]. unfold Plan.walk.
  apply NoDup_map_NoDup_ForallPairs; [|apply seq_NoDup].
  intros i j Hi Hj E. apply in_seq in Hi, Hj.
  destruct (walk_instant_range i) as [Hri Hqi]; [lia|].
  destruct (walk_instant_range j) as [Hrj Hqj]; [lia|].
  apply name_eq_iff in E; simpl; [|lia ..]. simpl in E.
  replace (unixNano endTime + - (Z.of_nat i * P))
    with (unixNano endTime - Z.of_nat i * P) in E by lia.
  replace (unixNano endTime + - (Z.of_nat j * P))
    with (unixNano endTime - Z.of_nat j * P) in E by lia.
  lia.
Qed.

Lemma walk_last : List.last (walk endTime span) "" = name startTime.
Proof.
  destruct Hper as [HP _]. pose proof span_spec as Hs.
  unfold Plan.walk. rewrite seq_S, map_app. simpl. rewrite last_last.
  destruct (walk_instant_range span) as [Hr Hq]; [lia|].
  apply name_eq_iff; simpl; [lia | lia |].
  replace (unixNano endTime + - (Z.of_nat span * P))
    with (unixNano endTime - Z.of_nat span * P) by lia.
  rewrite Hq. lia.
Qed.

(** The names of the walk are those of the instants from the start to
    the end. *)
Lemma walk_covers (x : string) :
  In x (walk endTime span) <->
  exists t : Time, unixNano startTime <= unixNano t <= unixNano endTime /\ x = name t.
Proof.
  destruct Hper as [HP _]. pose proof span_spec as Hs. unfold Plan.walk. rewrite in_map_iff.
  split.
  - intros (k & <- & Hk). apply in_seq in Hk.
    destruct (walk_instant_range k) as [Hr Hq]; [lia|].
    set (q := unixNano endTime / P - Z.of_nat k) in *.
    exists {| unixNano := Z.max (unixNano startTime) (q * P); location := UTCLoc |}.
    simpl. split.
    + assert (q * P <= unixNano endTime) by (subst q; Z.div_mod_to_equations; nia).
      lia.
    + apply name_eq_iff; simpl; [lia | | ].
      * assert (q * P <= unixNano endTime) by (subst q; Z.div_mod_to_equations; nia).
        lia.
      * replace (unixNano endTime + - (Z.of_nat k * P))
          with (unixNano endTime - Z.of_nat k * P) by lia.
        rewrite Hq. symmetry.
        destruct (Z.max_spec (unixNano startTime) (q * P)) as [[Hlt ->] | [Hge ->]].
        -- now rewrite Z.div_mul by lia.
        -- assert (unixNano startTime / P <= q) by lia.
           assert (q <= unixNano startTime / P)
             by (apply Z.div_le_lower_bound; lia).
           lia.
  - intros (t & Ht & ->).
    assert (Hq1 : unixNano startTime / P <= unixNano t / P)
      by (apply Z.div_le_mono; lia).
    assert (Hq2 : unixNano t / P <= unixNano endTime / P)
      by (apply Z.div_le_mono; lia).
    exists (Z.to_nat (unixNano endTime / P - unixNano t / P)). split.
    + destruct (walk_instant_range (Z.to_nat (unixNano endTime / P - unixNano t / P)))
        as [Hr Hq]; [lia|].
      apply name_eq_iff; simpl; [lia | lia |].
      replace (unixNano endTime + - (Z.of_nat (Z.to_nat (unixNano endTime / P - unixNano t / P)) * P))
        with (unixNano endTime - Z.of_nat (Z.to_nat (unixNano endTime / P - unixNano t / P)) * P) by lia.
      rewrite Hq. lia.
    + apply in_seq. lia.
Qed.

End Periodic.
End Walk.
End ReadPlanFacts.

(** ** The scan of [getLatestIndices] *)

Module LatestFacts.
Import GoTime StringFacts GoTimeFacts PeriodFacts Periods.
Import es samplingstore Scan.

Section Latest.
Context `{Ext : Externals}.
Variable s : SamplingStore.

Local Abbreviation name := (Plan.name s).

Lemma latestLoop_S (fuel : nat) (earliestIndex : string) (now : Time) :
  latestLoop (S fuel) s earliestIndex now =
    IndexExistsDo (name now) (fun ans =>
      match snd ans with
      | Some err => Ret (Some ([], Some (errCheck err)))
      | None =>
          if fst ans then Ret (Some ([name now], None))
          else if String.eqb (name now) earliestIndex
               then Ret (Some ([], Some errNotFound))
               else latestLoop fuel s earliestIndex (GoTime.Add now (indexRolloverFrequency s))
      end).
Proof. reflexivity. Qed.

Lemma Scanned_length (names : list string) (evs : list Event)
    (r : list string * option error) :
  Scanned names evs r -> (1 <= length evs <= length names)%nat.
Proof. induction 1; simpl; lia. Qed.

(** A scan checks names of its list only, and nothing but existence. *)
Lemma Scanned_checked (names : list string) (evs : list Event)
    (r : list string * option error) :
  Scanned names evs r ->
  length (checked evs) = length evs /\ forall x, In x (checked evs) -> In x names.
Proof.
  induction 1; simpl; (split; [try reflexivity | intros x Hx]);
    try (destruct Hx as [<- | []]; now left).
  - destruct IHScanned as [-> _]. reflexivity.
  - destruct IHScanned as [_ IH]. destruct Hx as [<- | Hx]; [now left | right; auto].
Qed.

Section Periodic.
Variables P lo hi : Z.
Hypothesis Hper : periodicOn (indexDateLayout s) P lo hi.
Hypothesis Hfreq : indexRolloverFrequency s = - P.

Local Abbreviation walk := (Plan.walk s P).

Lemma walk_zero (c : Time) : walk c 0 = [name c].
Proof.
  unfold Plan.walk. simpl. f_equal. apply ReadPlanFacts.name_instant. simpl. lia.
Qed.

Lemma latestLoop_scan {St : Type} (cl : Client St) (m : nat) :
  forall (fuel : nat) (earliest c : Time) (st : St),
    (m < fuel)%nat ->
    lo <= unixNano earliest <= hi ->
    lo <= unixNano c - Z.of_nat m * P -> unixNano c <= hi ->
    unixNano c / P - unixNano earliest / P = Z.of_nat m ->
    exists r st' evs,
      run cl (latestLoop fuel s (name earliest) c) st = (Some r, st', evs) /\
      Scanned (walk c m) evs r.
Proof.
  destruct Hper as [HP _].
  induction m as [|m IH]; intros fuel earliest c st Hfuel He Hlo Hhi Hm;
    (destruct fuel as [|fuel]; [lia|]); rewrite latestLoop_S; simpl;
    destruct (onIndexExists cl (name c) st) as [[b [e|]] st1] eqn:Hans; simpl.
  - eexists _, _, _. split; [reflexivity|]. rewrite walk_zero. apply ScanError.
  - destruct b; simpl.
    + eexists _, _, _. split; [reflexivity|]. rewrite walk_zero. apply ScanFound.
    + assert (E : name c = name earliest)
        by (apply (ReadPlanFacts.name_eq_iff s P lo hi Hper); lia).
      rewrite walk_zero, E, String.eqb_refl. simpl.
      eexists _, _, _. split; [reflexivity|]. apply ScanNotFound.
  - eexists _, _, _. split; [reflexivity|].
    rewrite (ReadPlanFacts.walk_succ s). apply ScanError.
  - destruct b; simpl.
    + eexists _, _, _. split; [reflexivity|].
      rewrite (ReadPlanFacts.walk_succ s). apply ScanFound.
    + assert (E : name c <> name earliest).
      { intros E. apply (ReadPlanFacts.name_eq_iff s P lo hi Hper) in E; lia. }
      destruct (String.eqb_spec (name c) (name earliest)) as [E'|_]; [contradiction|].
      rewrite Hfreq.
      destruct (IH fuel earliest (GoTime.Add c (- P)) st1) as (r & st' & evs & Hrun & Hscan).
      * lia.
      * exact He.
      * simpl. lia.
      * simpl. lia.
      * simpl. replace (unixNano c + - P) with (unixNano c - P) by lia.
        rewrite div_sub_period by lia. lia.
      * rewrite Hrun. eexists _, _, _. split; [reflexivity|].
        rewrite (ReadPlanFacts.walk_succ s). apply ScanNext; [|exact Hscan].
        unfold Plan.walk. simpl. discriminate.
Qed.

Variable now : Time.
Hypothesis Hds : useDataStream s = false.
Hypothesis Hlook : 0 <= lookback s <= maxInt64.
Hypothesis Hlo : lo + P <= unixNano now - lookback s.
Hypothesis Hhi : unixNano now <= hi.

(** The instant the scan may go back to. *)
Local Abbreviation earliest := (GoTime.Add (UTC now) (- lookback s)).
Local Abbreviation span := (Plan.span P earliest (UTC now)).

Lemma getLatestIndices_scan {St : Type} (cl : Client St) (st : St) (fuel : nat) :
  (span < fuel)%nat ->
  exists r st' evs,
    run cl (getLatestIndices fuel s now) st = (Some r, st', evs) /\
    Scanned (walk (UTC now) span) evs r.
Proof.
  destruct Hper as [HP _]. intros Hfuel.
  unfold getLatestIndices. rewrite Hds.
  rewrite neg_small by (unfold minInt64, maxInt64 in *; lia).
  fold (name earliest).
  assert (Hs : Z.of_nat span = unixNano (UTC now) / P - unixNano earliest / P).
  { apply (ReadPlanFacts.span_spec s P lo hi Hper); simpl; lia. }
  simpl in Hs.
  apply (latestLoop_scan cl span fuel earliest (UTC now) st); simpl; try lia.
  rewrite Hs. Z.div_mod_to_equations. nia.
Qed.

(** The scan goes back over the periods the lookback touches: one more
    than the lookback holds when the frequency divides it. *)
Lemma span_bound :
  Z.of_nat span <= (lookback s + P - 1) / P /\
  (lookback s mod P = 0 -> Z.of_nat span = lookback s / P).
Proof.
  destruct Hper as [HP _].
  assert (Hs : Z.of_nat span = unixNano (UTC now) / P - unixNano earliest / P).
  { apply (ReadPlanFacts.span_spec s P lo hi Hper); simpl; lia. }
  simpl in Hs. rewrite Hs. split.
  - Z.div_mod_to_equations. nia.
  - intros Hmod. Z.div_mod_to_equations. nia.
Qed.

End Periodic.
End Latest.
End LatestFacts.

(** ** [strings.Replace] on the first dot *)

Module ReplaceFacts.
Import Strings StringFacts.

Lemma prefix_dot_cons (c : ascii) (s : string) :
  String.prefix "." (String c s) = Ascii.eqb c ".".
Proof.
  change (String.prefix "." (String c s))
    with (if ascii_dec "." c then String.prefix "" s else false).
  destruct (ascii_dec "." c) as [<- | Hne].
  - now destruct s.
  - symmetry. apply Ascii.eqb_neq. congruence.
Qed.

Lemma Replace_go_zero (fuel : nat) (s old new : string) :
  Replace_go fuel s old new 0 = s.
Proof. destruct fuel; reflexivity. Qed.

(** Without a dot nothing is replaced. *)
Lemma Replace_go_no_dot (s : string) :
  ContainsByte s "." = false ->
  forall (fuel : nat) (n : Z), Replace_go fuel s "." "-" n = s.
Proof.
  induction s as [|c s IH]; intros H fuel n.
  - destruct fuel; simpl; [reflexivity|]. now destruct (n =? 0).
  - simpl in H. apply orb_false_iff in H as [Hc Hs].
    destruct fuel as [|fuel]; [reflexivity|].
    cbn [Replace_go]. destruct (n =? 0); [reflexivity|].
    rewrite prefix_dot_cons, Hc. now rewrite IH.
Qed.

(** The first dot, and only it, is replaced. *)
Lemma Replace_go_first_dot (pre post : string) :
  ContainsByte pre "." = false ->
  forall fuel : nat,
    (String.length (pre +:+ "." +:+ post) <= fuel)%nat ->
    Replace_go fuel (pre +:+ "." +:+ post) "." "-" 1 = pre +:+ "-" +:+ post.
Proof.
  induction pre as [|c pre IH]; intros H fuel Hfuel.
  - rewrite !append_nil_l in *. rewrite append_cons in *. simpl in Hfuel.
    destruct fuel as [|fuel]; [lia|].
    cbn [Replace_go]. change (1 =? 0) with false. cbv iota.
    rewrite prefix_dot_cons. change (Ascii.eqb "." ".") with true. cbv iota.
    change (1 - 1) with 0. rewrite Replace_go_zero. reflexivity.
  - simpl in H. apply orb_false_iff in H as [Hc Hs].
    rewrite !append_cons in *. simpl in Hfuel.
    destruct fuel as [|fuel]; [lia|].
    cbn [Replace_go]. change (1 =? 0) with false. cbv iota.
    rewrite prefix_dot_cons, Hc. rewrite IH by (assumption || lia). reflexivity.
Qed.

Lemma Replace_first_dot (pre post : string) :
  ContainsByte pre "." = false ->
  Replace (pre +:+ "." +:+ post) "." "-" 1 = pre +:+ "-" +:+ post.
Proof.
  intros H. unfold Replace. change (String.eqb "." "-") with false. cbv iota.
  now apply Replace_go_first_dot.
Qed.

Lemma Replace_no_dot (s : string) (n : Z) :
  ContainsByte s "." = false -> Replace s "." "-" n = s.
Proof.
  intros H. unfold Replace. change (String.eqb "." "-") with false. cbv iota.
  now apply Replace_go_no_dot.
Qed.

(** A name with a dot is what precedes its first dot, the dot, and the
    rest. *)
Lemma split_first_dot (s : string) :
  ContainsByte s "." = true ->
  exists pre post : string,
    s = pre +:+ "." +:+ post /\ ContainsByte pre "." = false.
Proof.
  induction s as [|c s IH]; intros H; [discriminate|].
  simpl in H. destruct (Ascii.eqb_spec c ".") as [-> | Hne].
  - exists "", s. split; reflexivity.
  - simpl in H. destruct (IH H) as (pre & post & -> & Hpre).
    exists (String c pre), post. split; [reflexivity|].
    simpl. rewrite Hpre. apply orb_false_iff. split; [|reflexivity].
    now apply Ascii.eqb_neq.
Qed.

End ReplaceFacts.

(** ** Runs of the write paths *)

Module WriteFacts.
Import es.

Section Runs.
Context `{Ext : Externals}.

Lemma run_bind {St A B : Type} (cl : Client St) (p : Prog A) (f : A -> Prog B) :
  forall st : St,
    run cl (bind p f) st =
      let r1 := run cl p st in
      let r2 := run cl (f (result r1)) (state r1) in
      (result r2, state r2, events r1 ++ events r2).
Proof.
  induction p as [a | index k IH | index k IH | k IH | w k IH]; intros st; simpl.
  - unfold result, state, events. simpl.
    now destruct (run cl (f a) st) as [[b st'] evs].
  - destruct (onIndexExists cl index st) as [ans st1]. rewrite IH.
    unfold result, state, events. simpl.
    now destruct (run cl (k ans) st1) as [[a st2] evs].
  - destruct (onCreateIndex cl index st) as [ans st1]. rewrite IH.
    unfold result, state, events. simpl.
    now destruct (run cl (k ans) st1) as [[a st2] evs].
  - destruct (onGetVersion cl st) as [v st1]. rewrite IH.
    unfold result, state, events. simpl.
    now destruct (run cl (k v) st1) as [[a st2] evs].
  - rewrite IH. unfold result, state, events. simpl.
    now destruct (run cl k (onAdd cl w st)) as [[a st2] evs].
Qed.

Lemma events_bind {St A B : Type} (cl : Client St) (p : Prog A) (f : A -> Prog B)
    (st : St) :
  events (run cl (bind p f) st) =
    events (run cl p st) ++
    events (run cl (f (result (run cl p st))) (state (run cl p st))).
Proof. now rewrite run_bind. Qed.

Lemma result_bind {St A B : Type} (cl : Client St) (p : Prog A) (f : A -> Prog B)
    (st : St) :
  result (run cl (bind p f) st) =
    result (run cl (f (result (run cl p st))) (state (run cl p st))).
Proof. now rewrite run_bind. Qed.

(** *** The sampling store *)

Section Sampling.
Import samplingstore.
Variable s : SamplingStore.

Local Abbreviation samplingEvent := (WriteShape.samplingEvent s).

Lemma chooseOpType_run {St : Type} (cl : Client St) (st : St) :
  let r := run cl (chooseOpType s) st in
  (result r = "create" \/ (useDataStream s = false /\ result r = "")) /\
  (forall ev, In ev (events r) ->
     match ev with EvGetVersion _ => useDataStream s = false | _ => False end).
Proof.
  unfold chooseOpType. destruct (useDataStream s) eqn:Hds; simpl.
  - split; [now left | intros ev []].
  - destruct (onGetVersion cl st) as [v st1]. simpl. split.
    + destruct (8 <=? v); [now left | now right].
    + intros ev [<- | []]. reflexivity.
Qed.

Lemma insertEach_events {St : Type} (cl : Client St) (index : string)
    (ts : GoTime.Time) (items : list dbThroughput) :
  forall (st : St) (ev : Event),
    In ev (events (run cl (insertEach s index ts items) st)) ->
    samplingEvent index throughputType ev.
Proof.
  induction items as [|each rest IH]; intros st ev Hev; [destruct Hev|].
  cbn [insertEach] in Hev. rewrite events_bind in Hev.
  destruct (chooseOpType_run cl st) as [Hop Hevs]. cbn zeta in Hop, Hevs.
  apply in_app_or in Hev as [Hev | Hev].
  - specialize (Hevs ev Hev). destruct ev; try contradiction. exact Hevs.
  - rewrite events_bind in Hev. apply in_app_or in Hev as [Hev | Hev].
    + simpl in Hev. destruct Hev as [<- | []]. simpl.
      repeat split; try reflexivity. exact Hop.
    + eapply IH. exact Hev.
Qed.

Lemma InsertThroughput_run {St : Type} (cl : Client St) (st : St)
    (ts : GoTime.Time) (throughput : list Throughput) :
  let r := run cl (InsertThroughput s ts throughput) st in
  result r = None /\
  forall ev, In ev (events r) -> samplingEvent (getWriteIndex s ts) throughputType ev.
Proof.
  unfold InsertThroughput. cbn zeta. rewrite result_bind. split; [reflexivity|].
  intros ev Hev. rewrite events_bind in Hev.
  apply in_app_or in Hev as [Hev | Hev]; [|destruct Hev].
  eapply insertEach_events. exact Hev.
Qed.

Lemma InsertProbabilitiesAndQPS_run {St : Type} (cl : Client St) (st : St)
    (ts : GoTime.Time) (hostname : string)
    (probabilities : ServiceOperationProbabilities) (qps : ServiceOperationQPS) :
  let r := run cl (InsertProbabilitiesAndQPS s ts hostname probabilities qps) st in
  result r = None /\
  forall ev, In ev (events r) -> samplingEvent (getWriteIndex s ts) probabilitiesType ev.
Proof.
  unfold InsertProbabilitiesAndQPS, writeProbabilitiesAndQPS.
  cbn zeta. rewrite result_bind. split; [reflexivity|].
  intros ev Hev. rewrite events_bind in Hev.
  apply in_app_or in Hev as [Hev | Hev]; [|destruct Hev].
  rewrite events_bind in Hev.
  destruct (chooseOpType_run cl st) as [Hop Hevs]. cbn zeta in Hop, Hevs.
  apply in_app_or in Hev as [Hev | Hev].
  - specialize (Hevs ev Hev). destruct ev; try contradiction. exact Hevs.
  - simpl in Hev. destruct Hev as [<- | []]. simpl.
    repeat split; try reflexivity. exact Hop.
Qed.

Lemma In_writes (evs : list Event) (w : IndexService) :
  In w (writes evs) <-> In (EvAdd w) evs.
Proof.
  induction evs as [|ev evs IH]; [reflexivity|].
  destruct ev as [index ans | index ans | v | w0]; simpl; rewrite IH.
  - split; [now right | intros [H | H]; [discriminate H | exact H]].
  - split; [now right | intros [H | H]; [discriminate H | exact H]].
  - split; [now right | intros [H | H]; [discriminate H | exact H]].
  - split; intros [H | H]; try (now right); left; congruence.
Qed.

End Sampling.

(** *** The sampling store on dated indices only *)

Lemma dated_InsertThroughput_result {St : Type} (cl : Client St) (st : St)
    (s : samplingstore_dated.SamplingStore) (ts : GoTime.Time)
    (throughput : list Throughput) :
  result (run cl (samplingstore_dated.InsertThroughput s ts throughput) st) = None.
Proof.
  unfold samplingstore_dated.InsertThroughput. cbn zeta. now rewrite result_bind.
Qed.

Lemma dated_InsertProbabilitiesAndQPS_result {St : Type} (cl : Client St) (st : St)
    (s : samplingstore_dated.SamplingStore) (ts : GoTime.Time) (hostname : string)
    (probabilities : ServiceOperationProbabilities) (qps : ServiceOperationQPS) :
  result (run cl (samplingstore_dated.InsertProbabilitiesAndQPS s ts hostname
                    probabilities qps) st) = None.
Proof.
  unfold samplingstore_dated.InsertProbabilitiesAndQPS. cbn zeta.
  now rewrite result_bind.
Qed.

(** The read plan and the scan of the store on dated indices only are
    those of the store with the data-stream switch, the switch off. *)
Lemma dated_readLoop (s : samplingstore_dated.SamplingStore) (fuel : nat) :
  forall firstIndex endTime currentIndex indices,
    samplingstore_dated.readLoop fuel s firstIndex endTime currentIndex indices =
    samplingstore.readLoop fuel (samplingstore.ofDated s) firstIndex endTime
      currentIndex indices.
Proof.
  induction fuel as [|fuel IH]; intros; [reflexivity|].
  simpl. destruct (String.eqb currentIndex firstIndex); [reflexivity|]. apply IH.
Qed.

Lemma dated_getReadIndices (s : samplingstore_dated.SamplingStore) (fuel : nat)
    (startTime endTime : GoTime.Time) :
  samplingstore_dated.getReadIndices fuel s startTime endTime =
  samplingstore.getReadIndices fuel (samplingstore.ofDated s) startTime endTime.
Proof. apply dated_readLoop. Qed.

Lemma dated_latestLoop (s : samplingstore_dated.SamplingStore) (fuel : nat) :
  forall earliestIndex now,
    samplingstore_dated.latestLoop fuel s earliestIndex now =
    samplingstore.latestLoop fuel (samplingstore.ofDated s) earliestIndex now.
Proof.
  induction fuel as [|fuel IH]; intros; [reflexivity|].
  simpl. now rewrite IH.
Qed.

Lemma dated_getLatestIndices (s : samplingstore_dated.SamplingStore) (fuel : nat)
    (now : GoTime.Time) :
  samplingstore_dated.getLatestIndices fuel s now =
  samplingstore.getLatestIndices fuel (samplingstore.ofDated s) now.
Proof. apply dated_latestLoop. Qed.

(** *** The dependency store *)

Section Dependencies.
Import depstore.
Variable s : DependencyStore.
Variable ts : GoTime.Time.
Variable dependencies : list DependencyLink.

Local Abbreviation dependencyWrite := (depstore.dependencyWrite s ts dependencies).

(** On aliases: the write, and nothing before it. *)
Lemma WriteDependencies_alias {St : Type} (cl : Client St) (st : St) :
  useReadWriteAliases s = true ->
  run cl (WriteDependencies s ts dependencies) st
  = (None, onAdd cl dependencyWrite st, [EvAdd dependencyWrite]).
Proof.
  intros H. unfold WriteDependencies, createIndex, depstore.dependencyWrite. rewrite H.
  reflexivity.
Qed.

(** On dated indices: the existence check, the creation when the index
    is answered absent, and the write when neither failed. *)
Lemma WriteDependencies_dated {St : Type} (cl : Client St) (st : St) :
  useReadWriteAliases s = false ->
  let index := getWriteIndex s ts in
  let '(ans, st1) := onIndexExists cl index st in
  run cl (WriteDependencies s ts dependencies) st =
    match snd ans with
    | Some err => (Some err, st1, [EvIndexExists index ans])
    | None =>
        if fst ans
        then (None, onAdd cl dependencyWrite st1,
               [EvIndexExists index ans; EvAdd dependencyWrite])
        else
          let '(cerr, st2) := onCreateIndex cl index st1 in
          match cerr with
          | Some err =>
              (Some err, st2, [EvIndexExists index ans; EvCreateIndex index cerr])
          | None =>
              (None, onAdd cl dependencyWrite st2,
                [EvIndexExists index ans; EvCreateIndex index cerr;
                 EvAdd dependencyWrite])
          end
    end.
Proof.
  intros H. cbn zeta. unfold WriteDependencies, createIndex, depstore.dependencyWrite.
  rewrite H. simpl.
  destruct (onIndexExists cl (getWriteIndex s ts) st) as [[b [e|]] st1]; simpl;
    [reflexivity|].
  destruct b; simpl; [reflexivity|].
  destruct (onCreateIndex cl (getWriteIndex s ts) st1) as [[e|] st2]; reflexivity.
Qed.

End Dependencies.

(** *** The service/operation writer *)

Lemma Write_data_stream {St : Type} (cl : Client St) (st : St)
    (cache : gset string) (indexName : string) (service : Service) :
  forall w,
    In w (writes (events (run cl (spanstore.Write true cache indexName service) st))) ->
    isIndex w = indexName /\ isId w = None /\ isOpType w = "create".
Proof.
  intros w. unfold spanstore.Write.
  destruct (bool_decide _); simpl; [intros []|].
  intros [<- | []]. repeat split.
Qed.

End Runs.
End WriteFacts.

(* ===================================================================== *)
(** * The claims *)
(* ===================================================================== *)

(** ** Index Naming Resolver *)

(** C7.  For every data-stream name [GetDataStreamLegacyWildcard] replaces
    the first dot by a dash and appends ["-*"]; a name without a dot is
    returned with ["-*"] appended, and nothing fails.  In particular
    ["jaeger.span"] gives ["jaeger-span-*"] and ["jaeger.service"] gives
    ["jaeger-service-*"]. *)
Theorem GetDataStreamLegacyWildcard_first_dot :
  (forall name : string,
     (Strings.ContainsByte name "." = false /\
      config.GetDataStreamLegacyWildcard name = name +:+ "-*") \/
     (exists pre post : string,
        name = pre +:+ "." +:+ post /\
        Strings.ContainsByte pre "." = false /\
        config.GetDataStreamLegacyWildcard name = pre +:+ "-" +:+ post +:+ "-*")) /\
  config.GetDataStreamLegacyWildcard "jaeger.span" = "jaeger-span-*" /\
  config.GetDataStreamLegacyWildcard "jaeger.service" = "jaeger-service-*".
Proof.
  split; [|split; reflexivity].
  intros name. unfold config.GetDataStreamLegacyWildcard.
  destruct (Strings.ContainsByte name ".") eqn:Hdot.
  - right. destruct (ReplaceFacts.split_first_dot name Hdot) as (pre & post & -> & Hpre).
    exists pre, post. repeat split; [assumption|].
    rewrite ReplaceFacts.Replace_first_dot by assumption.
    now rewrite !StringFacts.append_assoc.
  - left. split; [reflexivity|]. now rewrite ReplaceFacts.Replace_no_dot.
Qed.




(** ** Write Target Router *)

Import Examples.

(** C10.  [InsertThroughput] and [InsertProbabilitiesAndQPS] return a nil
    error for every input, every client and every state of it: the requests
    go to the bulk processor through [Add], which answers nothing, so that no
    failed or refused write can reach the caller.  This holds for the store
    on dated indices only and for the store with the data-stream switch. *)
Theorem insert_operations_return_nil `{Ext : Externals} {St : Type}
    (cl : es.Client St) (st : St) (ts : GoTime.Time) :
  (forall (s : samplingstore.SamplingStore) (throughput : list Throughput),
     es.result (es.run cl (samplingstore.InsertThroughput s ts throughput) st) = None) /\
  (forall (s : samplingstore.SamplingStore) (hostname : string)
          (probabilities : ServiceOperationProbabilities) (qps : ServiceOperationQPS),
     es.result (es.run cl (samplingstore.InsertProbabilitiesAndQPS s ts hostname
                             probabilities qps) st) = None) /\
  (forall (s : samplingstore_dated.SamplingStore) (throughput : list Throughput),
     es.result (es.run cl (samplingstore_dated.InsertThroughput s ts throughput) st)
     = None) /\
  (forall (s : samplingstore_dated.SamplingStore) (hostname : string)
          (probabilities : ServiceOperationProbabilities) (qps : ServiceOperationQPS),
     es.result (es.run cl (samplingstore_dated.InsertProbabilitiesAndQPS s ts hostname
                             probabilities qps) st) = None).
Proof.
  split; [|split; [|split]]; intros.
  - apply WriteFacts.InsertThroughput_run.
  - apply WriteFacts.InsertProbabilitiesAndQPS_run.
  - apply WriteFacts.dated_InsertThroughput_result.
  - apply WriteFacts.dated_InsertProbabilitiesAndQPS_result.
Qed.

(** C6.  Every write issued in data-stream mode carries no document
    identifier and has the operation type [create]: the throughput and the
    probabilities of the sampling store, and the service/operation record of
    the service writer. *)
Theorem data_stream_writes_create_without_id `{Ext : Externals} {St : Type}
    (cl : es.Client St) (st : St) (s : samplingstore.SamplingStore)
    (ts : GoTime.Time) :
  samplingstore.useDataStream s = true ->
  (forall (throughput : list Throughput) (w : es.IndexService),
     In w (es.writes (es.events
            (es.run cl (samplingstore.InsertThroughput s ts throughput) st))) ->
     es.isId w = None /\ es.isOpType w = "create") /\
  (forall (hostname : string) (probabilities : ServiceOperationProbabilities)
          (qps : ServiceOperationQPS) (w : es.IndexService),
     In w (es.writes (es.events
            (es.run cl (samplingstore.InsertProbabilitiesAndQPS s ts hostname
                          probabilities qps) st))) ->
     es.isId w = None /\ es.isOpType w = "create") /\
  (forall (cache : gset string) (indexName : string) (service : Service)
          (w : es.IndexService),
     In w (es.writes (es.events
            (es.run cl (spanstore.Write true cache indexName service) st))) ->
     es.isId w = None /\ es.isOpType w = "create").
Proof.
  intros Hds. split; [|split].
  - intros throughput w H. apply WriteFacts.In_writes in H.
    apply (proj2 (WriteFacts.InsertThroughput_run s cl st ts throughput)) in H.
    simpl in H. destruct H as (_ & _ & Hid & [H | [H _]]); [now split | congruence].
  - intros hostname probabilities qps w H. apply WriteFacts.In_writes in H.
    apply (proj2 (WriteFacts.InsertProbabilitiesAndQPS_run s cl st ts hostname
                    probabilities qps)) in H.
    simpl in H. destruct H as (_ & _ & Hid & [H | [H _]]); [now split | congruence].
  - intros cache indexName service w H.
    apply WriteFacts.Write_data_stream in H. tauto.
Qed.

(** An instance of C6: two throughputs inserted by the store of the data
    stream, against a cluster of version 7. *)
Lemma data_stream_writes_create_without_id_witness :
  Forall (fun w => es.isId w = None /\ es.isOpType w = "create")
    (es.writes (es.events
       (es.run (es.cluster 7)
          (samplingstore.InsertThroughput Examples.streamStore
             (GoTime.Date 2025 1 1 0 0 0) ["svc-a"; "svc-b"]) ∅))).
Proof.
  apply List.Forall_forall. intros w.
  exact (proj1 (data_stream_writes_create_without_id (es.cluster 7) ∅
                  Examples.streamStore (GoTime.Date 2025 1 1 0 0 0) eq_refl)
           ["svc-a"; "svc-b"] w).
Defined.

(** ** Read Plan Builder *)

(** C1 (the code departs from the claim).  In data-stream mode the plans of
    [getReadIndices] and of [getLatestIndices] are the name of the data
    stream followed by its legacy wildcard, and the migration gate is not
    read: the plan is that of the specification with the gate enabled, and
    is not that of the specification with the gate disabled. *)
Theorem data_stream_read_plan_ignores_gate `{Ext : Externals}
    (s : samplingstore.SamplingStore) (fuel : nat) (startTime endTime now : GoTime.Time) :
  samplingstore.useDataStream s = true ->
  samplingstore.getReadIndices fuel s startTime endTime
  = Some (Spec.BuildReadPlan_DataStream (samplingstore.samplingIndexPrefix s) true) /\
  samplingstore.getLatestIndices fuel s now
  = es.Ret (Some (Spec.BuildReadPlan_DataStream (samplingstore.samplingIndexPrefix s) true,
                  None)) /\
  samplingstore.getReadIndices fuel s startTime endTime
  <> Some (Spec.BuildReadPlan_DataStream (samplingstore.samplingIndexPrefix s) false).
Proof.
  intros Hds. unfold samplingstore.getReadIndices, samplingstore.getLatestIndices.
  rewrite Hds. split; [reflexivity|]. split; [reflexivity|]. simpl. discriminate.
Qed.

(** C1 at the store of the data stream ["jaeger.sampling"], the gate
    disabled: the legacy wildcard is in the plan. *)
Lemma data_stream_read_plan_ignores_gate_witness :
  samplingstore.getReadIndices 0 Examples.streamStore
    (GoTime.Date 2025 1 1 0 0 0) (GoTime.Date 2025 1 3 12 0 0)
  = Some ["jaeger.sampling"; "jaeger-sampling-*"] /\
  Spec.BuildReadPlan_DataStream "jaeger.sampling" false = ["jaeger.sampling"].
Proof.
  split; [|reflexivity].
  exact (proj1 (data_stream_read_plan_ignores_gate Examples.streamStore 0%nat
                  (GoTime.Date 2025 1 1 0 0 0) (GoTime.Date 2025 1 3 12 0 0)
                  (GoTime.Date 2025 1 3 12 0 0) eq_refl)).
Defined.
(** C2, as stated, fails: with the daily layout and a frequency of minus
    twelve hours the walk from 2025-01-02T12:00Z back to 2025-01-01T00:00Z
    emits the name of 2 January twice. *)
Lemma getReadIndices_half_day_duplicates :
  samplingstore.indexRolloverFrequency Examples.halfDayStore < 0 /\
  GoTime.unixNano (GoTime.Date 2025 1 1 0 0 0)
    <= GoTime.unixNano (GoTime.Date 2025 1 2 12 0 0) /\
  samplingstore.getReadIndices 3 Examples.halfDayStore
    (GoTime.Date 2025 1 1 0 0 0) (GoTime.Date 2025 1 2 12 0 0)
  = Some ["jaeger-sampling-2025-01-02"; "jaeger-sampling-2025-01-02";
          "jaeger-sampling-2025-01-01"] /\
  ~ List.NoDup ["jaeger-sampling-2025-01-02"; "jaeger-sampling-2025-01-02";
                "jaeger-sampling-2025-01-01"].
Proof.
  split; [reflexivity|]. split; [apply Z.leb_le; vm_compute; reflexivity|].
  split; [vm_compute; reflexivity|].
  intros H. inversion H as [|x l Hnotin _]. apply Hnotin. now left.
Qed.

(** C2 (amended).  On dated indices, when the start and the end have one
    name (as when they are one instant) the plan is that name alone, whatever
    the frequency.  When the frequency is minus the period of the layout, for
    every start not after the end the plan is the walk back from the name of
    the end, one name a period, down to the name of the start: it has no
    duplicates, and its names are exactly the names of the instants from the
    start to the end.  The store on dated indices only computes the same plan
    ([WriteFacts.dated_getReadIndices]). *)
Theorem getReadIndices_dated_plan `{Ext : Externals}
    (s : samplingstore.SamplingStore) (startTime endTime : GoTime.Time) :
  samplingstore.useDataStream s = false ->
  (Plan.name s endTime = Plan.name s startTime ->
   forall fuel : nat,
     samplingstore.getReadIndices (S fuel) s startTime endTime
     = Some [Plan.name s startTime]) /\
  (GoTime.unixNano startTime = GoTime.unixNano endTime ->
   forall fuel : nat,
     samplingstore.getReadIndices (S fuel) s startTime endTime
     = Some [config.IndexWithDate (samplingstore.samplingIndexPrefix s)
               (samplingstore.indexDateLayout s) startTime]) /\
  (forall P lo hi : Z,
     Periods.periodicOn (samplingstore.indexDateLayout s) P lo hi ->
     samplingstore.indexRolloverFrequency s = - P ->
     lo + P <= GoTime.unixNano startTime ->
     GoTime.unixNano startTime <= GoTime.unixNano endTime ->
     GoTime.unixNano endTime <= hi ->
     let plan := Plan.walk s P endTime (Plan.span P startTime endTime) in
     (forall fuel : nat,
        (Plan.span P startTime endTime < fuel)%nat ->
        samplingstore.getReadIndices fuel s startTime endTime = Some plan) /\
     List.NoDup plan /\
     length plan = S (Plan.span P startTime endTime) /\
     hd_error plan = Some (Plan.name s endTime) /\
     List.last plan "" = Plan.name s startTime /\
     (forall x : string,
        In x plan <->
        exists t : GoTime.Time,
          GoTime.unixNano startTime <= GoTime.unixNano t <= GoTime.unixNano endTime /\
          x = Plan.name s t)).
Proof.
  intros Hds. split; [|split].
  - intros H fuel. now apply ReadPlanFacts.getReadIndices_same_name.
  - intros H fuel. apply ReadPlanFacts.getReadIndices_same_name; [assumption|].
    now apply ReadPlanFacts.name_instant.
  - intros P lo hi Hper Hfreq Hlo Hord Hhi plan. subst plan.
    split; [|split; [|split; [|split; [|split]]]].
    + intros fuel Hfuel. now apply (ReadPlanFacts.getReadIndices_walk s P lo hi).
    + now apply (ReadPlanFacts.walk_NoDup s P lo hi).
    + unfold Plan.walk. now rewrite length_map, length_seq.
    + unfold Plan.walk. simpl. f_equal. apply ReadPlanFacts.name_instant. simpl. lia.
    + now apply (ReadPlanFacts.walk_last s P lo hi).
    + intros x. now apply (ReadPlanFacts.walk_covers s P lo hi).
Qed.

(** An instance of C2: the scenario of the specification, a daily rollover
    from 2025-01-01T00:00Z to 2025-01-03T12:00Z. *)
Lemma getReadIndices_dated_plan_witness :
  samplingstore.getReadIndices 3 Examples.dailyStore
    (GoTime.Date 2025 1 1 0 0 0) (GoTime.Date 2025 1 3 12 0 0)
  = Some ["jaeger-sampling-2025-01-03"; "jaeger-sampling-2025-01-02";
          "jaeger-sampling-2025-01-01"].
Proof.
  refine (eq_trans
    (proj1 (proj2 (proj2 (getReadIndices_dated_plan (Ext := Examples.sampleExternals)
                            Examples.dailyStore
                            (GoTime.Date 2025 1 1 0 0 0) (GoTime.Date 2025 1 3 12 0 0)
                            eq_refl))
              GoTime.Day Periods.firstInstant Periods.lastInstant
              PeriodFacts.daily_periodicOn eq_refl _ _ _) 3%nat _) _).
  - apply Z.leb_le. vm_compute. reflexivity.
  - apply Z.leb_le. vm_compute. reflexivity.
  - apply Z.leb_le. vm_compute. reflexivity.
  - vm_compute. lia.
  - vm_compute. reflexivity.
Defined.

(** C3, as stated, fails: a frequency of zero is accepted by
    [NewSamplingStore], and the read plan from 2025-01-01 to 2025-01-02 is
    then never reached, whatever the number of iterations allowed. *)
Lemma getReadIndices_zero_frequency_diverges :
  samplingstore.indexRolloverFrequency
    (samplingstore.NewSamplingStore (Examples.samplingParams 0 (7 * GoTime.Day) false)) = 0 /\
  ~ (exists (fuel : nat) (plan : list string),
       samplingstore.getReadIndices fuel
         (samplingstore.NewSamplingStore (Examples.samplingParams 0 (7 * GoTime.Day) false))
         (GoTime.Date 2025 1 1 0 0 0) (GoTime.Date 2025 1 2 0 0 0) = Some plan).
Proof.
  split; [reflexivity|]. intros (fuel & plan & H).
  assert (Hnone : samplingstore.getReadIndices fuel
            (samplingstore.NewSamplingStore (Examples.samplingParams 0 (7 * GoTime.Day) false))
            (GoTime.Date 2025 1 1 0 0 0) (GoTime.Date 2025 1 2 0 0 0) = None).
  { unfold samplingstore.getReadIndices.
    change (samplingstore.useDataStream
              (samplingstore.NewSamplingStore
                 (Examples.samplingParams 0 (7 * GoTime.Day) false))) with false.
    cbv iota.
    apply (ReadPlanFacts.readLoop_zero_frequency
             (samplingstore.NewSamplingStore
                (Examples.samplingParams 0 (7 * GoTime.Day) false)) fuel eq_refl).
    intros E. vm_compute in E. discriminate E. }
  congruence.
Qed.

(** C3 (amended).  No frequency is refused when the store is built, and the
    loop has no cap.  The read plan on dated indices is reached when the
    start and the end have one name, and when the frequency is minus the
    period of the layout and the start is not after the end; with a
    frequency of zero and different names for the start and the end it is
    never reached.  The store on dated indices only has the same loop
    ([WriteFacts.dated_getReadIndices]). *)
Theorem getReadIndices_termination `{Ext : Externals}
    (s : samplingstore.SamplingStore) (startTime endTime : GoTime.Time) :
  samplingstore.useDataStream s = false ->
  (forall p : samplingstore.Params,
     samplingstore.indexRolloverFrequency (samplingstore.NewSamplingStore p)
     = samplingstore.IndexRolloverFrequency p) /\
  (Plan.name s endTime = Plan.name s startTime ->
   forall fuel : nat,
     samplingstore.getReadIndices (S fuel) s startTime endTime <> None) /\
  (forall P lo hi : Z,
     Periods.periodicOn (samplingstore.indexDateLayout s) P lo hi ->
     samplingstore.indexRolloverFrequency s = - P ->
     lo + P <= GoTime.unixNano startTime ->
     GoTime.unixNano startTime <= GoTime.unixNano endTime ->
     GoTime.unixNano endTime <= hi ->
     forall fuel : nat,
       (Plan.span P startTime endTime < fuel)%nat ->
       samplingstore.getReadIndices fuel s startTime endTime <> None) /\
  (samplingstore.indexRolloverFrequency s = 0 ->
   Plan.name s endTime <> Plan.name s startTime ->
   forall fuel : nat,
     samplingstore.getReadIndices fuel s startTime endTime = None).
Proof.
  intros Hds. split; [reflexivity|]. split; [|split].
  - intros H fuel. now rewrite ReadPlanFacts.getReadIndices_same_name.
  - intros P lo hi Hper Hfreq Hlo Hord Hhi fuel Hfuel.
    now rewrite (ReadPlanFacts.getReadIndices_walk s P lo hi).
  - intros Hzero Hne fuel. unfold samplingstore.getReadIndices. rewrite Hds.
    now apply ReadPlanFacts.readLoop_zero_frequency.
Qed.

(** An instance of C3: the store with a frequency of zero, a thousand
    iterations allowed. *)
Lemma getReadIndices_termination_witness :
  samplingstore.getReadIndices 1000 Examples.stuckStore
    (GoTime.Date 2025 1 1 0 0 0) (GoTime.Date 2025 1 2 0 0 0) = None.
Proof.
  apply (proj2 (proj2 (proj2 (getReadIndices_termination (Ext := Examples.sampleExternals)
                                Examples.stuckStore
                                (GoTime.Date 2025 1 1 0 0 0) (GoTime.Date 2025 1 2 0 0 0)
                                eq_refl)))).
  - reflexivity.
  - intros E. vm_compute in E. discriminate E.
Defined.
(** ** Latest-Index Locator *)

(** C5, as stated, fails: with daily indices, a lookback of a day and a
    half and no index in the cluster, the scan started at 2025-01-10T06:00Z
    makes three existence checks, one more than [lookback / frequency + 1],
    and the last name it asks for is formatted from 2025-01-08T06:00Z, an
    instant before [now - lookback]. *)
Lemma getLatestIndices_short_lookback_checks :
  es.result (es.run (es.cluster 7)
               (samplingstore.getLatestIndices 10 Examples.shortLookbackStore
                  (GoTime.Date 2025 1 10 6 0 0)) ∅)
  = Some ([], Some Scan.errNotFound) /\
  Scan.checked (es.events (es.run (es.cluster 7)
                  (samplingstore.getLatestIndices 10 Examples.shortLookbackStore
                     (GoTime.Date 2025 1 10 6 0 0)) ∅))
  = ["jaeger-sampling-2025-01-10"; "jaeger-sampling-2025-01-09";
     "jaeger-sampling-2025-01-08"] /\
  samplingstore.lookback Examples.shortLookbackStore
    / Z.abs (samplingstore.indexRolloverFrequency Examples.shortLookbackStore) + 1 = 2 /\
  GoTime.unixNano (GoTime.Date 2025 1 8 6 0 0)
  < GoTime.unixNano (GoTime.Date 2025 1 10 6 0 0)
    - samplingstore.lookback Examples.shortLookbackStore.
Proof.
  split; [vm_compute; reflexivity|]. split; [vm_compute; reflexivity|].
  split; vm_compute; reflexivity.
Qed.

(** C5 (amended).  On dated indices, with the frequency minus the period of
    the layout and a lookback that is not negative, the scan ends, whatever
    the client answers.  It asks for the names of the walk back from now to
    [now - lookback], in that order and as far as needed: it returns the
    first name answered to exist, alone; it returns the error of a check
    that failed; it fails with the not-found error when the last name has
    been answered not to exist.  It makes at most one check for each period
    the lookback touches, that is at most [ceil (lookback / period) + 1], and
    at most [lookback / period + 1] when the period divides the lookback;
    every name it asks for is the name of an instant from [now - lookback]
    to now.  The store on dated indices only has the same scan
    ([WriteFacts.dated_getLatestIndices]). *)
Theorem getLatestIndices_bounded_scan `{Ext : Externals} {St : Type}
    (cl : es.Client St) (st : St) (s : samplingstore.SamplingStore)
    (now : GoTime.Time) (P lo hi : Z) (fuel : nat) :
  samplingstore.useDataStream s = false ->
  Periods.periodicOn (samplingstore.indexDateLayout s) P lo hi ->
  samplingstore.indexRolloverFrequency s = - P ->
  0 <= samplingstore.lookback s <= GoTime.maxInt64 ->
  lo + P <= GoTime.unixNano now - samplingstore.lookback s ->
  GoTime.unixNano now <= hi ->
  let earliest := GoTime.Add (GoTime.UTC now) (- samplingstore.lookback s) in
  let periods := Plan.span P earliest (GoTime.UTC now) in
  (periods < fuel)%nat ->
  exists (r : list string * option es.error) (st' : St) (evs : list es.Event),
    es.run cl (samplingstore.getLatestIndices fuel s now) st = (Some r, st', evs) /\
    Scan.Scanned (Plan.walk s P (GoTime.UTC now) periods) evs r /\
    (length evs <= S periods)%nat /\
    Z.of_nat periods <= (samplingstore.lookback s + P - 1) / P /\
    (samplingstore.lookback s mod P = 0 ->
     Z.of_nat (length evs) <= samplingstore.lookback s / P + 1) /\
    length (Scan.checked evs) = length evs /\
    (forall x : string,
       In x (Scan.checked evs) ->
       exists t : GoTime.Time,
         GoTime.unixNano now - samplingstore.lookback s <= GoTime.unixNano t
           <= GoTime.unixNano now /\
         x = Plan.name s t).
Proof.
  intros Hds Hper Hfreq Hlook Hlo Hhi earliest periods Hfuel.
  destruct (LatestFacts.getLatestIndices_scan s P lo hi Hper Hfreq now Hds Hlook Hlo Hhi
              cl st fuel Hfuel) as (r & st' & evs & Hrun & Hscan).
  exists r, st', evs. split; [exact Hrun|]. split; [exact Hscan|].
  pose proof (LatestFacts.Scanned_length _ _ _ Hscan) as Hlen.
  unfold Plan.walk in Hlen. rewrite length_map, length_seq in Hlen.
  destruct (LatestFacts.span_bound s P lo hi Hper now Hlook) as [Hceil Hdiv].
  destruct (LatestFacts.Scanned_checked _ _ _ Hscan) as [Hchk Hin].
  split; [subst periods earliest; lia|]. split; [exact Hceil|].
  split; [intros Hmod; specialize (Hdiv Hmod); subst periods earliest; lia|].
  split; [exact Hchk|].
  intros x Hx. apply Hin in Hx.
  apply (ReadPlanFacts.walk_covers s P lo hi Hper earliest (GoTime.UTC now)) in Hx;
    simpl; try lia.
  destruct Hx as (t & Ht & ->). exists t. simpl in Ht. split; [lia | reflexivity].
Qed.

(** An instance of C5: daily indices, seven days of lookback, a cluster
    without indices: eight checks at most. *)
Lemma getLatestIndices_bounded_scan_witness :
  exists (r : list string * option es.error) (evs : list es.Event),
    es.result (es.run (es.cluster 7)
                 (samplingstore.getLatestIndices 8 Examples.dailyStore
                    (GoTime.Date 2025 1 10 6 0 0)) ∅) = Some r /\
    es.events (es.run (es.cluster 7)
                 (samplingstore.getLatestIndices 8 Examples.dailyStore
                    (GoTime.Date 2025 1 10 6 0 0)) ∅) = evs /\
    Z.of_nat (length evs) <= 7 + 1.
Proof.
  assert (Hlo : Periods.firstInstant + GoTime.Day
                <= GoTime.unixNano (GoTime.Date 2025 1 10 6 0 0)
                   - samplingstore.lookback Examples.dailyStore)
    by (apply Z.leb_le; vm_compute; reflexivity).
  assert (Hhi : GoTime.unixNano (GoTime.Date 2025 1 10 6 0 0) <= Periods.lastInstant)
    by (apply Z.leb_le; vm_compute; reflexivity).
  assert (Hlook : 0 <= samplingstore.lookback Examples.dailyStore <= GoTime.maxInt64)
    by (split; apply Z.leb_le; vm_compute; reflexivity).
  assert (Hfuel : (Plan.span GoTime.Day
                     (GoTime.Add (GoTime.UTC (GoTime.Date 2025 1 10 6 0 0))
                        (- samplingstore.lookback Examples.dailyStore))
                     (GoTime.UTC (GoTime.Date 2025 1 10 6 0 0)) < 8)%nat)
    by (vm_compute; lia).
  destruct (getLatestIndices_bounded_scan (Ext := Examples.sampleExternals)
              (es.cluster 7) ∅ Examples.dailyStore (GoTime.Date 2025 1 10 6 0 0)
              GoTime.Day Periods.firstInstant Periods.lastInstant 8
              eq_refl PeriodFacts.daily_periodicOn eq_refl Hlook Hlo Hhi Hfuel)
    as (r & st' & evs & Hrun & _ & _ & _ & Hdiv & _).
  exists r, evs. rewrite Hrun. split; [reflexivity|]. split; [reflexivity|].
  apply Hdiv. vm_compute. reflexivity.
Defined.
(** ** Creation of the dated index before a write *)

(** C4, as stated, fails: two writers of the dependencies of 2025-01-01
    against an empty cluster, both checking for the index before either
    creates it.  The first creates the index and writes; the creation of the
    second is refused because the index exists, and that error is what its
    [WriteDependencies] returns. *)
Lemma WriteDependencies_creation_race :
  fst (es.interleave (es.cluster 7) [true; false]
         (depstore.WriteDependencies Examples.datedDependencyStore
            (GoTime.Date 2025 1 1 0 0 0) ["a->b"])
         (depstore.WriteDependencies Examples.datedDependencyStore
            (GoTime.Date 2025 1 1 0 0 0) ["a->b"]) ∅)
  = (None, Some es.ErrIndexAlreadyExists).
Proof. vm_compute. reflexivity. Qed.

(** C4 (amended).  When the dependency store, on dated indices, finds the
    index of a write absent and its creation fails, the error of the creation
    is returned to the caller as it is, whatever it is, the refusal of an
    index that exists included, and the write is not issued. *)
Theorem createIndex_error_is_returned `{Ext : Externals} {St : Type}
    (cl : es.Client St) (st st1 st2 : St) (s : depstore.DependencyStore)
    (ts : GoTime.Time) (dependencies : list DependencyLink) (err : es.error) :
  depstore.useReadWriteAliases s = false ->
  es.onIndexExists cl (depstore.getWriteIndex s ts) st = ((false, None), st1) ->
  es.onCreateIndex cl (depstore.getWriteIndex s ts) st1 = (Some err, st2) ->
  es.run cl (depstore.WriteDependencies s ts dependencies) st
  = (Some err, st2,
     [es.EvIndexExists (depstore.getWriteIndex s ts) (false, None);
      es.EvCreateIndex (depstore.getWriteIndex s ts) (Some err)]).
Proof.
  intros Halias Hex Hcr.
  pose proof (WriteFacts.WriteDependencies_dated s ts dependencies cl st Halias) as H.
  cbn zeta in H. rewrite Hex in H. simpl in H. rewrite Hcr in H. exact H.
Qed.

(** An instance of C4: the index is created by another writer right after
    the existence check. *)
Lemma createIndex_error_is_returned_witness :
  es.result (es.run (es.contendedCluster 7)
               (depstore.WriteDependencies Examples.datedDependencyStore
                  (GoTime.Date 2025 1 1 0 0 0) ["a->b"]) ∅)
  = Some es.ErrIndexAlreadyExists.
Proof.
  rewrite (createIndex_error_is_returned (Ext := Examples.sampleExternals)
             (es.contendedCluster 7) ∅
             {["jaeger-dependencies-2025-01-01"]} {["jaeger-dependencies-2025-01-01"]}
             Examples.datedDependencyStore (GoTime.Date 2025 1 1 0 0 0) ["a->b"]
             es.ErrIndexAlreadyExists eq_refl).
  - reflexivity.
  - vm_compute. reflexivity.
  - vm_compute. reflexivity.
Defined.

(** C8, as stated, fails: on dated indices the sampling store writes without
    any existence check. *)
Lemma InsertThroughput_dated_no_existence_check :
  samplingstore.useDataStream Examples.dailyStore = false /\
  es.writes (es.events (es.run (es.cluster 7)
               (samplingstore.InsertThroughput Examples.dailyStore
                  (GoTime.Date 2025 1 1 0 0 0) ["svc-a"]) ∅)) <> [] /\
  existsb es.isExistsEvent
    (es.events (es.run (es.cluster 7)
       (samplingstore.InsertThroughput Examples.dailyStore
          (GoTime.Date 2025 1 1 0 0 0) ["svc-a"]) ∅)) = false.
Proof.
  split; [reflexivity|]. split; [|vm_compute; reflexivity].
  intros E. vm_compute in E. discriminate E.
Qed.

(** C8 (amended).  The mode decides the target of a write.  On dated indices
    the target is [IndexWithDate] of the prefixed base name followed by the
    separator, the layout and the instant of the write; the dependency store
    checks that this index exists, and creates it when it is answered absent,
    before the write, and the sampling store writes without any check.  On
    aliases the dependency store writes to the prefixed base name followed by
    ["-write"], with neither check nor creation.  On a data stream the
    sampling store writes to the prefixed name of the stream, whatever the
    instant, with neither check nor creation. *)
Theorem write_target_by_mode `{Ext : Externals} {St : Type}
    (cl : es.Client St) (st : St) (ts : GoTime.Time) :
  (* the dependency store on dated indices *)
  (forall (p : depstore.Params) (dependencies : list DependencyLink),
     depstore.UseReadWriteAliases p = false ->
     let s := depstore.NewDependencyStore p in
     let index :=
       config.IndexWithDate
         (Apply (depstore.IndexPrefix_ p) depstore.dependencyIndexBaseName +:+ "-")
         (depstore.IndexDateLayout p) ts in
     let w := depstore.dependencyWrite s ts dependencies in
     let r := es.run cl (depstore.WriteDependencies s ts dependencies) st in
     depstore.getWriteIndex s ts = index /\
     es.isIndex w = index /\
     ((exists (b : bool) (err : es.error),
         es.events r = [es.EvIndexExists index (b, Some err)] /\
         es.result r = Some err) \/
      (es.events r = [es.EvIndexExists index (true, None); es.EvAdd w] /\
       es.result r = None) \/
      (exists err : es.error,
         es.events r = [es.EvIndexExists index (false, None);
                        es.EvCreateIndex index (Some err)] /\
         es.result r = Some err) \/
      (es.events r = [es.EvIndexExists index (false, None);
                      es.EvCreateIndex index None; es.EvAdd w] /\
       es.result r = None))) /\
  (* the dependency store on aliases *)
  (forall (p : depstore.Params) (dependencies : list DependencyLink),
     depstore.UseReadWriteAliases p = true ->
     let s := depstore.NewDependencyStore p in
     let w := depstore.dependencyWrite s ts dependencies in
     let r := es.run cl (depstore.WriteDependencies s ts dependencies) st in
     depstore.getWriteIndex s ts
     = Apply (depstore.IndexPrefix_ p) depstore.dependencyIndexBaseName +:+ "-write" /\
     es.isIndex w = depstore.getWriteIndex s ts /\
     es.events r = [es.EvAdd w] /\ es.result r = None) /\
  (* the sampling store on a data stream *)
  (forall (p : samplingstore.Params) (throughput : list Throughput)
          (hostname : string) (probabilities : ServiceOperationProbabilities)
          (qps : ServiceOperationQPS) (ev : es.Event),
     samplingstore.UseDataStream p = true ->
     let s := samplingstore.NewSamplingStore p in
     samplingstore.getWriteIndex s ts
     = Apply (samplingstore.IndexPrefix_ p) "jaeger.sampling" /\
     (In ev (es.events (es.run cl (samplingstore.InsertThroughput s ts throughput) st)) \/
      In ev (es.events (es.run cl (samplingstore.InsertProbabilitiesAndQPS s ts hostname
                                     probabilities qps) st)) ->
      exists w : es.IndexService,
        ev = es.EvAdd w /\
        es.isIndex w = Apply (samplingstore.IndexPrefix_ p) "jaeger.sampling")) /\
  (* the sampling store on dated indices *)
  (forall (p : samplingstore.Params) (throughput : list Throughput)
          (hostname : string) (probabilities : ServiceOperationProbabilities)
          (qps : ServiceOperationQPS) (ev : es.Event),
     samplingstore.UseDataStream p = false ->
     let s := samplingstore.NewSamplingStore p in
     let index :=
       config.IndexWithDate
         (Apply (samplingstore.IndexPrefix_ p) samplingstore.samplingIndexBaseName +:+ "-")
         (samplingstore.IndexDateLayout p) ts in
     samplingstore.getWriteIndex s ts = index /\
     (In ev (es.events (es.run cl (samplingstore.InsertThroughput s ts throughput) st)) \/
      In ev (es.events (es.run cl (samplingstore.InsertProbabilitiesAndQPS s ts hostname
                                     probabilities qps) st)) ->
      es.isExistsEvent ev = false /\ es.isCreateEvent ev = false /\
      forall w : es.IndexService, ev = es.EvAdd w -> es.isIndex w = index)).
Proof.
  split; [|split; [|split]].
  - intros p dependencies Halias s index w r.
    assert (Hidx : depstore.getWriteIndex s ts = index).
    { unfold depstore.getWriteIndex. subst s. simpl. now rewrite Halias. }
    split; [exact Hidx|]. split; [exact Hidx|].
    pose proof (WriteFacts.WriteDependencies_dated s ts dependencies cl st Halias) as H.
    cbn zeta in H. rewrite Hidx in H. subst r.
    destruct (es.onIndexExists cl index st) as [[b [e|]] st1]; simpl in H.
    + left. exists b, e. now rewrite H.
    + destruct b; simpl in H.
      * right. left. now rewrite H.
      * destruct (es.onCreateIndex cl index st1) as [[e|] st2]; rewrite H.
        -- right. right. left. exists e. now split.
        -- right. right. right. now split.
  - intros p dependencies Halias s w r.
    assert (Hidx : depstore.getWriteIndex s ts
                   = Apply (depstore.IndexPrefix_ p) depstore.dependencyIndexBaseName
                     +:+ "-write").
    { unfold depstore.getWriteIndex. subst s. simpl. rewrite Halias.
      now rewrite StringFacts.append_assoc. }
    split; [exact Hidx|]. split; [reflexivity|].
    subst r. now rewrite (WriteFacts.WriteDependencies_alias s ts dependencies cl st Halias).
  - intros p throughput hostname probabilities qps ev Hds s.
    assert (Hidx : samplingstore.getWriteIndex s ts
                   = Apply (samplingstore.IndexPrefix_ p) "jaeger.sampling").
    { unfold samplingstore.getWriteIndex. subst s. simpl. now rewrite Hds. }
    split; [exact Hidx|].
    assert (Hshape : forall typ, WriteShape.samplingEvent s
                       (samplingstore.getWriteIndex s ts) typ ev ->
                     exists w : es.IndexService,
                       ev = es.EvAdd w /\
                       es.isIndex w = Apply (samplingstore.IndexPrefix_ p) "jaeger.sampling").
    { intros typ Hev. rewrite Hidx in Hev.
      destruct ev as [? ? | ? ? | v | w]; simpl in Hev; try contradiction.
      - subst s. simpl in Hev. congruence.
      - exists w. split; [reflexivity | apply Hev]. }
    intros [Hev | Hev].
    + apply (proj2 (WriteFacts.InsertThroughput_run s cl st ts throughput)) in Hev.
      eapply Hshape, Hev.
    + apply (proj2 (WriteFacts.InsertProbabilitiesAndQPS_run s cl st ts hostname
                      probabilities qps)) in Hev.
      eapply Hshape, Hev.
  - intros p throughput hostname probabilities qps ev Hds s index.
    assert (Hidx : samplingstore.getWriteIndex s ts = index).
    { unfold samplingstore.getWriteIndex. subst s. simpl. now rewrite Hds. }
    split; [exact Hidx|].
    assert (Hshape : forall typ, WriteShape.samplingEvent s
                       (samplingstore.getWriteIndex s ts) typ ev ->
                     es.isExistsEvent ev = false /\ es.isCreateEvent ev = false /\
                     forall w : es.IndexService, ev = es.EvAdd w -> es.isIndex w = index).
    { intros typ Hev. rewrite Hidx in Hev.
      destruct ev as [? ? | ? ? | v | w]; simpl in Hev; try contradiction.
      - repeat split. intros w' E. discriminate E.
      - repeat split. intros w' E. injection E as <-. apply Hev. }
    intros [Hev | Hev].
    + apply (proj2 (WriteFacts.InsertThroughput_run s cl st ts throughput)) in Hev.
      eapply Hshape, Hev.
    + apply (proj2 (WriteFacts.InsertProbabilitiesAndQPS_run s cl st ts hostname
                      probabilities qps)) in Hev.
      eapply Hshape, Hev.
Qed.

(** An instance of C8: the dependencies of 2025-01-01 written to an empty
    cluster are preceded by the check and the creation of the index. *)
Lemma write_target_by_mode_witness :
  depstore.getWriteIndex Examples.datedDependencyStore (GoTime.Date 2025 1 1 0 0 0)
  = "jaeger-dependencies-2025-01-01" /\
  map es.isExistsEvent
    (es.events (es.run (es.cluster 7)
       (depstore.WriteDependencies Examples.datedDependencyStore
          (GoTime.Date 2025 1 1 0 0 0) ["a->b"]) ∅))
  = [true; false; false].
Proof.
  destruct (proj1 (write_target_by_mode (Ext := Examples.sampleExternals)
                     (es.cluster 7) ∅ (GoTime.Date 2025 1 1 0 0 0))
              (Examples.dependencyParams false) ["a->b"] eq_refl)
    as (Hidx & _ & _).
  split.
  - etransitivity; [exact Hidx|]. vm_compute. reflexivity.
  - vm_compute. reflexivity.
Defined.
(* ===================================================================== *)
(** * Further properties of the code *)
(* ===================================================================== *)

(** ** The hourly layout *)

Module HourlyFacts.
Import GoTime StringFacts GoTimeFacts CalendarFacts PeriodFacts Periods MoreExamples.

Lemma Format_hourly (t : Time) :
  firstDay <= dayIndex t <= lastDay ->
  Format t hourlyLayout =
    lastDigits 4 (Year t) +:+ "-" +:+ lastDigits 2 (Month t) +:+ "-" +:+
    lastDigits 2 (DayOfMonth t) +:+ "-" +:+ lastDigits 2 (HourOfDay t).
Proof.
  intros H. pose proof (civilFromDays_range _ H) as Hc.
  unfold Format. change (chunks hourlyLayout)
    with [stdLongYear; stdLiteral "-"; stdZeroMonth; stdLiteral "-"; stdZeroDay;
          stdLiteral "-"; stdHour].
  unfold appendChunks, appendChunk. unfold Year, Month, DayOfMonth.
  destruct (civilFromDays (dayIndex t)) as [[y m] d]. simpl fst; simpl snd.
  destruct Hc as (Hy & Hm & Hd & _).
  assert (Hh : 0 <= HourOfDay t < 100).
  { unfold HourOfDay. pose proof (Z.mod_pos_bound (hourIndex t) 24). lia. }
  rewrite appendInt_4, !appendInt_2 by lia.
  rewrite append_nil_r. reflexivity.
Qed.

Lemma hourIndex_day (t : Time) : hourIndex t = 24 * dayIndex t + HourOfDay t.
Proof.
  unfold hourIndex, dayIndex, HourOfDay, hourIndex.
  replace 86400 with (3600 * 24) by reflexivity.
  rewrite <- Z.div_div by lia.
  pose proof (Z.div_mod (wallSec t / 3600) 24). lia.
Qed.

Lemma Format_hourly_inj (t1 t2 : Time) :
  firstDay <= dayIndex t1 <= lastDay ->
  firstDay <= dayIndex t2 <= lastDay ->
  Format t1 hourlyLayout = Format t2 hourlyLayout ->
  hourIndex t1 = hourIndex t2.
Proof.
  intros H1 H2 H. rewrite !Format_hourly in H by assumption.
  pose proof (civilFromDays_range _ H1) as Hc1.
  pose proof (civilFromDays_range _ H2) as Hc2.
  rewrite (hourIndex_day t1), (hourIndex_day t2).
  assert (Hh1 : 0 <= HourOfDay t1 < 24) by (apply Z.mod_pos_bound; lia).
  assert (Hh2 : 0 <= HourOfDay t2 < 24) by (apply Z.mod_pos_bound; lia).
  revert H. generalize (HourOfDay t1) (HourOfDay t2) Hh1 Hh2. intros h1 h2 Hh1' Hh2' H.
  unfold Year, Month, DayOfMonth in H.
  destruct (civilFromDays (dayIndex t1)) as [[y1 m1] d1].
  destruct (civilFromDays (dayIndex t2)) as [[y2 m2] d2].
  simpl fst in H; simpl snd in H.
  destruct Hc1 as (Hy1 & Hm1 & Hd1 & <-). destruct Hc2 as (Hy2 & Hm2 & Hd2 & <-).
  apply append_inj_length in H; [|now rewrite !length_lastDigits].
  destruct H as [Hy H]. apply append_inj_l in H.
  apply append_inj_length in H; [|now rewrite !length_lastDigits].
  destruct H as [Hm H]. apply append_inj_l in H.
  apply append_inj_length in H; [|now rewrite !length_lastDigits].
  destruct H as [Hd H]. apply append_inj_l in H.
  apply lastDigits_inj in Hy; [|simpl; lia ..].
  apply lastDigits_inj in Hm; [|simpl; lia ..].
  apply lastDigits_inj in Hd; [|simpl; lia ..].
  apply lastDigits_inj in H; [|simpl; lia ..].
  now subst.
Qed.

(** Between 0000-03-01 and 9600-02-29 the hourly layout changes names
    exactly with the UTC hour. *)
Lemma hourly_periodicOn : periodicOn hourlyLayout Hour firstInstant lastInstant.
Proof.
  split; [reflexivity|]. intros t1 t2 H1 H2. split.
  - intros H. rewrite <- !hourIndex_UTC.
    apply Format_hourly_inj; auto using dayIndex_in_range.
  - apply Format_same_period. reflexivity.
Qed.

End HourlyFacts.
(** ** The read loops, whatever the configuration *)

Module StepFacts.
Import GoTime StringFacts GoTimeFacts PeriodFacts Periods.
Import samplingstore.

Section Steps.
Context `{Ext : Externals}.
Variable s : SamplingStore.

Local Abbreviation name := (Plan.name s).
Local Abbreviation freq := (indexRolloverFrequency s).

Lemma steps_zero (c : Time) : Bridge.steps s c 0 = [name c].
Proof.
  unfold Bridge.steps. simpl. f_equal. apply ReadPlanFacts.name_instant. simpl. lia.
Qed.

Lemma steps_succ (c : Time) (n : nat) :
  Bridge.steps s c (S n) = name c :: Bridge.steps s (GoTime.Add c freq) n.
Proof.
  unfold Bridge.steps. change (seq 0 (S (S n))) with (0%nat :: seq 1 (S n)).
  rewrite <- seq_shift, map_cons, map_map. f_equal.
  - apply ReadPlanFacts.name_instant. simpl. lia.
  - apply map_ext. intros k. apply ReadPlanFacts.name_instant. simpl. lia.
Qed.

Lemma length_steps (c : Time) (n : nat) : length (Bridge.steps s c n) = S n.
Proof. unfold Bridge.steps. now rewrite length_map, length_seq. Qed.

(** The loop ends exactly when one of the names it steps through is the
    first index, and then returns the names up to it. *)
Lemma readLoop_steps (fuel : nat) :
  forall (firstIndex : string) (c : Time) (indices plan : list string),
    readLoop fuel s firstIndex c (name c) indices = Some plan <->
    exists n : nat,
      (n < fuel)%nat /\
      name (GoTime.Add c (Z.of_nat n * freq)) = firstIndex /\
      (forall k : nat, (k < n)%nat ->
         name (GoTime.Add c (Z.of_nat k * freq)) <> firstIndex) /\
      plan = indices ++ Bridge.steps s c n.
Proof.
  induction fuel as [|fuel IH]; intros firstIndex c indices plan.
  - split; [discriminate | intros (n & Hn & _); lia].
  - rewrite ReadPlanFacts.readLoop_S.
    assert (H0 : name (GoTime.Add c (Z.of_nat 0 * freq)) = name c)
      by (apply ReadPlanFacts.name_instant; simpl; lia).
    destruct (String.eqb_spec (name c) firstIndex) as [E | E].
    + split.
      * intros H. injection H as <-. exists 0%nat.
        split; [lia|]. split; [congruence|]. split; [intros k Hk; lia|].
        now rewrite steps_zero, E.
      * intros (n & Hn & Hfirst & Hbefore & ->).
        destruct n as [|n]; [now rewrite steps_zero, E|].
        exfalso. apply (Hbefore 0%nat); [lia | congruence].
    + rewrite IH. split.
      * intros (n & Hn & Hfirst & Hbefore & ->). exists (S n).
        split; [lia|]. split.
        { rewrite <- Hfirst. apply ReadPlanFacts.name_instant. simpl. lia. }
        split.
        { intros [|k] Hk; [congruence|].
          rewrite (ReadPlanFacts.name_instant s _
                     (GoTime.Add (GoTime.Add c freq) (Z.of_nat k * freq)))
            by (simpl; lia).
          apply Hbefore. lia. }
        now rewrite steps_succ, <- app_assoc.
      * intros (n & Hn & Hfirst & Hbefore & ->).
        destruct n as [|n]; [congruence|]. exists n.
        split; [lia|]. split.
        { rewrite <- Hfirst. apply ReadPlanFacts.name_instant. simpl. lia. }
        split.
        { intros k Hk.
          rewrite (ReadPlanFacts.name_instant s _
                     (GoTime.Add c (Z.of_nat (S k) * freq))) by (simpl; lia).
          apply Hbefore. lia. }
        now rewrite steps_succ, <- app_assoc.
Qed.

Lemma steps_last (c : Time) (n : nat) :
  List.last (Bridge.steps s c n) "" = name (GoTime.Add c (Z.of_nat n * freq)).
Proof.
  unfold Bridge.steps. rewrite seq_S, map_app. simpl. now rewrite last_last.
Qed.

End Steps.

(** The loop of the dependency store is that of the sampling store with the
    frequency negated. *)
Lemma dependency_readLoop `{Dec : Decoding} (s : depstore.DependencyStore) (fuel : nat) :
  forall firstIndex endTs currentIndex indices,
    depstore_reads.readLoop fuel s firstIndex endTs currentIndex indices =
    readLoop fuel (Bridge.asSampling s) firstIndex endTs currentIndex indices.
Proof.
  induction fuel as [|fuel IH]; intros; [reflexivity|].
  simpl. destruct (String.eqb currentIndex firstIndex); [reflexivity|]. apply IH.
Qed.

End StepFacts.
(** ** The scan for the latest index, whatever the configuration *)

Module ScanFacts.
Import GoTime StringFacts GoTimeFacts PeriodFacts Periods.
Import es samplingstore Scan.

Section AnyScan.
Context `{Ext : Externals}.
Variable s : SamplingStore.

Local Abbreviation name := (Plan.name s).
Local Abbreviation freq := (indexRolloverFrequency s).

Local Abbreviation absentChecks := (Bridge.absentChecks s).

Lemma absentChecks_succ (c : Time) (n : nat) :
  absentChecks c (S n)
  = EvIndexExists (name c) (false, None) :: absentChecks (GoTime.Add c freq) n.
Proof.
  unfold Bridge.absentChecks. change (seq 0 (S n)) with (0%nat :: seq 1 n).
  rewrite <- seq_shift, map_cons, map_map. f_equal.
  - f_equal. apply ReadPlanFacts.name_instant. simpl. lia.
  - apply map_ext. intros k. f_equal. apply ReadPlanFacts.name_instant. simpl. lia.
Qed.

Lemma latestLoop_any {St : Type} (cl : Client St) (fuel : nat) :
  forall (earliestIndex : string) (c : Time) (st st' : St)
         (r : list string * option error) (evs : list Event),
    run cl (latestLoop fuel s earliestIndex c) st = (Some r, st', evs) ->
    exists (n : nat) (ans : bool * option error),
      (n < fuel)%nat /\
      evs = absentChecks c n
            ++ [EvIndexExists (name (GoTime.Add c (Z.of_nat n * freq))) ans] /\
      (forall k : nat, (k < n)%nat ->
         name (GoTime.Add c (Z.of_nat k * freq)) <> earliestIndex) /\
      r = Bridge.outcome (name (GoTime.Add c (Z.of_nat n * freq))) ans /\
      (ans = (false, None) ->
       name (GoTime.Add c (Z.of_nat n * freq)) = earliestIndex).
Proof.
  induction fuel as [|fuel IH]; intros earliestIndex c st st' r evs H;
    [discriminate H|].
  rewrite LatestFacts.latestLoop_S in H. simpl in H.
  assert (H0 : name (GoTime.Add c (Z.of_nat 0 * freq)) = name c)
    by (apply ReadPlanFacts.name_instant; simpl; lia).
  destruct (onIndexExists cl (name c) st) as [[b [e|]] st1] eqn:Hans; simpl in H.
  - injection H as <- <- <-. exists 0%nat, (b, Some e).
    split; [lia|]. rewrite H0. split; [reflexivity|].
    split; [intros k Hk; lia|]. split; [reflexivity | discriminate].
  - destruct b; simpl in H.
    + injection H as <- <- <-. exists 0%nat, (true, None).
      split; [lia|]. rewrite H0. split; [reflexivity|].
      split; [intros k Hk; lia|]. split; [reflexivity | discriminate].
    + destruct (String.eqb_spec (name c) earliestIndex) as [E | E]; simpl in H.
      * injection H as <- <- <-. exists 0%nat, (false, None).
        split; [lia|]. rewrite H0. split; [reflexivity|].
        split; [intros k Hk; lia|]. split; [reflexivity | now intros _].
      * destruct (run cl (latestLoop fuel s earliestIndex (GoTime.Add c freq)) st1)
          as [[r1 st2] evs1] eqn:Hrun.
        injection H as -> <- <-.
        destruct (IH _ _ _ _ _ _ Hrun) as (n & ans & Hn & -> & Hbefore & -> & Hlast).
        exists (S n), ans.
        assert (Hshift : name (GoTime.Add c (Z.of_nat (S n) * freq))
                         = name (GoTime.Add (GoTime.Add c freq) (Z.of_nat n * freq)))
          by (apply ReadPlanFacts.name_instant; simpl; lia).
        split; [lia|]. rewrite Hshift. split.
        { now rewrite absentChecks_succ. }
        split.
        { intros [|k] Hk; [congruence|].
          rewrite (ReadPlanFacts.name_instant s _
                     (GoTime.Add (GoTime.Add c freq) (Z.of_nat k * freq)))
            by (simpl; lia).
          apply Hbefore. lia. }
        split; [reflexivity | exact Hlast].
Qed.

(** When now and the earliest instant have one name, one check is made. *)
Lemma latestLoop_one_check {St : Type} (cl : Client St) (fuel : nat) (c : Time) (st : St) :
  exists ans : bool * option error,
    result (run cl (latestLoop (S fuel) s (name c) c) st)
    = Some (Bridge.outcome (name c) ans) /\
    events (run cl (latestLoop (S fuel) s (name c) c) st)
    = [EvIndexExists (name c) ans].
Proof.
  rewrite LatestFacts.latestLoop_S. simpl.
  destruct (onIndexExists cl (name c) st) as [[b [e|]] st1]; simpl.
  - exists (b, Some e). split; reflexivity.
  - destruct b; simpl.
    + exists (true, None). split; reflexivity.
    + rewrite String.eqb_refl. simpl. exists (false, None). split; reflexivity.
Qed.

End AnyScan.
End ScanFacts.
(** ** The calls of the write paths, one by one *)

Module WriteTraceFacts.
Import es.

Section Traces.
Context `{Ext : Externals}.

Lemma dated_only_insertEach {St : Type} (cl : Client St) (index : string)
    (ts : GoTime.Time) (items : list dbThroughput) :
  forall st : St,
    events (run cl (samplingstore_dated.insertEach index ts items) st)
    = map (fun each => EvAdd (Bridge.throughputRequest index ts each "")) items.
Proof.
  induction items as [|each rest IH]; intros st; [reflexivity|].
  simpl. specialize (IH (onAdd cl (Bridge.throughputRequest index ts each "") st)).
  unfold events in *.
  change (withOpType _ "") with (Bridge.throughputRequest index ts each "").
  destruct (run cl (samplingstore_dated.insertEach index ts rest) _) as [[a st1] evs].
  simpl in *. now rewrite IH.
Qed.

Section Switch.
Import samplingstore.
Variable s : SamplingStore.

Lemma stream_insertEach {St : Type} (cl : Client St) (index : string)
    (ts : GoTime.Time) (items : list dbThroughput) :
  useDataStream s = true ->
  forall st : St,
    events (run cl (insertEach s index ts items) st)
    = map (fun each => EvAdd (Bridge.throughputRequest index ts each "create")) items.
Proof.
  intros Hds. induction items as [|each rest IH]; intros st; [reflexivity|].
  cbn [insertEach]. unfold chooseOpType. rewrite Hds. simpl.
  specialize (IH (onAdd cl (Bridge.throughputRequest index ts each "create") st)).
  unfold events in *.
  change (withOpType _ "create") with (Bridge.throughputRequest index ts each "create").
  destruct (run cl (insertEach s index ts rest) _) as [[a st1] evs].
  simpl in *. now rewrite IH.
Qed.

Lemma dated_insertEach {St : Type} (cl : Client St) (index : string)
    (ts : GoTime.Time) (items : list dbThroughput) :
  useDataStream s = false ->
  forall st : St,
    exists versions : list Z,
      length versions = length items /\
      events (run cl (insertEach s index ts items) st)
      = flat_map (fun ev => [EvGetVersion (snd ev);
                             EvAdd (Bridge.throughputRequest index ts (fst ev)
                                      (Bridge.opTypeOfVersion (snd ev)))])
                 (combine items versions).
Proof.
  intros Hds. induction items as [|each rest IH]; intros st.
  - exists []. split; reflexivity.
  - cbn [insertEach]. unfold chooseOpType. rewrite Hds. simpl.
    destruct (onGetVersion cl st) as [v st1]. simpl.
    destruct (IH (onAdd cl (Bridge.throughputRequest index ts each
                              (Bridge.opTypeOfVersion v)) st1))
      as (versions & Hlen & Hevs).
    exists (v :: versions). split; [simpl; now rewrite Hlen|].
    unfold events in *.
    change (withOpType _ (if 8 <=? v then "create" else ""))
      with (Bridge.throughputRequest index ts each (Bridge.opTypeOfVersion v)).
    destruct (run cl (insertEach s index ts rest) _) as [[a st2] evs].
    simpl in *. now rewrite Hevs.
Qed.

End Switch.
End Traces.
End WriteTraceFacts.

(** ** The hits of a search *)

Module SearchFacts.
Import es search.

Section Hits.
Context `{Dec : Decoding}.

(** A hit that does not unmarshal, behind hits that do, is what the loop
    returns. *)
Lemma unmarshalAll_first_failure {A : Type} (unmarshal : Source -> A + error)
    (good : list Source) (bad : Source) (rest : list Source) (err : error) :
  (forall hit, In hit good -> exists a, unmarshal hit = inl a) ->
  unmarshal bad = inr err ->
  unmarshalAll unmarshal (good ++ bad :: rest) = inr err.
Proof.
  intros Hgood Hbad. induction good as [|hit good IH]; simpl.
  - now rewrite Hbad.
  - destruct (Hgood hit (or_introl eq_refl)) as [a ->].
    rewrite IH; [reflexivity|]. intros h Hh. apply Hgood. now right.
Qed.

Lemma unmarshalAll_length {A : Type} (unmarshal : Source -> A + error)
    (hits : list Source) (output : list A) :
  unmarshalAll unmarshal hits = inl output -> length output = length hits.
Proof.
  revert output. induction hits as [|hit hits IH]; intros output H; simpl in H.
  - now injection H as <-.
  - destruct (unmarshal hit) as [a|e]; [|discriminate].
    destruct (unmarshalAll unmarshal hits) as [out|e]; [|discriminate].
    injection H as <-. simpl. now rewrite (IH out).
Qed.

(** The loop of [GetDependencies] appends the dependencies of the hits. *)
Lemma collect_unmarshalAll (hits : list Source) :
  forall retDependencies : list DependencyLink,
    depstore_reads.collect hits retDependencies =
    match unmarshalAll unmarshalTimeDependencies hits with
    | inr err => inr err
    | inl output => inl (retDependencies ++ List.concat (map snd output))
    end.
Proof.
  induction hits as [|hit hits IH]; intros ret; simpl.
  - now rewrite app_nil_r.
  - destruct (unmarshalTimeDependencies hit) as [d|e]; [|reflexivity].
    rewrite IH. destruct (unmarshalAll unmarshalTimeDependencies hits) as [out|e];
      [|reflexivity].
    simpl. now rewrite <- app_assoc.
Qed.

(** The loop of [GetLatestProbabilities] keeps the first of the documents
    whose timestamp is the latest, when that is after the time it starts
    from. *)
Lemma latestOf_latest (hits : list Source) :
  forall (ds : list (GoTime.Time * (ServiceOperationProbabilities * ServiceOperationQPS)))
         (latestTime : GoTime.Time)
         (cur : GoTime.Time * (ServiceOperationProbabilities * ServiceOperationQPS)),
    unmarshalAll unmarshalTimeProbabilitiesAndQPS hits = inl ds ->
    exists best,
      samplingstore_reads.latestOf hits latestTime cur = inl best /\
      ((best = cur /\
        forall d, In d ds -> GoTime.unixNano (fst d) <= GoTime.unixNano latestTime) \/
       (exists pre post,
          ds = pre ++ best :: post /\
          GoTime.unixNano latestTime < GoTime.unixNano (fst best) /\
          (forall d, In d pre -> GoTime.unixNano (fst d) < GoTime.unixNano (fst best)) /\
          (forall d, In d post -> GoTime.unixNano (fst d) <= GoTime.unixNano (fst best)))).
Proof.
  induction hits as [|hit hits IH]; intros ds latestTime cur H; simpl in H.
  - injection H as <-. exists cur. split; [reflexivity|]. left.
    split; [reflexivity | intros d []].
  - simpl. destruct (unmarshalTimeProbabilitiesAndQPS hit) as [d|e]; [|discriminate].
    destruct (unmarshalAll unmarshalTimeProbabilitiesAndQPS hits) as [ds'|e] eqn:Hds;
      [|discriminate].
    injection H as <-. unfold TimeOrder.After.
    destruct (GoTime.unixNano latestTime <? GoTime.unixNano (fst d)) eqn:Hafter;
      [apply Z.ltb_lt in Hafter | apply Z.ltb_ge in Hafter].
    + destruct (IH ds' (fst d) d eq_refl) as (best & -> & [[-> Hall] | Hsplit]).
      * exists d. split; [reflexivity|]. right. exists [], ds'.
        split; [reflexivity|]. split; [exact Hafter|]. split; [intros x []|exact Hall].
      * destruct Hsplit as (pre & post & -> & Hlt & Hpre & Hpost).
        exists best. split; [reflexivity|]. right. exists (d :: pre), post.
        split; [reflexivity|]. split; [lia|]. split; [|exact Hpost].
        intros x [<- | Hx]; [exact Hlt | now apply Hpre].
    + destruct (IH ds' latestTime cur eq_refl) as (best & -> & [[-> Hall] | Hsplit]).
      * exists cur. split; [reflexivity|]. left. split; [reflexivity|].
        intros x [<- | Hx]; [exact Hafter | now apply Hall].
      * destruct Hsplit as (pre & post & -> & Hlt & Hpre & Hpost).
        exists best. split; [reflexivity|]. right. exists (d :: pre), post.
        split; [reflexivity|]. split; [exact Hlt|]. split; [|exact Hpost].
        intros x [<- | Hx]; [lia | now apply Hpre].
Qed.

End Hits.
End SearchFacts.
(** ** The read plan of the dependency store *)

Module DependencyPlanFacts.
Import GoTime Periods.

Section Plan.
Context `{Dec : Decoding}.
Variable s : depstore.DependencyStore.

Lemma getReadIndices_asSampling (fuel : nat) (endTs : Time) (lookback : Duration) :
  depstore.useReadWriteAliases s = false ->
  depstore_reads.getReadIndices fuel s endTs lookback =
  samplingstore.getReadIndices fuel (Bridge.asSampling s)
    (Add endTs (neg lookback)) endTs.
Proof.
  intros Hal. unfold depstore_reads.getReadIndices, samplingstore.getReadIndices.
  rewrite Hal. simpl. apply StepFacts.dependency_readLoop.
Qed.

Lemma getWriteIndex_name (ts : Time) :
  depstore.useReadWriteAliases s = false ->
  depstore.getWriteIndex s ts = Plan.name (Bridge.asSampling s) ts.
Proof. intros Hal. unfold depstore.getWriteIndex. now rewrite Hal. Qed.

End Plan.
End DependencyPlanFacts.

(** * Further theorems *)

Import MoreExamples.

(** X1. With the layout of a daily rollover two instants get one index name
    exactly when they are in one UTC day, and with the layout of an hourly
    rollover exactly when they are in one UTC hour, whatever the prefix and
    the locations the instants are shown in (years 0000 to 9600). *)
Theorem IndexWithDate_daily_and_hourly (prefix : string) (t1 t2 : GoTime.Time) :
  Periods.firstInstant <= GoTime.unixNano t1 <= Periods.lastInstant ->
  Periods.firstInstant <= GoTime.unixNano t2 <= Periods.lastInstant ->
  (config.IndexWithDate prefix "2006-01-02" t1 = config.IndexWithDate prefix "2006-01-02" t2
   <-> GoTime.unixNano t1 / GoTime.Day = GoTime.unixNano t2 / GoTime.Day) /\
  (config.IndexWithDate prefix "2006-01-02-15" t1
   = config.IndexWithDate prefix "2006-01-02-15" t2
   <-> GoTime.unixNano t1 / GoTime.Hour = GoTime.unixNano t2 / GoTime.Hour).
Proof.
  intros H1 H2. unfold config.IndexWithDate.
  pose proof (proj2 PeriodFacts.daily_periodicOn t1 t2 H1 H2) as Hday.
  pose proof (proj2 HourlyFacts.hourly_periodicOn t1 t2 H1 H2) as Hhour.
  split; split; intros E.
  - apply Hday. exact (StringFacts.append_inj_l _ _ _ E).
  - apply Hday in E. exact (f_equal (String.append prefix) E).
  - apply Hhour. exact (StringFacts.append_inj_l _ _ _ E).
  - apply Hhour in E. exact (f_equal (String.append prefix) E).
Qed.

Lemma IndexWithDate_daily_and_hourly_witness :
  config.IndexWithDate "jaeger-span-" "2006-01-02" (GoTime.Date 2025 1 1 22 30 0)
  = config.IndexWithDate "jaeger-span-" "2006-01-02" (GoTime.Date 2025 1 1 23 10 0) /\
  config.IndexWithDate "jaeger-span-" "2006-01-02-15" (GoTime.Date 2025 1 1 22 30 0)
  <> config.IndexWithDate "jaeger-span-" "2006-01-02-15" (GoTime.Date 2025 1 1 23 10 0).
Proof.
  assert (H1 : Periods.firstInstant <= GoTime.unixNano (GoTime.Date 2025 1 1 22 30 0)
               <= Periods.lastInstant)
    by (split; apply Z.leb_le; vm_compute; reflexivity).
  assert (H2 : Periods.firstInstant <= GoTime.unixNano (GoTime.Date 2025 1 1 23 10 0)
               <= Periods.lastInstant)
    by (split; apply Z.leb_le; vm_compute; reflexivity).
  destruct (IndexWithDate_daily_and_hourly "jaeger-span-" _ _ H1 H2) as [Hday Hhour].
  split.
  - apply Hday. vm_compute. reflexivity.
  - intros E. apply Hhour in E. vm_compute in E. discriminate E.
Defined.

(** X2. On dated indices [getReadIndices] returns a plan exactly when one
    of the instants [endTime], [endTime + frequency],
    [endTime + 2 frequency], ... gets the name of [startTime]; the plan is
    then the names of these instants up to the first such one, so that it
    begins with the index of [endTime], ends with the index of [startTime]
    and is as long as the number of turns of the loop plus one.  Nothing
    is assumed of the frequency, the layout or the order of the two
    instants. *)
Theorem getReadIndices_returns_steps `{Ext : Externals}
    (s : samplingstore.SamplingStore) (startTime endTime : GoTime.Time) :
  samplingstore.useDataStream s = false ->
  (forall (fuel : nat) (plan : list string),
     samplingstore.getReadIndices fuel s startTime endTime = Some plan <->
     exists n : nat,
       (n < fuel)%nat /\
       Plan.name s (GoTime.Add endTime
                      (Z.of_nat n * samplingstore.indexRolloverFrequency s))
       = Plan.name s startTime /\
       (forall k : nat, (k < n)%nat ->
          Plan.name s (GoTime.Add endTime
                         (Z.of_nat k * samplingstore.indexRolloverFrequency s))
          <> Plan.name s startTime) /\
       plan = Bridge.steps s endTime n) /\
  (forall (fuel : nat) (plan : list string),
     samplingstore.getReadIndices fuel s startTime endTime = Some plan ->
     hd_error plan = Some (Plan.name s endTime) /\
     List.last plan "" = Plan.name s startTime /\
     (1 <= length plan <= fuel)%nat).
Proof.
  intros Hds.
  assert (Hiff : forall (fuel : nat) (plan : list string),
     samplingstore.getReadIndices fuel s startTime endTime = Some plan <->
     exists n : nat,
       (n < fuel)%nat /\
       Plan.name s (GoTime.Add endTime
                      (Z.of_nat n * samplingstore.indexRolloverFrequency s))
       = Plan.name s startTime /\
       (forall k : nat, (k < n)%nat ->
          Plan.name s (GoTime.Add endTime
                         (Z.of_nat k * samplingstore.indexRolloverFrequency s))
          <> Plan.name s startTime) /\
       plan = Bridge.steps s endTime n).
  { intros fuel plan. unfold samplingstore.getReadIndices. rewrite Hds.
    apply (StepFacts.readLoop_steps s fuel (Plan.name s startTime) endTime [] plan). }
  split; [exact Hiff|].
  intros fuel plan H. apply Hiff in H. destruct H as (n & Hn & Hlast & _ & ->).
  split; [|split].
  - destruct n; [now rewrite StepFacts.steps_zero | now rewrite StepFacts.steps_succ].
  - now rewrite StepFacts.steps_last.
  - rewrite StepFacts.length_steps. lia.
Qed.

Lemma getReadIndices_returns_steps_witness :
  samplingstore.getReadIndices 3 Examples.halfDayStore
    (GoTime.Date 2025 1 1 0 0 0) (GoTime.Date 2025 1 2 12 0 0)
  = Some (Bridge.steps Examples.halfDayStore (GoTime.Date 2025 1 2 12 0 0) 2).
Proof.
  apply (proj1 (getReadIndices_returns_steps (Ext := Examples.sampleExternals)
                  Examples.halfDayStore
                  (GoTime.Date 2025 1 1 0 0 0) (GoTime.Date 2025 1 2 12 0 0) eq_refl)).
  exists 2%nat. split; [lia|]. split; [vm_compute; reflexivity|].
  split; [|reflexivity].
  intros k Hk E.
  destruct k as [|[|k]]; [vm_compute in E; discriminate E
                         | vm_compute in E; discriminate E | lia].
Defined.

(** X3. The read plan of the dependency store.  On aliases it is the read
    alias alone.  On dated indices, the frequency being the period of the
    layout, it is one index for each period from that of [endTs] back to
    that of [endTs - lookback], without repetition, and it holds the index
    every instant of that range is written to. *)
Theorem dependency_getReadIndices_plan `{Dec : Decoding}
    (s : depstore.DependencyStore) (endTs : GoTime.Time) (lookback : GoTime.Duration) :
  (depstore.useReadWriteAliases s = true ->
   forall fuel : nat,
     depstore_reads.getReadIndices fuel s endTs lookback
     = Some [depstore.dependencyIndexPrefix s +:+ "read"]) /\
  (depstore.useReadWriteAliases s = false ->
   forall P lo hi : Z,
     Periods.periodicOn (depstore.indexDateLayout s) P lo hi ->
     depstore.indexRolloverFrequency s = P ->
     P <= GoTime.maxInt64 ->
     0 <= lookback <= GoTime.maxInt64 ->
     lo + P <= GoTime.unixNano endTs - lookback ->
     GoTime.unixNano endTs <= hi ->
     let periods := Plan.span P (GoTime.Add endTs (- lookback)) endTs in
     let plan := Plan.walk (Bridge.asSampling s) P endTs periods in
     (forall fuel : nat,
        (periods < fuel)%nat ->
        depstore_reads.getReadIndices fuel s endTs lookback = Some plan) /\
     List.NoDup plan /\
     length plan = S periods /\
     (forall ts : GoTime.Time,
        GoTime.unixNano endTs - lookback <= GoTime.unixNano ts <= GoTime.unixNano endTs ->
        In (depstore.getWriteIndex s ts) plan)).
Proof.
  split.
  - intros Hal fuel. unfold depstore_reads.getReadIndices. now rewrite Hal.
  - intros Hal P lo hi Hper Hfreq HP Hlook Hlo Hhi periods plan.
    assert (HPpos : 0 < P) by exact (proj1 Hper).
    assert (Hneg : GoTime.neg lookback = - lookback).
    { apply PeriodFacts.neg_small. unfold GoTime.minInt64, GoTime.maxInt64 in *. lia. }
    assert (Hf : samplingstore.indexRolloverFrequency (Bridge.asSampling s) = - P).
    { simpl. rewrite Hfreq. apply PeriodFacts.neg_small.
      unfold GoTime.minInt64, GoTime.maxInt64 in *. lia. }
    assert (Hlo' : lo + P <= GoTime.unixNano (GoTime.Add endTs (- lookback)))
      by (simpl; lia).
    assert (Hord : GoTime.unixNano (GoTime.Add endTs (- lookback)) <= GoTime.unixNano endTs)
      by (simpl; lia).
    split; [|split; [|split]].
    + intros fuel Hfuel.
      rewrite (DependencyPlanFacts.getReadIndices_asSampling s fuel endTs lookback Hal), Hneg.
      now apply (ReadPlanFacts.getReadIndices_walk (Bridge.asSampling s) P lo hi Hper Hf
                   (GoTime.Add endTs (- lookback)) endTs eq_refl Hlo' Hord Hhi).
    + now apply (ReadPlanFacts.walk_NoDup (Bridge.asSampling s) P lo hi Hper
                   (GoTime.Add endTs (- lookback)) endTs).
    + unfold plan, Plan.walk. now rewrite length_map, length_seq.
    + intros ts Hts.
      rewrite (DependencyPlanFacts.getWriteIndex_name s ts Hal).
      apply (ReadPlanFacts.walk_covers (Bridge.asSampling s) P lo hi Hper
               (GoTime.Add endTs (- lookback)) endTs Hlo' Hord Hhi).
      exists ts. split; [simpl; lia | reflexivity].
Qed.

Lemma dependency_getReadIndices_plan_witness :
  depstore_reads.getReadIndices 3 Examples.datedDependencyStore
    (GoTime.Date 2025 1 3 12 0 0) (2 * GoTime.Day)
  = Some ["jaeger-dependencies-2025-01-03"; "jaeger-dependencies-2025-01-02";
          "jaeger-dependencies-2025-01-01"].
Proof.
  refine (eq_trans
    (proj1 (proj2 (dependency_getReadIndices_plan (Dec := MoreExamples.sampleDecoding)
                     Examples.datedDependencyStore (GoTime.Date 2025 1 3 12 0 0)
                     (2 * GoTime.Day)) eq_refl
              GoTime.Day Periods.firstInstant Periods.lastInstant
              PeriodFacts.daily_periodicOn eq_refl _ _ _ _) 3%nat _) _).
  - apply Z.leb_le. vm_compute. reflexivity.
  - split; apply Z.leb_le; vm_compute; reflexivity.
  - apply Z.leb_le. vm_compute. reflexivity.
  - apply Z.leb_le. vm_compute. reflexivity.
  - vm_compute. lia.
  - vm_compute. reflexivity.
Defined.

(** ** The writes of the sampling store, in their order *)

Module WriteOrderFacts.
Import es samplingstore.

Section Order.
Context `{Ext : Externals}.
Variable s : SamplingStore.

Lemma writes_app (evs1 evs2 : list Event) :
  writes (evs1 ++ evs2) = writes evs1 ++ writes evs2.
Proof.
  induction evs1 as [|ev evs1 IH]; [reflexivity|].
  destruct ev; simpl; now rewrite IH.
Qed.

Lemma writes_adds {A : Type} (f : A -> IndexService) (l : list A) :
  writes (map (fun a => EvAdd (f a)) l) = map f l.
Proof. induction l as [|a l IH]; [reflexivity|]. simpl. now rewrite IH. Qed.

(** Whatever the versions answered, the writes are those of the items, in
    their order, up to the operation type. *)
Lemma insertEach_writes {St : Type} (cl : Client St) (index : string)
    (ts : GoTime.Time) (items : list dbThroughput) :
  forall st : St,
    map (fun w => withOpType w "") (writes (events (run cl (insertEach s index ts items) st)))
    = map (fun each => Bridge.throughputRequest index ts each "") items.
Proof.
  destruct (useDataStream s) eqn:Hds.
  - intros st. rewrite (WriteTraceFacts.stream_insertEach s cl index ts items Hds st).
    rewrite writes_adds, map_map. reflexivity.
  - intros st.
    destruct (WriteTraceFacts.dated_insertEach s cl index ts items Hds st)
      as (versions & Hlen & ->).
    clear st. revert versions Hlen.
    induction items as [|each rest IH]; intros [|v versions] Hlen;
      try discriminate Hlen; [reflexivity|].
    simpl. f_equal. apply IH. now injection Hlen.
Qed.

(** A cluster all of whose answers give one operation type. *)
Lemma insertEach_uniform {St : Type} (cl : Client St) (opType : string)
    (index : string) (ts : GoTime.Time) (items : list dbThroughput) :
  useDataStream s = false ->
  (forall st : St, Bridge.opTypeOfVersion (fst (onGetVersion cl st)) = opType) ->
  forall st : St,
    writes (events (run cl (insertEach s index ts items) st))
    = map (fun each => Bridge.throughputRequest index ts each opType) items.
Proof.
  intros Hds Huni. induction items as [|each rest IH]; intros st; [reflexivity|].
  cbn [insertEach]. unfold chooseOpType. rewrite Hds. simpl.
  specialize (Huni st). destruct (onGetVersion cl st) as [v st1]. simpl in *.
  specialize (IH (onAdd cl (Bridge.throughputRequest index ts each
                              (Bridge.opTypeOfVersion v)) st1)).
  unfold events in *.
  change (withOpType _ (if 8 <=? v then "create" else ""))
    with (Bridge.throughputRequest index ts each (Bridge.opTypeOfVersion v)).
  destruct (run cl (insertEach s index ts rest) _) as [[a st2] evs].
  simpl in *. now rewrite IH, Huni.
Qed.

Lemma InsertThroughput_events {St : Type} (cl : Client St) (st : St)
    (ts : GoTime.Time) (throughput : list Throughput) :
  events (run cl (InsertThroughput s ts throughput) st)
  = events (run cl (insertEach s (getWriteIndex s ts) ts (FromThroughputs throughput)) st).
Proof.
  unfold InsertThroughput. cbn zeta. rewrite WriteFacts.events_bind. simpl.
  now rewrite app_nil_r.
Qed.

End Order.

Lemma dated_only_InsertThroughput_events `{Ext : Externals} {St : Type}
    (cl : Client St) (st : St) (d : samplingstore_dated.SamplingStore)
    (ts : GoTime.Time) (throughput : list Throughput) :
  events (run cl (samplingstore_dated.InsertThroughput d ts throughput) st)
  = map (fun each => EvAdd (Bridge.throughputRequest
                              (samplingstore_dated.getWriteIndex d ts) ts each ""))
        (FromThroughputs throughput).
Proof.
  unfold samplingstore_dated.InsertThroughput. cbn zeta.
  rewrite WriteFacts.events_bind. simpl. rewrite app_nil_r.
  apply WriteTraceFacts.dated_only_insertEach.
Qed.

End WriteOrderFacts.

(** X4. [InsertThroughput] of the store with the data-stream switch hands
    one request per throughput to the bulk processor, in the order of the
    throughputs.  With the switch on it makes no other call and every
    request has the operation type "create"; with the switch off it asks
    for the version of the cluster before each request, and the request is
    of type "create" exactly when the version just answered is 8 or
    more. *)
Theorem InsertThroughput_calls `{Ext : Externals} {St : Type}
    (cl : es.Client St) (st : St) (s : samplingstore.SamplingStore)
    (ts : GoTime.Time) (throughput : list Throughput) :
  let index := samplingstore.getWriteIndex s ts in
  let evs := es.events (es.run cl (samplingstore.InsertThroughput s ts throughput) st) in
  (samplingstore.useDataStream s = true ->
   evs = map (fun each => es.EvAdd (Bridge.throughputRequest index ts each "create"))
             (FromThroughputs throughput)) /\
  (samplingstore.useDataStream s = false ->
   exists versions : list Z,
     length versions = length (FromThroughputs throughput) /\
     evs = flat_map (fun ev => [es.EvGetVersion (snd ev);
                                es.EvAdd (Bridge.throughputRequest index ts (fst ev)
                                            (Bridge.opTypeOfVersion (snd ev)))])
                    (combine (FromThroughputs throughput) versions)) /\
  map (fun w => es.withOpType w "") (es.writes evs)
  = map (fun each => Bridge.throughputRequest index ts each "") (FromThroughputs throughput).
Proof.
  cbn zeta. rewrite WriteOrderFacts.InsertThroughput_events. split; [|split].
  - intros Hds. now apply WriteTraceFacts.stream_insertEach.
  - intros Hds. now apply WriteTraceFacts.dated_insertEach.
  - apply WriteOrderFacts.insertEach_writes.
Qed.

Lemma InsertThroughput_calls_witness :
  es.events (es.run (es.cluster 7)
               (samplingstore.InsertThroughput Examples.streamStore
                  (GoTime.Date 2025 1 1 0 0 0) ["svc-a"; "svc-b"]) ∅)
  = [es.EvAdd (Bridge.throughputRequest "jaeger.sampling"
                 (GoTime.Date 2025 1 1 0 0 0) "svc-a" "create");
     es.EvAdd (Bridge.throughputRequest "jaeger.sampling"
                 (GoTime.Date 2025 1 1 0 0 0) "svc-b" "create")].
Proof.
  exact (proj1 (InsertThroughput_calls (Ext := Examples.sampleExternals)
                  (es.cluster 7) ∅ Examples.streamStore
                  (GoTime.Date 2025 1 1 0 0 0) ["svc-a"; "svc-b"]) eq_refl).
Defined.

(** X5. [InsertProbabilitiesAndQPS] of the store with the data-stream
    switch hands exactly one request to the bulk processor: with the switch
    on it is the only call and its operation type is "create"; with the
    switch off the version of the cluster is asked for first, once, and the
    request is of type "create" exactly when that version is 8 or more.
    The host name is not used. *)
Theorem InsertProbabilitiesAndQPS_calls `{Ext : Externals} {St : Type}
    (cl : es.Client St) (st : St) (s : samplingstore.SamplingStore)
    (ts : GoTime.Time) (hostname : string)
    (probabilities : ServiceOperationProbabilities) (qps : ServiceOperationQPS) :
  let index := samplingstore.getWriteIndex s ts in
  let evs := es.events (es.run cl (samplingstore.InsertProbabilitiesAndQPS s ts hostname
                                     probabilities qps) st) in
  (samplingstore.useDataStream s = true ->
   evs = [es.EvAdd (Bridge.probabilitiesRequest index ts probabilities qps "create")]) /\
  (samplingstore.useDataStream s = false ->
   let v := fst (es.onGetVersion cl st) in
   evs = [es.EvGetVersion v;
          es.EvAdd (Bridge.probabilitiesRequest index ts probabilities qps
                      (Bridge.opTypeOfVersion v))]) /\
  (forall other : string,
     es.run cl (samplingstore.InsertProbabilitiesAndQPS s ts other probabilities qps) st
     = es.run cl (samplingstore.InsertProbabilitiesAndQPS s ts hostname
                    probabilities qps) st).
Proof.
  cbn zeta. unfold samplingstore.InsertProbabilitiesAndQPS,
    samplingstore.writeProbabilitiesAndQPS, samplingstore.chooseOpType.
  split; [|split].
  - intros ->. reflexivity.
  - intros ->. simpl. destruct (es.onGetVersion cl st) as [v st1]. reflexivity.
  - reflexivity.
Qed.

Lemma InsertProbabilitiesAndQPS_calls_witness :
  es.events (es.run (es.cluster 8)
               (samplingstore.InsertProbabilitiesAndQPS Examples.dailyStore
                  (GoTime.Date 2025 1 1 0 0 0) "host" "p" "q") ∅)
  = [es.EvGetVersion 8;
     es.EvAdd (Bridge.probabilitiesRequest "jaeger-sampling-2025-01-01"
                 (GoTime.Date 2025 1 1 0 0 0) "p" "q" "create")].
Proof.
  exact (proj1 (proj2 (InsertProbabilitiesAndQPS_calls (Ext := Examples.sampleExternals)
                         (es.cluster 8) ∅ Examples.dailyStore
                         (GoTime.Date 2025 1 1 0 0 0) "host" "p" "q")) eq_refl).
Defined.

(** X6. The store of [samplingstore/storage.go] against the store with the
    data-stream switch, the switch off.  The two plan their reads and scan
    for the latest index alike.  The older store never asks for the version
    and writes every throughput with the default operation type; the newer
    one hands the same requests to the bulk processor when the cluster
    answers versions below 8, and requests of type "create" when it answers
    8 or more. *)
Theorem dated_store_and_switch_off `{Ext : Externals} {St : Type}
    (cl : es.Client St) (st : St) (d : samplingstore_dated.SamplingStore)
    (ts : GoTime.Time) (throughput : list Throughput) :
  let index := samplingstore_dated.getWriteIndex d ts in
  let older := es.events (es.run cl (samplingstore_dated.InsertThroughput d ts throughput) st) in
  let newer := es.events (es.run cl (samplingstore.InsertThroughput
                                       (samplingstore.ofDated d) ts throughput) st) in
  (forall (fuel : nat) (startTime endTime : GoTime.Time),
     samplingstore_dated.getReadIndices fuel d startTime endTime
     = samplingstore.getReadIndices fuel (samplingstore.ofDated d) startTime endTime) /\
  (forall (fuel : nat) (now : GoTime.Time),
     samplingstore_dated.getLatestIndices fuel d now
     = samplingstore.getLatestIndices fuel (samplingstore.ofDated d) now) /\
  older = map (fun each => es.EvAdd (Bridge.throughputRequest index ts each ""))
              (FromThroughputs throughput) /\
  ((forall st' : St, fst (es.onGetVersion cl st') < 8) ->
   es.writes newer = es.writes older) /\
  ((forall st' : St, 8 <= fst (es.onGetVersion cl st')) ->
   es.writes newer
   = map (fun each => Bridge.throughputRequest index ts each "create")
         (FromThroughputs throughput)).
Proof.
  cbn zeta. split; [|split; [|split; [|split]]].
  - intros fuel startTime endTime. apply WriteFacts.dated_getReadIndices.
  - intros fuel now. apply WriteFacts.dated_getLatestIndices.
  - apply WriteOrderFacts.dated_only_InsertThroughput_events.
  - intros Hold.
    rewrite WriteOrderFacts.dated_only_InsertThroughput_events,
      WriteOrderFacts.InsertThroughput_events, WriteOrderFacts.writes_adds.
    apply (WriteOrderFacts.insertEach_uniform (samplingstore.ofDated d) cl "");
      [reflexivity|].
    intros st'. specialize (Hold st'). unfold Bridge.opTypeOfVersion.
    destruct (8 <=? fst (es.onGetVersion cl st')) eqn:E; [|reflexivity].
    apply Z.leb_le in E. lia.
  - intros Hnew. rewrite WriteOrderFacts.InsertThroughput_events.
    apply (WriteOrderFacts.insertEach_uniform (samplingstore.ofDated d) cl "create");
      [reflexivity|].
    intros st'. specialize (Hnew st'). unfold Bridge.opTypeOfVersion.
    destruct (8 <=? fst (es.onGetVersion cl st')) eqn:E; [reflexivity|].
    apply Z.leb_gt in E. lia.
Qed.

Lemma dated_store_and_switch_off_witness :
  es.writes (es.events
    (es.run (es.cluster 7)
       (samplingstore.InsertThroughput
          (samplingstore.ofDated
             MoreExamples.olderStore)
          (GoTime.Date 2025 1 1 0 0 0) ["svc-a"]) ∅))
  = es.writes (es.events
      (es.run (es.cluster 7)
         (samplingstore_dated.InsertThroughput
            MoreExamples.olderStore
            (GoTime.Date 2025 1 1 0 0 0) ["svc-a"]) ∅)).
Proof.
  apply (proj1 (proj2 (proj2 (proj2
           (dated_store_and_switch_off (Ext := Examples.sampleExternals)
              (es.cluster 7) ∅
              MoreExamples.olderStore
              (GoTime.Date 2025 1 1 0 0 0) ["svc-a"]))))).
  intros st'. simpl. lia.
Defined.

(** ** Hits that all unmarshal *)

Module DecodeFacts.
Import es search.

Section Decode.
Context `{Dec : Decoding}.

Lemma unmarshalAll_Forall2 {A : Type} (unmarshal : Source -> A + error)
    (hits : list Source) (output : list A) :
  Forall2 (fun hit a => unmarshal hit = inl a) hits output ->
  unmarshalAll unmarshal hits = inl output.
Proof.
  induction 1 as [|hit a hits output Hhit _ IH]; [reflexivity|].
  simpl. now rewrite Hhit, IH.
Qed.

End Decode.
End DecodeFacts.

(** X7. [GetThroughput] computes the read plan first, and has a result
    exactly when [getReadIndices] has one: always on a data stream and when
    the two instants get one name; never, on dated indices, with a
    frequency of zero and two instants of different names, the loop of
    [getReadIndices] having no end then and no search being made.  The plan
    computed, it makes one search, over the indices of the plan, of at most
    [maxDocCount] documents whose timestamp is between the two instants,
    unavailable indices ignored.  An error of the search is returned
    wrapped; so is the error of the first hit that does not unmarshal, and
    nothing of the hits before or after it is returned; when every hit
    unmarshals, the throughputs of the hits are returned in the order of
    the answer. *)
Theorem GetThroughput_outcomes `{Dec : Decoding} (s : samplingstore.SamplingStore)
    (client : search.Searcher) (startTime endTime : GoTime.Time) :
  (forall fuel : nat,
     samplingstore_reads.GetThroughput fuel s client startTime endTime = None <->
     samplingstore.getReadIndices fuel s startTime endTime = None) /\
  (samplingstore.useDataStream s = true \/ Plan.name s endTime = Plan.name s startTime ->
   forall fuel : nat,
     samplingstore_reads.GetThroughput (S fuel) s client startTime endTime <> None) /\
  (samplingstore.useDataStream s = false ->
   samplingstore.indexRolloverFrequency s = 0 ->
   Plan.name s endTime <> Plan.name s startTime ->
   forall fuel : nat,
     samplingstore_reads.GetThroughput fuel s client startTime endTime = None) /\
  (forall (fuel : nat) (indices : list string),
     samplingstore.getReadIndices fuel s startTime endTime = Some indices ->
     let request :=
       {| search.ssIndices := indices;
          search.ssSize := Some (samplingstore.maxDocCount s);
          search.ssQuery := Some {| search.rqField := "timestamp";
                                    search.rqGte := startTime;
                                    search.rqLte := endTime |};
          search.ssIgnoreUnavailable := true |} in
     (forall other : search.Searcher,
        other request = client request ->
        samplingstore_reads.GetThroughput fuel s other startTime endTime
        = samplingstore_reads.GetThroughput fuel s client startTime endTime) /\
     (forall (hits : list Source) (err : es.error),
        client request = (hits, Some err) ->
        samplingstore_reads.GetThroughput fuel s client startTime endTime
        = Some ([], Some (es.errWrap "failed to search for throughputs" err))) /\
     (forall (good : list Source) (bad : Source) (rest : list Source) (err : es.error),
        client request = (good ++ bad :: rest, None) ->
        (forall hit, In hit good -> exists d, unmarshalTimeThroughput hit = inl d) ->
        unmarshalTimeThroughput bad = inr err ->
        samplingstore_reads.GetThroughput fuel s client startTime endTime
        = Some ([], Some (es.errWrap "unmarshalling documents failed" err))) /\
     (forall (hits : list Source) (output : list (GoTime.Time * dbThroughput)),
        client request = (hits, None) ->
        Forall2 (fun hit d => unmarshalTimeThroughput hit = inl d) hits output ->
        samplingstore_reads.GetThroughput fuel s client startTime endTime
        = Some (ToThroughputs (map snd output), None))).
Proof.
  assert (Hnone : forall fuel : nat,
     samplingstore_reads.GetThroughput fuel s client startTime endTime = None <->
     samplingstore.getReadIndices fuel s startTime endTime = None).
  { intros fuel. unfold samplingstore_reads.GetThroughput.
    destruct (samplingstore.getReadIndices fuel s startTime endTime) as [indices|];
      [|split; reflexivity].
    split; [|discriminate].
    destruct (snd (client _)); [discriminate|].
    destruct (search.unmarshalAll _ _); discriminate. }
  split; [exact Hnone|]. split; [|split].
  - intros Hplan fuel H. apply Hnone in H.
    destruct (samplingstore.useDataStream s) eqn:Hds.
    + unfold samplingstore.getReadIndices in H. rewrite Hds in H. discriminate H.
    + destruct Hplan as [Hplan | Hplan]; [discriminate Hplan|].
      rewrite (ReadPlanFacts.getReadIndices_same_name s fuel startTime endTime Hds Hplan) in H.
      discriminate H.
  - intros Hds Hzero Hne fuel. apply Hnone.
    unfold samplingstore.getReadIndices. rewrite Hds.
    now apply (ReadPlanFacts.readLoop_zero_frequency s fuel Hzero).
  - intros fuel indices Hplan request.
    assert (Hget : forall c : search.Searcher,
      samplingstore_reads.GetThroughput fuel s c startTime endTime =
      match snd (c request) with
      | Some err => Some ([], Some (es.errWrap "failed to search for throughputs" err))
      | None =>
          match search.unmarshalAll unmarshalTimeThroughput (fst (c request)) with
          | inr err => Some ([], Some (es.errWrap "unmarshalling documents failed" err))
          | inl output => Some (ToThroughputs (map snd output), None)
          end
      end).
    { intros c. unfold samplingstore_reads.GetThroughput. rewrite Hplan. reflexivity. }
    split; [|split; [|split]].
    + intros other Hsame. now rewrite !Hget, Hsame.
    + intros hits err Hans. now rewrite Hget, Hans.
    + intros good bad rest err Hans Hgood Hbad. rewrite Hget, Hans. simpl.
      now rewrite (SearchFacts.unmarshalAll_first_failure _ good bad rest err Hgood Hbad).
    + intros hits output Hans Hall. rewrite Hget, Hans. simpl.
      now rewrite (DecodeFacts.unmarshalAll_Forall2 _ hits output Hall).
Qed.

Lemma GetThroughput_outcomes_witness :
  samplingstore_reads.GetThroughput 0 Examples.streamStore
    (fun _ => ([MoreExamples.goodSource 10 "svc-a"; MoreExamples.badSource "eof";
                MoreExamples.goodSource 20 "svc-b"], None))
    (GoTime.Date 2025 1 1 0 0 0) (GoTime.Date 2025 1 3 0 0 0)
  = Some ([], Some (es.errWrap "unmarshalling documents failed"
                      (MoreExamples.sampleError "eof"))) /\
  samplingstore_reads.GetThroughput 1000 Examples.stuckStore
    (fun _ => ([MoreExamples.goodSource 10 "svc-a"], None))
    (GoTime.Date 2025 1 1 0 0 0) (GoTime.Date 2025 1 3 0 0 0)
  = None.
Proof.
  split.
  - apply (proj1 (proj2 (proj2
             (proj2 (proj2 (proj2
                (GetThroughput_outcomes (Dec := MoreExamples.sampleDecoding)
                   Examples.streamStore
                   (fun _ => ([MoreExamples.goodSource 10 "svc-a";
                               MoreExamples.badSource "eof";
                               MoreExamples.goodSource 20 "svc-b"], None))
                   (GoTime.Date 2025 1 1 0 0 0) (GoTime.Date 2025 1 3 0 0 0))))
                0%nat ["jaeger.sampling"; "jaeger-sampling-*"] eq_refl)))
           [MoreExamples.goodSource 10 "svc-a"] (MoreExamples.badSource "eof")
           [MoreExamples.goodSource 20 "svc-b"] (MoreExamples.sampleError "eof") eq_refl).
    + intros hit [<- | []]. eexists. reflexivity.
    + reflexivity.
  - apply (proj1 (proj2 (proj2
             (GetThroughput_outcomes (Dec := MoreExamples.sampleDecoding)
                Examples.stuckStore
                (fun _ => ([MoreExamples.goodSource 10 "svc-a"], None))
                (GoTime.Date 2025 1 1 0 0 0) (GoTime.Date 2025 1 3 0 0 0))))
           eq_refl eq_refl).
    intros E. vm_compute in E. discriminate E.
Defined.

(** X8. [GetDependencies] computes the read plan first, and has a result
    exactly when [getReadIndices] has one: always on aliases and when
    [endTs] and [endTs - lookback] get one name; never, on dated indices,
    with a frequency of zero and different names for the two, the loop of
    [getReadIndices] having no end then and no search being made.  The plan
    computed, it makes one search, over the indices of the plan, of at most
    [maxDocCount] documents whose timestamp is between [endTs - lookback]
    and [endTs], unavailable indices ignored.  An error of the search is
    returned wrapped; so is the error of the first hit that does not
    unmarshal, and no dependency of the hits before it is returned; when
    every hit unmarshals, the dependencies of the hits are returned, one
    hit after the other in the order of the answer. *)
Theorem GetDependencies_outcomes `{Dec : Decoding} (s : depstore.DependencyStore)
    (client : search.Searcher) (endTs : GoTime.Time) (lookback : GoTime.Duration) :
  let name := config.IndexWithDate (depstore.dependencyIndexPrefix s)
                (depstore.indexDateLayout s) in
  (forall fuel : nat,
     depstore_reads.GetDependencies fuel s client endTs lookback = None <->
     depstore_reads.getReadIndices fuel s endTs lookback = None) /\
  (depstore.useReadWriteAliases s = true \/
   name endTs = name (GoTime.Add endTs (GoTime.neg lookback)) ->
   forall fuel : nat,
     depstore_reads.GetDependencies (S fuel) s client endTs lookback <> None) /\
  (depstore.useReadWriteAliases s = false ->
   depstore.indexRolloverFrequency s = 0 ->
   name endTs <> name (GoTime.Add endTs (GoTime.neg lookback)) ->
   forall fuel : nat,
     depstore_reads.GetDependencies fuel s client endTs lookback = None) /\
  (forall (fuel : nat) (indices : list string),
     depstore_reads.getReadIndices fuel s endTs lookback = Some indices ->
     let request :=
       {| search.ssIndices := indices;
          search.ssSize := Some (depstore.maxDocCount s);
          search.ssQuery := Some {| search.rqField := "timestamp";
                                    search.rqGte := GoTime.Add endTs (GoTime.neg lookback);
                                    search.rqLte := endTs |};
          search.ssIgnoreUnavailable := true |} in
     (forall other : search.Searcher,
        other request = client request ->
        depstore_reads.GetDependencies fuel s other endTs lookback
        = depstore_reads.GetDependencies fuel s client endTs lookback) /\
     (forall (hits : list Source) (err : es.error),
        client request = (hits, Some err) ->
        depstore_reads.GetDependencies fuel s client endTs lookback
        = Some ([], Some (es.errWrap "failed to search for dependencies" err))) /\
     (forall (good : list Source) (bad : Source) (rest : list Source) (err : es.error),
        client request = (good ++ bad :: rest, None) ->
        (forall hit, In hit good -> exists d, unmarshalTimeDependencies hit = inl d) ->
        unmarshalTimeDependencies bad = inr err ->
        depstore_reads.GetDependencies fuel s client endTs lookback
        = Some ([], Some (es.errWrap "unmarshalling documents failed" err))) /\
     (forall (hits : list Source) (output : list (GoTime.Time * list DependencyLink)),
        client request = (hits, None) ->
        Forall2 (fun hit d => unmarshalTimeDependencies hit = inl d) hits output ->
        depstore_reads.GetDependencies fuel s client endTs lookback
        = Some (List.concat (map snd output), None))).
Proof.
  intros name.
  assert (Hnone : forall fuel : nat,
     depstore_reads.GetDependencies fuel s client endTs lookback = None <->
     depstore_reads.getReadIndices fuel s endTs lookback = None).
  { intros fuel. unfold depstore_reads.GetDependencies.
    destruct (depstore_reads.getReadIndices fuel s endTs lookback) as [indices|];
      [|split; reflexivity].
    split; [|discriminate].
    destruct (snd (client _)); [discriminate|].
    destruct (depstore_reads.collect _ _); discriminate. }
  split; [exact Hnone|]. split; [|split].
  - intros Hplan fuel H. apply Hnone in H.
    destruct (depstore.useReadWriteAliases s) eqn:Hal.
    + unfold depstore_reads.getReadIndices in H. rewrite Hal in H. discriminate H.
    + destruct Hplan as [Hplan | Hplan]; [discriminate Hplan|].
      rewrite (DependencyPlanFacts.getReadIndices_asSampling s (S fuel) endTs lookback Hal)
        in H.
      rewrite (ReadPlanFacts.getReadIndices_same_name (Bridge.asSampling s) fuel
                 (GoTime.Add endTs (GoTime.neg lookback)) endTs eq_refl Hplan) in H.
      discriminate H.
  - intros Hal Hzero Hne fuel. apply Hnone.
    rewrite (DependencyPlanFacts.getReadIndices_asSampling s fuel endTs lookback Hal).
    unfold samplingstore.getReadIndices. cbn [Bridge.asSampling samplingstore.useDataStream].
    apply (ReadPlanFacts.readLoop_zero_frequency (Bridge.asSampling s) fuel).
    + simpl. rewrite Hzero. reflexivity.
    + exact Hne.
  - intros fuel indices Hplan request.
    assert (Hget : forall c : search.Searcher,
      depstore_reads.GetDependencies fuel s c endTs lookback =
      match snd (c request) with
      | Some err => Some ([], Some (es.errWrap "failed to search for dependencies" err))
      | None =>
          match search.unmarshalAll unmarshalTimeDependencies (fst (c request)) with
          | inr err => Some ([], Some (es.errWrap "unmarshalling documents failed" err))
          | inl output => Some (List.concat (map snd output), None)
          end
      end).
    { intros c. unfold depstore_reads.GetDependencies. rewrite Hplan.
      change (search.IgnoreUnavailable _ true) with request.
      destruct (snd (c request)); [reflexivity|].
      rewrite SearchFacts.collect_unmarshalAll.
      now destruct (search.unmarshalAll unmarshalTimeDependencies (fst (c request))). }
    split; [|split; [|split]].
    + intros other Hsame. now rewrite !Hget, Hsame.
    + intros hits err Hans. now rewrite Hget, Hans.
    + intros good bad rest err Hans Hgood Hbad. rewrite Hget, Hans. simpl.
      now rewrite (SearchFacts.unmarshalAll_first_failure _ good bad rest err Hgood Hbad).
    + intros hits output Hans Hall. rewrite Hget, Hans. simpl.
      now rewrite (DecodeFacts.unmarshalAll_Forall2 _ hits output Hall).
Qed.

Lemma GetDependencies_outcomes_witness :
  depstore_reads.GetDependencies 1 Examples.datedDependencyStore
    (fun _ => ([MoreExamples.goodSource 10 "a->b"; MoreExamples.goodSource 20 "b->c"], None))
    (GoTime.Date 2025 1 1 12 0 0) GoTime.Hour
  = Some (["a->b"; "b->c"], None) /\
  depstore_reads.GetDependencies 1000 MoreExamples.stuckDependencyStore
    (fun _ => ([MoreExamples.goodSource 10 "a->b"], None))
    (GoTime.Date 2025 1 3 0 0 0) (2 * GoTime.Day)
  = None.
Proof.
  split.
  - apply (proj2 (proj2 (proj2
             (proj2 (proj2 (proj2
                (GetDependencies_outcomes (Dec := MoreExamples.sampleDecoding)
                   Examples.datedDependencyStore
                   (fun _ => ([MoreExamples.goodSource 10 "a->b";
                               MoreExamples.goodSource 20 "b->c"], None))
                   (GoTime.Date 2025 1 1 12 0 0) GoTime.Hour)))
                1%nat ["jaeger-dependencies-2025-01-01"] ltac:(vm_compute; reflexivity))))
           [MoreExamples.goodSource 10 "a->b"; MoreExamples.goodSource 20 "b->c"]
           [(MoreExamples.sampleTime 10, ["a->b"]); (MoreExamples.sampleTime 20, ["b->c"])]
           eq_refl).
    repeat constructor.
  - apply (proj1 (proj2 (proj2
             (GetDependencies_outcomes (Dec := MoreExamples.sampleDecoding)
                MoreExamples.stuckDependencyStore
                (fun _ => ([MoreExamples.goodSource 10 "a->b"], None))
                (GoTime.Date 2025 1 3 0 0 0) (2 * GoTime.Day))))
           eq_refl eq_refl).
    intros E. vm_compute in E. discriminate E.
Defined.

(** X9. [GetLatestProbabilities], the latest indices found and searched
    without error and every hit unmarshalling: the probabilities returned
    are those of the first of the hits with the latest timestamp, provided
    that timestamp is after the zero time; when no hit has a timestamp
    after the zero time, and when there is no hit, the nil map is
    returned.  No error is returned. *)
Theorem GetLatestProbabilities_latest `{Dec : Decoding} {St : Type}
    (cl : es.Client St) (st : St) (fuel : nat) (s : samplingstore.SamplingStore)
    (client : search.Searcher) (now : GoTime.Time) (indices : list string)
    (hits : list Source)
    (output : list (GoTime.Time * (ServiceOperationProbabilities * ServiceOperationQPS))) :
  es.result (es.run cl (samplingstore.getLatestIndices fuel s now) st)
  = Some (indices, None) ->
  client {| search.ssIndices := indices;
            search.ssSize := Some (samplingstore.maxDocCount s);
            search.ssQuery := None;
            search.ssIgnoreUnavailable := true |} = (hits, None) ->
  Forall2 (fun hit d => unmarshalTimeProbabilitiesAndQPS hit = inl d) hits output ->
  exists probabilities : ServiceOperationProbabilities,
    es.result (es.run cl (samplingstore_reads.GetLatestProbabilities fuel s client now) st)
    = Some (probabilities, None) /\
    ((probabilities = nilProbabilities /\
      forall d, In d output ->
        GoTime.unixNano (fst d) <= GoTime.unixNano TimeOrder.zeroTime) \/
     (exists pre best post,
        output = pre ++ best :: post /\
        probabilities = fst (snd best) /\
        GoTime.unixNano TimeOrder.zeroTime < GoTime.unixNano (fst best) /\
        (forall d, In d pre -> GoTime.unixNano (fst d) < GoTime.unixNano (fst best)) /\
        (forall d, In d post -> GoTime.unixNano (fst d) <= GoTime.unixNano (fst best)))).
Proof.
  intros Hidx Hans Hall.
  unfold samplingstore_reads.GetLatestProbabilities.
  rewrite WriteFacts.result_bind, Hidx. simpl.
  unfold samplingstore_reads.latestProbabilitiesOf.
  change (search.IgnoreUnavailable _ true)
    with {| search.ssIndices := indices;
            search.ssSize := Some (samplingstore.maxDocCount s);
            search.ssQuery := None;
            search.ssIgnoreUnavailable := true |}.
  rewrite Hans. simpl.
  destruct hits as [|hit hits].
  - inversion Hall; subst. exists nilProbabilities. split; [reflexivity|].
    left. split; [reflexivity | intros d []].
  - cbn [length Nat.eqb].
    destruct (SearchFacts.latestOf_latest (hit :: hits) output TimeOrder.zeroTime
                (TimeOrder.zeroTime, (nilProbabilities, nilQPS))
                (DecodeFacts.unmarshalAll_Forall2 _ _ _ Hall))
      as (best & -> & [[-> Hle] | (pre & post & -> & Hlt & Hpre & Hpost)]).
    + exists nilProbabilities. split; [reflexivity|]. left. split; [reflexivity|exact Hle].
    + exists (fst (snd best)). split; [reflexivity|]. right.
      exists pre, best, post. repeat (split; [assumption || reflexivity|]). exact Hpost.
Qed.

Lemma GetLatestProbabilities_latest_witness :
  es.result (es.run (es.cluster 7)
    (samplingstore_reads.GetLatestProbabilities 0 Examples.streamStore
       (fun _ => ([MoreExamples.goodSource 100 "first"; MoreExamples.goodSource 300 "second";
                   MoreExamples.goodSource 300 "third"; MoreExamples.goodSource 200 "fourth"],
                  None))
       (GoTime.Date 2025 1 1 0 0 0)) ∅)
  = Some ("second", None).
Proof.
  destruct (GetLatestProbabilities_latest (Dec := MoreExamples.sampleDecoding)
              (es.cluster 7) ∅ 0 Examples.streamStore
              (fun _ => ([MoreExamples.goodSource 100 "first";
                          MoreExamples.goodSource 300 "second";
                          MoreExamples.goodSource 300 "third";
                          MoreExamples.goodSource 200 "fourth"], None))
              (GoTime.Date 2025 1 1 0 0 0) ["jaeger.sampling"; "jaeger-sampling-*"]
              [MoreExamples.goodSource 100 "first"; MoreExamples.goodSource 300 "second";
               MoreExamples.goodSource 300 "third"; MoreExamples.goodSource 200 "fourth"]
              [(MoreExamples.sampleTime 100, ("first", "first"));
               (MoreExamples.sampleTime 300, ("second", "second"));
               (MoreExamples.sampleTime 300, ("third", "third"));
               (MoreExamples.sampleTime 200, ("fourth", "fourth"))]
              eq_refl eq_refl ltac:(repeat constructor))
    as (probabilities & Hres & _).
  rewrite Hres. vm_compute in Hres. injection Hres as <-. reflexivity.
Defined.

(** X10. The read operations return no data together with an error: the
    throughputs and the dependencies returned with an error are the empty
    list, and the probabilities returned with an error are the nil map. *)
Theorem reads_return_no_data_with_an_error `{Dec : Decoding} :
  (forall (fuel : nat) (s : samplingstore.SamplingStore) (client : search.Searcher)
          (startTime endTime : GoTime.Time) (data : list Throughput) (err : es.error),
     samplingstore_reads.GetThroughput fuel s client startTime endTime
     = Some (data, Some err) -> data = []) /\
  (forall (fuel : nat) (s : depstore.DependencyStore) (client : search.Searcher)
          (endTs : GoTime.Time) (lookback : GoTime.Duration)
          (data : list DependencyLink) (err : es.error),
     depstore_reads.GetDependencies fuel s client endTs lookback
     = Some (data, Some err) -> data = []) /\
  (forall (St : Type) (cl : es.Client St) (st : St) (fuel : nat)
          (s : samplingstore.SamplingStore) (client : search.Searcher)
          (now : GoTime.Time) (data : ServiceOperationProbabilities) (err : es.error),
     es.result (es.run cl (samplingstore_reads.GetLatestProbabilities fuel s client now) st)
     = Some (data, Some err) -> data = nilProbabilities).
Proof.
  split; [|split].
  - intros fuel s client startTime endTime data err.
    unfold samplingstore_reads.GetThroughput.
    destruct (samplingstore.getReadIndices fuel s startTime endTime); [|discriminate].
    destruct (snd (client _)); [intros H; now injection H as <- _|].
    destruct (search.unmarshalAll _ _); [discriminate | intros H; now injection H as <- _].
  - intros fuel s client endTs lookback data err.
    unfold depstore_reads.GetDependencies.
    destruct (depstore_reads.getReadIndices fuel s endTs lookback); [|discriminate].
    destruct (snd (client _)); [intros H; now injection H as <- _|].
    destruct (depstore_reads.collect _ _); [discriminate | intros H; now injection H as <- _].
  - intros St cl st fuel s client now data err.
    unfold samplingstore_reads.GetLatestProbabilities.
    rewrite WriteFacts.result_bind.
    destruct (es.result (es.run cl (samplingstore.getLatestIndices fuel s now) st))
      as [[indices [e|]]|]; simpl.
    + intros H. now injection H as <- _.
    + unfold samplingstore_reads.latestProbabilitiesOf.
      destruct (snd (client _)); [intros H; now injection H as <- _|].
      destruct (Nat.eqb _ 0); [discriminate|].
      destruct (samplingstore_reads.latestOf _ _ _);
        [discriminate | intros H; now injection H as <- _].
    + discriminate.
Qed.

Lemma reads_return_no_data_with_an_error_witness :
  match samplingstore_reads.GetThroughput 0 Examples.streamStore
          (fun _ => ([MoreExamples.goodSource 10 "svc-a"; MoreExamples.badSource "eof"], None))
          (GoTime.Date 2025 1 1 0 0 0) (GoTime.Date 2025 1 3 0 0 0)
  with
  | Some (data, _) => data
  | None => ["no result"]
  end = [].
Proof.
  apply (proj1 (reads_return_no_data_with_an_error (Dec := MoreExamples.sampleDecoding))
           0%nat Examples.streamStore
           (fun _ => ([MoreExamples.goodSource 10 "svc-a"; MoreExamples.badSource "eof"], None))
           (GoTime.Date 2025 1 1 0 0 0) (GoTime.Date 2025 1 3 0 0 0) _
           (es.errWrap "unmarshalling documents failed" (MoreExamples.sampleError "eof"))).
  vm_compute. reflexivity.
Defined.

(** ** Bytes of a concatenation *)

Module ContainsFacts.
Import Strings StringFacts.

Lemma ContainsByte_append (a b : string) (c : ascii) :
  ContainsByte (a +:+ b) c = ContainsByte a c || ContainsByte b c.
Proof.
  induction a as [|x a IH]; [reflexivity|].
  rewrite append_cons. simpl. now rewrite IH, orb_assoc.
Qed.

End ContainsFacts.

(** X11. What is written is read: the index the sampling store writes an
    instant to is among the indices [getReadIndices] plans for any range
    that holds the instant.  On a data stream this holds as it stands; on
    dated indices it holds when the frequency is the period of the layout,
    negated, and the fuel reaches the number of periods of the range. *)
Theorem getReadIndices_covers_writes `{Ext : Externals}
    (s : samplingstore.SamplingStore) (startTime endTime ts : GoTime.Time) :
  GoTime.unixNano startTime <= GoTime.unixNano ts <= GoTime.unixNano endTime ->
  (samplingstore.useDataStream s = true ->
   forall fuel : nat,
   exists plan : list string,
     samplingstore.getReadIndices fuel s startTime endTime = Some plan /\
     In (samplingstore.getWriteIndex s ts) plan) /\
  (samplingstore.useDataStream s = false ->
   forall P lo hi : Z,
     Periods.periodicOn (samplingstore.indexDateLayout s) P lo hi ->
     samplingstore.indexRolloverFrequency s = - P ->
     lo + P <= GoTime.unixNano startTime ->
     GoTime.unixNano endTime <= hi ->
     forall fuel : nat,
       (Plan.span P startTime endTime < fuel)%nat ->
       exists plan : list string,
         samplingstore.getReadIndices fuel s startTime endTime = Some plan /\
         In (samplingstore.getWriteIndex s ts) plan /\
         Z.of_nat (length plan)
         = GoTime.unixNano endTime / P - GoTime.unixNano startTime / P + 1).
Proof.
  intros Hts. split.
  - intros Hds fuel. unfold samplingstore.getReadIndices, samplingstore.getWriteIndex.
    rewrite Hds. eexists. split; [reflexivity|]. now left.
  - intros Hds P lo hi Hper Hfreq Hlo Hhi fuel Hfuel.
    assert (Hord : GoTime.unixNano startTime <= GoTime.unixNano endTime) by lia.
    exists (Plan.walk s P endTime (Plan.span P startTime endTime)).
    split; [|split].
    + now apply (ReadPlanFacts.getReadIndices_walk s P lo hi Hper Hfreq
                   startTime endTime Hds Hlo Hord Hhi).
    + unfold samplingstore.getWriteIndex. rewrite Hds.
      apply (ReadPlanFacts.walk_covers s P lo hi Hper startTime endTime Hlo Hord Hhi).
      exists ts. split; [exact Hts | reflexivity].
    + unfold Plan.walk. rewrite length_map, length_seq, Nat2Z.inj_succ.
      rewrite (ReadPlanFacts.span_spec s P lo hi Hper startTime endTime Hord). lia.
Qed.

Lemma getReadIndices_covers_writes_witness :
  exists plan : list string,
    samplingstore.getReadIndices 4 MoreExamples.hourlyStore
      (GoTime.Date 2025 1 1 22 30 0) (GoTime.Date 2025 1 2 1 10 0) = Some plan /\
    In (samplingstore.getWriteIndex MoreExamples.hourlyStore (GoTime.Date 2025 1 1 23 59 59))
       plan /\
    Z.of_nat (length plan)
    = GoTime.unixNano (GoTime.Date 2025 1 2 1 10 0) / GoTime.Hour
      - GoTime.unixNano (GoTime.Date 2025 1 1 22 30 0) / GoTime.Hour + 1.
Proof.
  refine (proj2 (getReadIndices_covers_writes (Ext := Examples.sampleExternals)
                   MoreExamples.hourlyStore
                   (GoTime.Date 2025 1 1 22 30 0) (GoTime.Date 2025 1 2 1 10 0)
                   (GoTime.Date 2025 1 1 23 59 59) _) eq_refl
            GoTime.Hour Periods.firstInstant Periods.lastInstant
            HourlyFacts.hourly_periodicOn eq_refl _ _ 4%nat _).
  - split; apply Z.leb_le; vm_compute; reflexivity.
  - apply Z.leb_le. vm_compute. reflexivity.
  - apply Z.leb_le. vm_compute. reflexivity.
  - vm_compute. lia.
Defined.

(** X12. The calls of [getLatestIndices].  On a data stream it makes none
    and returns the data stream and its legacy wildcard.  On dated indices
    a run that returns has made existence checks only, for the indices of
    [now], [now + frequency], [now + 2 frequency], ... in this order; all
    but the last were answered "absent, no error"; the result is decided by
    the answer to the last: at most one index is returned, never together
    with an error, and it is the index the last check found to exist.
    When [now] and [now - lookback] get one name, a single check is
    made. *)
Theorem getLatestIndices_calls `{Ext : Externals} {St : Type}
    (cl : es.Client St) (st : St) (s : samplingstore.SamplingStore)
    (now : GoTime.Time) :
  (samplingstore.useDataStream s = true ->
   forall fuel : nat,
     es.run cl (samplingstore.getLatestIndices fuel s now) st
     = (Some ([samplingstore.samplingIndexPrefix s;
               config.GetDataStreamLegacyWildcard (samplingstore.samplingIndexPrefix s)],
              None), st, [])) /\
  (samplingstore.useDataStream s = false ->
   forall (fuel : nat) (r : list string * option es.error) (st' : St)
          (evs : list es.Event),
     es.run cl (samplingstore.getLatestIndices fuel s now) st = (Some r, st', evs) ->
     exists (n : nat) (ans : bool * option es.error),
       let last :=
         Plan.name s (GoTime.Add (GoTime.UTC now)
                        (Z.of_nat n * samplingstore.indexRolloverFrequency s)) in
       (n < fuel)%nat /\
       evs = Bridge.absentChecks s (GoTime.UTC now) n ++ [es.EvIndexExists last ans] /\
       r = Bridge.outcome last ans /\
       (fst r = [] \/ (fst r = [last] /\ snd r = None /\ ans = (true, None)))) /\
  (samplingstore.useDataStream s = false ->
   Plan.name s (GoTime.Add (GoTime.UTC now) (GoTime.neg (samplingstore.lookback s)))
   = Plan.name s (GoTime.UTC now) ->
   forall fuel : nat,
   exists ans : bool * option es.error,
     es.events (es.run cl (samplingstore.getLatestIndices (S fuel) s now) st)
     = [es.EvIndexExists (Plan.name s (GoTime.UTC now)) ans] /\
     es.result (es.run cl (samplingstore.getLatestIndices (S fuel) s now) st)
     = Some (Bridge.outcome (Plan.name s (GoTime.UTC now)) ans)).
Proof.
  split; [|split].
  - intros Hds fuel. unfold samplingstore.getLatestIndices. now rewrite Hds.
  - intros Hds fuel r st' evs Hrun.
    unfold samplingstore.getLatestIndices in Hrun. rewrite Hds in Hrun.
    destruct (ScanFacts.latestLoop_any s cl fuel _ _ _ _ _ _ Hrun)
      as (n & ans & Hn & Hevs & _ & Hr & _).
    exists n, ans. cbn zeta. split; [exact Hn|]. split; [exact Hevs|].
    split; [exact Hr|]. rewrite Hr. unfold Bridge.outcome.
    destruct ans as [b [e|]]; simpl; [now left|].
    destruct b; [right; now repeat split | now left].
  - intros Hds Hname fuel.
    unfold samplingstore.getLatestIndices. rewrite Hds.
    change (config.IndexWithDate (samplingstore.samplingIndexPrefix s)
              (samplingstore.indexDateLayout s)
              (GoTime.Add (GoTime.UTC now) (GoTime.neg (samplingstore.lookback s))))
      with (Plan.name s (GoTime.Add (GoTime.UTC now)
                           (GoTime.neg (samplingstore.lookback s)))).
    rewrite Hname.
    destruct (ScanFacts.latestLoop_one_check s cl fuel (GoTime.UTC now) st)
      as (ans & Hres & Hevs).
    exists ans. split; assumption.
Qed.

Lemma getLatestIndices_calls_witness :
  exists ans : bool * option es.error,
    es.events (es.run (es.cluster 7)
                 (samplingstore.getLatestIndices 1 MoreExamples.hourLookbackStore
                    (GoTime.Date 2025 1 10 6 0 0)) ∅)
    = [es.EvIndexExists "jaeger-sampling-2025-01-10" ans] /\
    es.result (es.run (es.cluster 7)
                 (samplingstore.getLatestIndices 1 MoreExamples.hourLookbackStore
                    (GoTime.Date 2025 1 10 6 0 0)) ∅)
    = Some (Bridge.outcome "jaeger-sampling-2025-01-10" ans).
Proof.
  refine (proj2 (proj2 (getLatestIndices_calls (Ext := Examples.sampleExternals)
                          (es.cluster 7) ∅ MoreExamples.hourLookbackStore
                          (GoTime.Date 2025 1 10 6 0 0))) eq_refl _ 0%nat).
  vm_compute. reflexivity.
Defined.

(** ** What a scan returns *)

Module ScanResultFacts.
Import es Scan.

Lemma Scanned_found `{Ext : Externals} (names : list string) (evs : list Event)
    (r : list string * option error) :
  Scanned names evs r ->
  forall x, In x (fst r) ->
    In x names /\ In (EvIndexExists x (true, None)) evs /\ snd r = None.
Proof.
  induction 1 as [index rest | index rest b e | index | index rest evs r Hne _ IH];
    intros x Hx; simpl in Hx.
  - destruct Hx as [<- | []]. repeat split; now left.
  - destruct Hx.
  - destruct Hx.
  - destruct (IH x Hx) as (Hin & Hev & Hnil). repeat split; [now right | now right | exact Hnil].
Qed.

End ScanResultFacts.

(** X13. [WriteDependencies] against a cluster that never fails, no other
    writer at work between its calls: no error is returned, the index
    written to exists afterwards and no other index has appeared; on dated
    indices the creation of the index is asked for exactly when the index
    is absent, so that a second write of the same instant finds the index
    and does not ask again. *)
Theorem WriteDependencies_alone `{Ext : Externals} (version : Z) (st : gset string)
    (s : depstore.DependencyStore) (ts : GoTime.Time)
    (dependencies : list DependencyLink) :
  let index := depstore.getWriteIndex s ts in
  let w := depstore.dependencyWrite s ts dependencies in
  let r := es.run (es.cluster version) (depstore.WriteDependencies s ts dependencies) st in
  es.result r = None /\
  es.state r = {[index]} ∪ st /\
  es.writes (es.events r) = [w] /\
  (depstore.useReadWriteAliases s = false ->
   (index ∈ st ->
    es.events r = [es.EvIndexExists index (true, None); es.EvAdd w]) /\
   (index ∉ st ->
    es.events r = [es.EvIndexExists index (false, None); es.EvCreateIndex index None;
                   es.EvAdd w]) /\
   (forall (ts' : GoTime.Time) (dependencies' : list DependencyLink),
      depstore.getWriteIndex s ts' = index ->
      existsb es.isCreateEvent
        (es.events (es.run (es.cluster version)
                      (depstore.WriteDependencies s ts' dependencies') (es.state r)))
      = false)).
Proof.
  cbn zeta.
  assert (Hdated : depstore.useReadWriteAliases s = false ->
    forall (st0 : gset string) (ts0 : GoTime.Time) (deps0 : list DependencyLink),
      es.run (es.cluster version) (depstore.WriteDependencies s ts0 deps0) st0 =
      if bool_decide (depstore.getWriteIndex s ts0 ∈ st0)
      then (None, {[depstore.getWriteIndex s ts0]} ∪ st0,
            [es.EvIndexExists (depstore.getWriteIndex s ts0) (true, None);
             es.EvAdd (depstore.dependencyWrite s ts0 deps0)])
      else (None, {[depstore.getWriteIndex s ts0]} ∪ ({[depstore.getWriteIndex s ts0]} ∪ st0),
            [es.EvIndexExists (depstore.getWriteIndex s ts0) (false, None);
             es.EvCreateIndex (depstore.getWriteIndex s ts0) None;
             es.EvAdd (depstore.dependencyWrite s ts0 deps0)])).
  { intros Hal st0 ts0 deps0.
    pose proof (WriteFacts.WriteDependencies_dated s ts0 deps0 (es.cluster version) st0 Hal)
      as H.
    cbn zeta in H. simpl in H.
    destruct (bool_decide (depstore.getWriteIndex s ts0 ∈ st0)) eqn:E; simpl in H.
    - exact H.
    - exact H. }
  destruct (depstore.useReadWriteAliases s) eqn:Hal.
  - rewrite (WriteFacts.WriteDependencies_alias s ts dependencies (es.cluster version) st Hal).
    split; [reflexivity|]. split; [reflexivity|]. split; [reflexivity|].
    intros H. discriminate H.
  - rewrite (Hdated eq_refl st ts dependencies).
    destruct (bool_decide (depstore.getWriteIndex s ts ∈ st)) eqn:E.
    + apply bool_decide_eq_true in E.
      split; [reflexivity|]. split; [reflexivity|]. split; [reflexivity|].
      intros _. split; [reflexivity|]. split; [intros Hn; contradiction|].
      intros ts' deps' Hsame. rewrite (Hdated eq_refl _ ts' deps'), Hsame.
      unfold es.state. simpl.
      rewrite bool_decide_eq_true_2
        by (apply elem_of_union; left; now apply elem_of_singleton).
      reflexivity.
    + apply bool_decide_eq_false in E.
      split; [reflexivity|]. split; [unfold es.state; simpl; now rewrite (assoc_L (∪)), (idemp_L (∪))|].
      split; [reflexivity|].
      intros _. split; [intros Hin; contradiction|]. split; [reflexivity|].
      intros ts' deps' Hsame. rewrite (Hdated eq_refl _ ts' deps'), Hsame.
      unfold es.state. simpl.
      rewrite bool_decide_eq_true_2
        by (apply elem_of_union; left; now apply elem_of_singleton).
      reflexivity.
Qed.

Lemma WriteDependencies_alone_witness :
  es.events (es.run (es.cluster 7)
               (depstore.WriteDependencies Examples.datedDependencyStore
                  (GoTime.Date 2025 1 1 0 0 0) ["a->b"]) ∅)
  = [es.EvIndexExists "jaeger-dependencies-2025-01-01" (false, None);
     es.EvCreateIndex "jaeger-dependencies-2025-01-01" None;
     es.EvAdd (depstore.dependencyWrite Examples.datedDependencyStore
                 (GoTime.Date 2025 1 1 0 0 0) ["a->b"])].
Proof.
  refine (proj1 (proj2 (proj2 (proj2 (proj2
            (WriteDependencies_alone (Ext := Examples.sampleExternals) 7 ∅
               Examples.datedDependencyStore (GoTime.Date 2025 1 1 0 0 0) ["a->b"])))
            eq_refl)) _).
  apply not_elem_of_empty.
Defined.

(** X14. The legacy wildcard of the sampling data stream, the index prefix
    being applied by prepending a string to the base name.  The read plan
    of the data-stream store is the data stream and the wildcard.  When the
    prepended string has no dot the wildcard is that string, the base name
    of the dated indices and "-*"; when it has one, the dot replaced is the
    first of the prepended string and the base name of the data stream stays
    in the wildcard as it is. *)
Theorem sampling_legacy_wildcard `{Ext : Externals} (p : samplingstore.Params)
    (pre : string) :
  (forall base : string, Apply (samplingstore.IndexPrefix_ p) base = pre +:+ base) ->
  samplingstore.UseDataStream p = true ->
  let s := samplingstore.NewSamplingStore p in
  let wildcard := config.GetDataStreamLegacyWildcard (samplingstore.samplingIndexPrefix s) in
  (forall (fuel : nat) (startTime endTime : GoTime.Time),
     samplingstore.getReadIndices fuel s startTime endTime
     = Some [pre +:+ "jaeger.sampling"; wildcard]) /\
  (Strings.ContainsByte pre "." = false ->
   wildcard = pre +:+ samplingstore.samplingIndexBaseName +:+ "-*") /\
  (forall a b : string,
     pre = a +:+ "." +:+ b ->
     Strings.ContainsByte a "." = false ->
     wildcard = a +:+ "-" +:+ b +:+ "jaeger.sampling" +:+ "-*").
Proof.
  intros Happly Hds s wildcard.
  assert (Hprefix : samplingstore.samplingIndexPrefix s = pre +:+ "jaeger.sampling").
  { unfold s, samplingstore.NewSamplingStore. rewrite Hds. simpl. apply Happly. }
  split; [|split].
  - intros fuel startTime endTime. unfold samplingstore.getReadIndices.
    unfold wildcard. rewrite <- Hprefix.
    unfold s at 1, samplingstore.NewSamplingStore. rewrite Hds. reflexivity.
  - intros Hdot. unfold wildcard, config.GetDataStreamLegacyWildcard. rewrite Hprefix.
    change (pre +:+ "jaeger.sampling") with (pre +:+ ("jaeger" +:+ "." +:+ "sampling")).
    rewrite <- StringFacts.append_assoc.
    rewrite ReplaceFacts.Replace_first_dot.
    + unfold samplingstore.samplingIndexBaseName.
      change "jaeger-sampling" with ("jaeger" +:+ "-" +:+ "sampling").
      now rewrite !StringFacts.append_assoc.
    + rewrite ContainsFacts.ContainsByte_append, Hdot. reflexivity.
  - intros a b -> Hdot. unfold wildcard, config.GetDataStreamLegacyWildcard.
    rewrite Hprefix. rewrite !StringFacts.append_assoc.
    rewrite (ReplaceFacts.Replace_first_dot a (b +:+ "jaeger.sampling") Hdot).
    now rewrite !StringFacts.append_assoc.
Qed.

Lemma sampling_legacy_wildcard_witness :
  config.GetDataStreamLegacyWildcard
    (samplingstore.samplingIndexPrefix Examples.streamStore)
  = "jaeger-sampling-*".
Proof.
  exact (proj1 (proj2 (sampling_legacy_wildcard (Ext := Examples.sampleExternals)
                         (Examples.samplingParams (- GoTime.Day) (7 * GoTime.Day) true)
                         "" (fun base => eq_refl) eq_refl)) eq_refl).
Defined.

(** X15. On dated indices, the frequency being the period of the layout,
    negated: the index [getLatestIndices] returns is one of the indices
    [getReadIndices] plans for the range from [now - lookback] to [now],
    and the search engine has answered that it exists. *)
Theorem latest_index_is_planned `{Ext : Externals} {St : Type}
    (cl : es.Client St) (st : St) (s : samplingstore.SamplingStore)
    (now : GoTime.Time) (P lo hi : Z) (fuel : nat) :
  samplingstore.useDataStream s = false ->
  Periods.periodicOn (samplingstore.indexDateLayout s) P lo hi ->
  samplingstore.indexRolloverFrequency s = - P ->
  0 <= samplingstore.lookback s <= GoTime.maxInt64 ->
  lo + P <= GoTime.unixNano now - samplingstore.lookback s ->
  GoTime.unixNano now <= hi ->
  let earliest := GoTime.Add (GoTime.UTC now) (- samplingstore.lookback s) in
  (Plan.span P earliest (GoTime.UTC now) < fuel)%nat ->
  exists (plan : list string) (r : list string * option es.error),
    samplingstore.getReadIndices fuel s earliest (GoTime.UTC now) = Some plan /\
    es.result (es.run cl (samplingstore.getLatestIndices fuel s now) st) = Some r /\
    forall index : string,
      In index (fst r) ->
      In index plan /\
      In (es.EvIndexExists index (true, None))
         (es.events (es.run cl (samplingstore.getLatestIndices fuel s now) st)) /\
      snd r = None.
Proof.
  intros Hds Hper Hfreq Hlook Hlo Hhi earliest Hfuel.
  destruct (LatestFacts.getLatestIndices_scan s P lo hi Hper Hfreq now Hds Hlook Hlo Hhi
              cl st fuel Hfuel) as (r & st' & evs & Hrun & Hscan).
  exists (Plan.walk s P (GoTime.UTC now) (Plan.span P earliest (GoTime.UTC now))), r.
  split; [|split].
  - apply (ReadPlanFacts.getReadIndices_walk s P lo hi Hper Hfreq earliest (GoTime.UTC now)
             Hds); [unfold earliest; simpl; lia | unfold earliest; simpl; lia
                   | exact Hhi | exact Hfuel].
  - now rewrite Hrun.
  - intros index Hin. rewrite Hrun.
    exact (ScanResultFacts.Scanned_found _ _ _ Hscan index Hin).
Qed.

Lemma latest_index_is_planned_witness :
  exists (plan : list string) (r : list string * option es.error),
    samplingstore.getReadIndices 8 Examples.dailyStore
      (GoTime.Add (GoTime.UTC (GoTime.Date 2025 1 10 6 0 0))
         (- samplingstore.lookback Examples.dailyStore))
      (GoTime.UTC (GoTime.Date 2025 1 10 6 0 0)) = Some plan /\
    es.result (es.run (es.cluster 7)
                 (samplingstore.getLatestIndices 8 Examples.dailyStore
                    (GoTime.Date 2025 1 10 6 0 0))
                 {["jaeger-sampling-2025-01-08"]}) = Some r /\
    forall index : string,
      In index (fst r) ->
      In index plan /\
      In (es.EvIndexExists index (true, None))
         (es.events (es.run (es.cluster 7)
                       (samplingstore.getLatestIndices 8 Examples.dailyStore
                          (GoTime.Date 2025 1 10 6 0 0))
                       {["jaeger-sampling-2025-01-08"]})) /\
      snd r = None.
Proof.
  refine (latest_index_is_planned (Ext := Examples.sampleExternals)
            (es.cluster 7) {["jaeger-sampling-2025-01-08"]} Examples.dailyStore
            (GoTime.Date 2025 1 10 6 0 0) GoTime.Day Periods.firstInstant
            Periods.lastInstant 8 eq_refl PeriodFacts.daily_periodicOn eq_refl _ _ _ _).
  - split; apply Z.leb_le; vm_compute; reflexivity.
  - apply Z.leb_le. vm_compute. reflexivity.
  - apply Z.leb_le. vm_compute. reflexivity.
  - vm_compute. lia.
Defined.

(** X16. On dated indices [getReadIndices] of the dependency store returns
    a plan exactly when one of the instants [endTs], [endTs - frequency],
    [endTs - 2 frequency], ... gets the name of [endTs - lookback]; the
    plan is then the names of these instants up to the first such one: it
    begins with the index of [endTs] and ends with the index of
    [endTs - lookback].  With a frequency of zero and two instants of
    different names no plan is ever returned. *)
Theorem dependency_getReadIndices_returns_steps `{Dec : Decoding}
    (s : depstore.DependencyStore) (endTs : GoTime.Time) (lookback : GoTime.Duration) :
  depstore.useReadWriteAliases s = false ->
  let name := config.IndexWithDate (depstore.dependencyIndexPrefix s)
                (depstore.indexDateLayout s) in
  let back := GoTime.neg (depstore.indexRolloverFrequency s) in
  let firstIndex := name (GoTime.Add endTs (GoTime.neg lookback)) in
  (forall (fuel : nat) (plan : list string),
     depstore_reads.getReadIndices fuel s endTs lookback = Some plan <->
     exists n : nat,
       (n < fuel)%nat /\
       name (GoTime.Add endTs (Z.of_nat n * back)) = firstIndex /\
       (forall k : nat, (k < n)%nat ->
          name (GoTime.Add endTs (Z.of_nat k * back)) <> firstIndex) /\
       plan = map (fun k => name (GoTime.Add endTs (Z.of_nat k * back))) (seq 0 (S n))) /\
  (forall (fuel : nat) (plan : list string),
     depstore_reads.getReadIndices fuel s endTs lookback = Some plan ->
     hd_error plan = Some (name endTs) /\
     List.last plan "" = firstIndex /\
     (1 <= length plan <= fuel)%nat) /\
  (depstore.indexRolloverFrequency s = 0 ->
   name endTs <> firstIndex ->
   forall fuel : nat, depstore_reads.getReadIndices fuel s endTs lookback = None).
Proof.
  intros Hal name back firstIndex.
  assert (Hiff : forall (fuel : nat) (plan : list string),
     depstore_reads.getReadIndices fuel s endTs lookback = Some plan <->
     exists n : nat,
       (n < fuel)%nat /\
       name (GoTime.Add endTs (Z.of_nat n * back)) = firstIndex /\
       (forall k : nat, (k < n)%nat ->
          name (GoTime.Add endTs (Z.of_nat k * back)) <> firstIndex) /\
       plan = map (fun k => name (GoTime.Add endTs (Z.of_nat k * back))) (seq 0 (S n))).
  { intros fuel plan.
    rewrite (DependencyPlanFacts.getReadIndices_asSampling s fuel endTs lookback Hal).
    unfold samplingstore.getReadIndices. cbn [Bridge.asSampling samplingstore.useDataStream].
    apply (StepFacts.readLoop_steps (Bridge.asSampling s) fuel firstIndex endTs [] plan). }
  split; [exact Hiff|]. split.
  - intros fuel plan H. apply Hiff in H. destruct H as (n & Hn & Hlast & _ & ->).
    change (map (fun k => name (GoTime.Add endTs (Z.of_nat k * back))) (seq 0 (S n)))
      with (Bridge.steps (Bridge.asSampling s) endTs n).
    split; [|split].
    + destruct n; [now rewrite StepFacts.steps_zero | now rewrite StepFacts.steps_succ].
    + rewrite StepFacts.steps_last. exact Hlast.
    + rewrite StepFacts.length_steps. lia.
  - intros Hzero Hne fuel.
    rewrite (DependencyPlanFacts.getReadIndices_asSampling s fuel endTs lookback Hal).
    unfold samplingstore.getReadIndices. cbn [Bridge.asSampling samplingstore.useDataStream].
    apply (ReadPlanFacts.readLoop_zero_frequency (Bridge.asSampling s) fuel).
    + simpl. rewrite Hzero. reflexivity.
    + exact Hne.
Qed.

Lemma dependency_getReadIndices_returns_steps_witness :
  hd_error ["jaeger-dependencies-2025-01-03"; "jaeger-dependencies-2025-01-02"]
  = Some (config.IndexWithDate
            (depstore.dependencyIndexPrefix Examples.datedDependencyStore)
            (depstore.indexDateLayout Examples.datedDependencyStore)
            (GoTime.Date 2025 1 3 12 0 0)) /\
  List.last ["jaeger-dependencies-2025-01-03"; "jaeger-dependencies-2025-01-02"] ""
  = config.IndexWithDate
      (depstore.dependencyIndexPrefix Examples.datedDependencyStore)
      (depstore.indexDateLayout Examples.datedDependencyStore)
      (GoTime.Add (GoTime.Date 2025 1 3 12 0 0) (GoTime.neg GoTime.Day)) /\
  (1 <= length ["jaeger-dependencies-2025-01-03"; "jaeger-dependencies-2025-01-02"] <= 5)%nat.
Proof.
  apply (proj1 (proj2 (dependency_getReadIndices_returns_steps
                         (Dec := MoreExamples.sampleDecoding)
                         Examples.datedDependencyStore (GoTime.Date 2025 1 3 12 0 0)
                         GoTime.Day eq_refl)) 5%nat).
  vm_compute. reflexivity.
Defined.
